(** * BarFit / nirvana: kinematic data container and disk models

    A shallow embedding of [nirvana/data/kinematics.py],
    [nirvana/models/axisym.py] and [nirvana/models/bisym.py].

    Conventions of the embedding:
    - floating-point numbers are written as real numbers ([R]), which keeps
      every formula of the code but not its rounding; where a statement
      turns on rounding the code is embedded again over binary64 floats
      ([Float64]); integer arrays (bin ids, index vectors) are [Z] and [nat];
    - a numpy array is its shape together with its row-major buffer
      ([ravel]); [wf_ndarray] says that the buffer has [prod shape] items;
    - a Python call either returns or raises: [result];  methods that mutate
      [self] are state transformers that keep the state reached when they
      raise ([py]);
    - collaborators that are not part of these three files (FFT and beam
      construction, the geometry helper, the one-dimensional curves, the
      optimizer) are interfaces: type classes and records of functions. *)

From Stdlib Require Import Reals Lra Lia ZArith List String Bool Sorted.
From Stdlib Require PrimFloat Uint63.
From stdpp Require Import base list.
Import ListNotations.

(** ** Exceptions and results *)

Inductive exn : Type :=
| ValueError (msg : string)
| IndexError
| TypeError
| AttributeError (msg : string)
| UnboundLocalError (name : string)
| ZeroDivisionError
| SystemExit
| OtherError (msg : string).

Inductive result (A : Type) : Type :=
| Return (a : A)
| Raise (e : exn).
Arguments Return {A} a.
Arguments Raise {A} e.

#[global] Instance result_ret : MRet result := fun A a => Return a.
#[global] Instance result_bind : MBind result := fun A B f m =>
  match m with
  | Return a => f a
  | Raise e => Raise e
  end.

(** [if c: raise e] *)
Definition raise_if (c : bool) (e : exn) : result unit :=
  if c then Raise e else Return tt.

Definition is_None {A} (o : option A) : bool :=
  match o with
  | None => true
  | Some _ => false
  end.

(** ** numpy arrays *)

Record ndarray (A : Type) : Type := NDArray { shape : list nat; ravel : list A }.
Arguments NDArray {A} shape ravel.
Arguments shape {A} n.
Arguments ravel {A} n.

Definition np_prod (s : list nat) : nat := foldr Nat.mul 1%nat s.

Definition wf_ndarray {A} (a : ndarray A) : Prop :=
  length (ravel a) = np_prod (shape a).

Definition shape_eqb (s1 s2 : list nat) : bool :=
  bool_decide (s1 = s2).

(** [numpy.ma.MaskedArray] against a plain [numpy.ndarray]: the constructor
    of [Kinematics] branches on which of the two it is given. *)
Inductive marray : Type :=
| Plain (a : ndarray R)
| MaskedArray (data : ndarray R) (mask : ndarray bool).

Definition ma_data (m : marray) : ndarray R :=
  match m with
  | Plain a => a
  | MaskedArray d _ => d
  end.

Definition ma_shape (m : marray) : list nat := shape (ma_data m).

Definition wf_marray (m : marray) : Prop :=
  match m with
  | Plain a => wf_ndarray a
  | MaskedArray d k => wf_ndarray d /\ wf_ndarray k /\ shape k = shape d
  end.

(** [np.arange(n)] as indices. *)
Definition np_arange (n : nat) : list nat := seq 0 n.

(** [a[idx]] with an integer index vector: out of range raises. *)
Fixpoint np_take {A} (a : list A) (idx : list nat) : result (list A) :=
  match idx with
  | [] => Return []
  | i :: idx' =>
      match a !! i with
      | None => Raise IndexError
      | Some v => vs ← np_take a idx'; Return (v :: vs)
      end
  end.

(** [a[m]] with a boolean mask [m]: the lengths must agree. *)
Fixpoint mask_filter {A} (m : list bool) (a : list A) : list A :=
  match m, a with
  | b :: m', v :: a' => if b then v :: mask_filter m' a' else mask_filter m' a'
  | _, _ => []
  end.

Definition np_mask_select {A} (a : list A) (m : list bool) : result (list A) :=
  if Nat.eqb (length m) (length a) then Return (mask_filter m a)
  else Raise IndexError.

Definition count_true (m : list bool) : nat := length (filter (fun b => b = true) m).

(** [a[m] = vals] with a boolean mask [m]: scatter [vals] in order over the
    positions where [m] is [True]. *)
Fixpoint mask_scatter {A} (m : list bool) (a : list A) (vals : list A) : list A :=
  match m, a with
  | b :: m', v :: a' =>
      if b then
        match vals with
        | w :: vals' => w :: mask_scatter m' a' vals'
        | [] => v :: mask_scatter m' a' []
        end
      else v :: mask_scatter m' a' vals
  | _, _ => a
  end.

(** numpy accepts as many values as there are [True] entries, or a single
    value that it broadcasts; any other count is a [ValueError], and a mask
    of another length than the array an [IndexError]. *)
Definition np_mask_assign {A} (a : list A) (m : list bool) (vals : list A)
  : result (list A) :=
  if negb (Nat.eqb (length m) (length a)) then Raise IndexError
  else if Nat.eqb (length vals) (count_true m) then Return (mask_scatter m a vals)
  else match vals with
       | [w] => Return (mask_scatter m a (repeat w (count_true m)))
       | _ => Raise (ValueError "NumPy boolean array indexing assignment cannot assign input values to the output values where the mask is true")
       end.

(** [a[idx] = vals] with an integer index vector, one value per index; later
    assignments to the same position win. *)
Fixpoint scatter {A} (a : list A) (idx : list nat) (vals : list A) : list A :=
  match idx, vals with
  | i :: idx', v :: vals' => scatter (<[i := v]> a) idx' vals'
  | _, _ => a
  end.

(** ** [np.unique] with [return_index], [return_inverse], [return_counts] *)

Fixpoint insert_unique (z : Z) (l : list Z) : list Z :=
  match l with
  | [] => [z]
  | h :: t =>
      if (z <? h)%Z then z :: l
      else if (z =? h)%Z then l
      else h :: insert_unique z t
  end.

(** The sorted distinct values. *)
Definition unique_values (l : list Z) : list Z := foldr insert_unique [] l.

(** Position of the first occurrence of [z] in [l] ([length l] if absent). *)
Fixpoint index_of (z : Z) (l : list Z) : nat :=
  match l with
  | [] => 0%nat
  | h :: t => if (h =? z)%Z then 0%nat else S (index_of z t)
  end.

Definition count_of (z : Z) (l : list Z) : nat :=
  length (filter (fun v => v = z) l).

Definition np_unique (l : list Z) : list Z * list nat * list nat * list nat :=
  let u := unique_values l in
  (u,
   map (fun z => index_of z l) u,
   map (fun z => index_of z u) l,
   map (fun z => count_of z l) u).

(** [np.where(l == b)[0]] *)
Fixpoint where_eq_from (start : nat) (l : list Z) (b : Z) : list nat :=
  match l with
  | [] => []
  | h :: t =>
      if (h =? b)%Z then start :: where_eq_from (S start) t b
      else where_eq_from (S start) t b
  end.

Definition np_where_eq (l : list Z) (b : Z) : list nat := where_eq_from 0 l b.

(** [enumerate] *)
Definition enumerate {A} (l : list A) : list (nat * A) := zip (seq 0 (length l)) l.

(** ** Sparse matrices

    A [scipy.sparse] matrix is kept as its dimensions and its list of
    (value, row, column) entries.  Conversion to CSR sums entries that share
    a position; the product [csr_dot] sums over all entries of a row, which
    gives the same vector.  Over the real numbers the order of that sum does
    not matter; [Float64.csr_dot] keeps the order and the rounding. *)

Record csr_matrix : Type := CSR {
  nrows : nat;
  ncols : nat;
  entries : list (R * nat * nat)
}.

Fixpoint zip3 {A B C} (a : list A) (b : list B) (c : list C) : list (A * B * C) :=
  match a, b, c with
  | x :: a', y :: b', z :: c' => (x, y, z) :: zip3 a' b' c'
  | _, _, _ => []
  end.

(** [sparse.coo_matrix((d, (i, j)), shape=(m, n)).tocsr()] *)
Definition coo_matrix (d : list R) (i j : list nat) (m n : nat) : result csr_matrix :=
  let es := zip3 d i j in
  if forallb (fun e => match e with (_, r, c) => Nat.ltb r m && Nat.ltb c n end) es
  then Return (CSR m n es)
  else Raise (ValueError "index exceeds matrix dimensions").

Definition Rsum (l : list R) : R := foldr Rplus 0%R l.

Definition row_entries (m : csr_matrix) (r : nat) : list (R * nat * nat) :=
  filter (fun e => e.1.2 = r) (entries m).

Definition csr_dot (m : csr_matrix) (v : list R) : result (list R) :=
  if negb (Nat.eqb (length v) (ncols m)) then Raise (ValueError "dimension mismatch")
  else Return (map (fun r => Rsum (map (fun e => (e.1.1 * nth e.2 v 0)%R) (row_entries m r)))
                   (seq 0 (nrows m))).

(** ** Collaborators of the data container

    [numpy.fft] and [nirvana.models.beam.construct_beam] are used by
    [Kinematics._set_beam] only to fill [beam] and [beam_fft]. *)

Class BeamOps : Type := {
  complex : Type;
  (** [np.fft.fftn(np.fft.ifftshift(a))] *)
  fftn_ifftshift : ndarray R -> ndarray complex;
  (** [construct_beam(psf, aperture, return_fft=True)] *)
  construct_beam : ndarray R -> ndarray R -> ndarray complex;
  (** [np.fft.ifftn(b).real] *)
  ifftn_real : ndarray complex -> ndarray R
}.

(** Modelled from the spec: [nirvana.models.geometry.projected_polar]
    (section 4.2) is not part of these files.  It rotates the sky coordinates
    into the major/minor axis frame by [pa], compresses the minor axis by
    [cos(inc)] and returns radius and azimuth; it acts on each coordinate pair
    on its own, so it is taken as a function of one pair. *)
Class Geometry : Type := {
  projected_polar : R -> R -> R -> R -> R * R
}.

(** What [Kinematics.mock] takes from numpy and from [nirvana.models.oned]. *)
Class MockOps : Type := {
  (** [np.interp(v, xp, fp)] at one abscissa, for a non-empty [xp] *)
  np_interp : R -> list R -> list R -> R;
  (** [oned.Sersic1D(par).sample(r)] at one radius *)
  sersic1d_sample : list R -> R -> R;
  (** [np.load(file)] *)
  np_load : string -> result (ndarray R)
}.

(** [np.radians] *)
Definition np_radians (deg : R) : R := (deg * PI / 180)%R.

(** Truth value of a number: [if v:] *)
Definition truthy (v : R) : bool := if Req_dec_T v 0 then false else true.

(** Reading a local variable that may not have been assigned. *)
Definition read_local {A} (name : string) (v : option A) : result A :=
  match v with
  | Some a => Return a
  | None => Raise (UnboundLocalError name)
  end.

(** ** [nirvana.data.kinematics.Kinematics] *)

Module Kinematics.
Section WithBeamOps.
Context `{BeamOps} `{Geometry} `{MockOps}.

(** The arguments of [Kinematics.__init__]. *)
Record args : Type := Args {
  arg_vel : marray;
  arg_vel_ivar : option marray;
  arg_vel_mask : option (ndarray bool);
  arg_x : option (ndarray R);
  arg_y : option (ndarray R);
  arg_sb : option marray;
  arg_sb_ivar : option marray;
  arg_sb_mask : option (ndarray bool);
  arg_sig : option marray;
  arg_sig_ivar : option marray;
  arg_sig_mask : option (ndarray bool);
  arg_sig_corr : option marray;
  arg_psf : option (ndarray R);
  arg_aperture : option (ndarray R);
  arg_binid : option (ndarray Z);
  arg_grid_x : option (ndarray R);
  arg_grid_y : option (ndarray R);
  arg_reff : option R;
  arg_fwhm : option R;
  arg_bordermask : option (ndarray R)
}.

(** The attributes of an instance once [__init__] has returned. *)
Record t : Type := Kin {
  nimg : nat;
  spatial_shape : list nat;
  beam : option (ndarray R);
  beam_fft : option (ndarray complex);
  reff : option R;
  fwhm : option R;
  bordermask : option (list bool);
  x : list R;
  y : list R;
  sb : option (list R);
  sb_ivar : option (list R);
  sb_mask : option (list bool);
  vel : option (list R);
  vel_ivar : option (list R);
  vel_mask : option (list bool);
  sig : option (list R);
  sig_ivar : option (list R);
  sig_mask : option (list bool);
  sig_corr : option (ndarray R);
  binid : option (list Z);
  grid_x : option (ndarray R);
  grid_y : option (ndarray R);
  grid_indx : list nat;
  bin_inverse : list nat;
  bin_transform : csr_matrix
}.

Definition opt_shape {A} (o : option (ndarray A)) : option (list nat) := shape <$> o.
Definition opt_ma_shape (o : option marray) : option (list nat) := ma_shape <$> o.

(** The shapes of
    [[vel_ivar, vel_mask, x, y, sb, sb_ivar, sb_mask, sig, sig_ivar,
      sig_mask, sig_corr, psf, aperture, binid, grid_x, grid_y]]. *)
Definition companion_shapes (a : args) : list (option (list nat)) :=
  [ opt_ma_shape (arg_vel_ivar a); opt_shape (arg_vel_mask a);
    opt_shape (arg_x a); opt_shape (arg_y a);
    opt_ma_shape (arg_sb a); opt_ma_shape (arg_sb_ivar a); opt_shape (arg_sb_mask a);
    opt_ma_shape (arg_sig a); opt_ma_shape (arg_sig_ivar a); opt_shape (arg_sig_mask a);
    opt_ma_shape (arg_sig_corr a);
    opt_shape (arg_psf a); opt_shape (arg_aperture a);
    opt_shape (arg_binid a); opt_shape (arg_grid_x a); opt_shape (arg_grid_y a) ].

(** [a is not None and a.shape != vel.shape] *)
Definition shape_mismatch (vshape : list nat) (s : option (list nat)) : bool :=
  match s with
  | None => false
  | Some sh => negb (shape_eqb sh vshape)
  end.

(** The condition of the last check of the constructor,
    [binid is not None and grid_x is None or grid_y is None]:
    Python's [and] binds tighter than [or]. *)
Definition binned_without_grid (a : args) : bool :=
  (negb (is_None (arg_binid a)) && is_None (arg_grid_x a)) || is_None (arg_grid_y a).

Definition binned_without_grid_msg : string :=
  "If the data are binned, you must provide the pixel-by-pixel input coordinate grids, grid_x and grid_y.".

(** "Check shape of input arrays": returns [nimg]. *)
Definition check_args (a : args) : result nat :=
  let vshape := ma_shape (arg_vel a) in
  match vshape with
  | [] => Raise IndexError
  | n :: _ =>
      _ ← raise_if (negb (Nat.eqb (length vshape) 2))
            (ValueError "Input arrays to Kinematics must be 2D.");
      _ ← raise_if (negb (Nat.eqb (nth 1 vshape 0%nat) n))
            (ValueError "Input arrays to Kinematics must be square.");
      _ ← raise_if (existsb (shape_mismatch vshape) (companion_shapes a))
            (ValueError "All arrays provided to Kinematics must have the same shape.");
      _ ← raise_if ((is_None (arg_x a) && negb (is_None (arg_y a)))
                    || (negb (is_None (arg_x a)) && is_None (arg_y a)))
            (ValueError "Must provide both x and y or neither.");
      _ ← raise_if (binned_without_grid a) (ValueError binned_without_grid_msg);
      Return n
  end.

(** [_set_beam]: the pair [(beam, beam_fft)]. *)
Definition _set_beam (psf aperture : option (ndarray R))
  : option (ndarray R) * option (ndarray complex) :=
  match psf, aperture with
  | None, None => (None, None)
  | None, Some ap => (Some ap, Some (fftn_ifftshift ap))
  | Some p, None => (Some p, Some (fftn_ifftshift p))
  | Some p, Some ap =>
      let bf := construct_beam p ap in (Some (ifftn_real bf), Some bf)
  end.

(** [_ivar > 0] on reals. *)
Definition Rpositive (v : R) : bool := if Rlt_dec 0 v then true else false.

(** [m |= n] on boolean buffers of one shape. *)
Definition mask_or (m n : list bool) : list bool := zip_with orb m n.

Definition ma_or_mask (m : list bool) (d : marray) : list bool :=
  match d with
  | Plain _ => m
  | MaskedArray _ k => mask_or m (ravel k)
  end.

(** [_ingest(data, ivar, mask)]: the raveled buffers of the three arrays it
    returns (all of shape [spatial_shape]). *)
Definition _ingest (spatial : list nat) (data ivar : option marray)
                   (mask : option (ndarray bool))
  : option (list R) * option (list R) * option (list bool) :=
  match data with
  | None => (None, None, None)
  | Some d =>
      let _mask0 := match mask with
                    | None => repeat false (np_prod spatial)
                    | Some m => ravel m
                    end in
      let _mask1 := ma_or_mask _mask0 d in
      let _data := ravel (ma_data d) in
      match ivar with
      | None => (Some _data, None, Some _mask1)
      | Some iv =>
          let _mask2 := ma_or_mask _mask1 iv in
          let _ivar := ravel (ma_data iv) in
          (Some _data, Some _ivar,
           Some (mask_or _mask2 (map (fun v => negb (Rpositive v)) _ivar)))
      end
  end.

(** [np.meshgrid(xs, ys)] with the default ['xy'] indexing: both outputs have
    shape [(len(ys), len(xs))], the first repeats [xs] in every row, the
    second is constant along each row. *)
Definition np_meshgrid {A} (xs ys : list A) : ndarray A * ndarray A :=
  (NDArray [length ys; length xs] (concat (map (fun _ => xs) ys)),
   NDArray [length ys; length xs] (concat (map (fun v => repeat v (length xs)) ys))).

(** The default coordinates:
    [map(lambda x : x - nimg//2,
         np.meshgrid(np.arange(nimg)[::-1], np.arange(nimg)))]. *)
Definition default_grid (n : nat) : ndarray Z * ndarray Z :=
  let ar := map Z.of_nat (np_arange n) in
  let g := np_meshgrid (rev ar) ar in
  let off := fun a => NDArray (shape a) (map (fun v => (v - Z.of_nat n / 2)%Z) (ravel a)) in
  (off g.1, off g.2).

Definition astype_float (a : ndarray Z) : ndarray R :=
  NDArray (shape a) (map IZR (ravel a)).

(** [bordermask.astype(bool)] *)
Definition astype_bool (a : ndarray R) : ndarray bool :=
  NDArray (shape a) (map (fun v => if Req_dec_T v 0 then false else true) (ravel a)).

(** [getattr(self, attr).ravel()[indx]] when the attribute is not [None]. *)
Definition select {A} (o : option (list A)) (indx : list nat) : result (option (list A)) :=
  match o with
  | None => Return None
  | Some l => r ← np_take l indx; Return (Some r)
  end.

(** The bin bookkeeping of the constructor for binned data: from the raveled
    bin-id map and the number of grid cells to
    [(binid, indx, grid_indx, bin_inverse, bin_transform)]. *)
Definition bin_setup (binid_map : list Z) (ncell : nat)
  : result (list Z * list nat * list nat * list nat * csr_matrix) :=
  let '(ids, indx, inverse, nbin) := np_unique binid_map in
  let grid_indx0 := np_arange ncell in
  r ← (if existsb (fun b => (b =? -1)%Z) ids then
         let keep := map (fun k => Nat.ltb 0 k) inverse in
         gi ← np_mask_select grid_indx0 keep;
         bi ← np_mask_select inverse keep;
         Return (tail ids, tail indx, gi, map (fun k => (k - 1)%nat) bi, tail nbin)
       else Return (ids, indx, grid_indx0, inverse, nbin));
  let '(ids, indx, gi, bi, nbin) := r in
  let dij := flat_map (fun ib => map (fun j => ((1 / INR (nth ib.1 nbin 0%nat))%R, ib.1, j))
                                     (np_where_eq binid_map ib.2))
                      (enumerate ids) in
  match dij with
  | [] => Raise (ValueError "not enough values to unpack (expected 3, got 0)")
  | _ =>
      bt ← coo_matrix (map (fun e => e.1.1) dij) (map (fun e => e.1.2) dij)
                      (map (fun e => e.2) dij) (length ids) ncell;
      Return (ids, indx, gi, bi, bt)
  end.

(** "Build coordinate arrays": the raveled [x] and [y] before the selection
    of the unique measurements.  After [check_args], [y] is given exactly
    when [x] is. *)
Definition coordinates (a : args) (n : nat) : list R * list R :=
  match arg_x a, arg_y a with
  | Some gx, Some gy => (ravel gx, ravel gy)
  | _, _ => let g := default_grid n in
            (ravel (astype_float g.1), ravel (astype_float g.2))
  end.

(** [sig_corr] is treated apart from the ingested triples: the pair
    [(sig_mask, sig_corr)]. *)
Definition ingest_sig_corr (sig_mask0 : option (list bool)) (sc : option marray)
  : result (option (list bool) * option (ndarray R)) :=
  match sc with
  | Some (MaskedArray d k) =>
      match sig_mask0 with
      | None => Raise TypeError
      | Some m => Return (Some (mask_or m (ravel k)), Some d)
      end
  | Some (Plain d) => Return (sig_mask0, Some d)
  | None => Return (sig_mask0, None)
  end.

(** The arrays that convert between the unique measurements and the full
    map: [(binid, indx, grid_indx, bin_inverse, bin_transform)]. *)
Definition bin_bookkeeping (bid : option (ndarray Z)) (ncell : nat)
  : result (option (list Z) * list nat * list nat * list nat * csr_matrix) :=
  let grid_indx0 := np_arange ncell in
  ident ← coo_matrix (repeat 1%R ncell) grid_indx0 grid_indx0 ncell ncell;
  match bid with
  | None => Return (None, grid_indx0, grid_indx0, grid_indx0, ident)
  | Some b =>
      r ← bin_setup (ravel b) ncell;
      Return (Some r.1.1.1.1, r.1.1.1.2, r.1.1.2, r.1.2, r.2)
  end.

Definition __init__ (a : args) : result t :=
  n ← check_args a;
  let spatial := ma_shape (arg_vel a) in
  let ncell := np_prod spatial in
  let bm := _set_beam (arg_psf a) (arg_aperture a) in
  let bordermask0 := (fun b => ravel (astype_bool b)) <$> arg_bordermask a in
  let xy := coordinates a n in
  let sb0 := _ingest spatial (arg_sb a) (arg_sb_ivar a) (arg_sb_mask a) in
  let vel0 := _ingest spatial (Some (arg_vel a)) (arg_vel_ivar a) (arg_vel_mask a) in
  let sig0 := _ingest spatial (arg_sig a) (arg_sig_ivar a) (arg_sig_mask a) in
  sc ← ingest_sig_corr sig0.2 (arg_sig_corr a);
  b ← bin_bookkeeping (arg_binid a) ncell;
  let indx := b.1.1.1.2 in
  x1 ← np_take xy.1 indx;
  y1 ← np_take xy.2 indx;
  sb1 ← select sb0.1.1 indx;
  sb_ivar1 ← select sb0.1.2 indx;
  sb_mask1 ← select sb0.2 indx;
  vel1 ← select vel0.1.1 indx;
  vel_ivar1 ← select vel0.1.2 indx;
  vel_mask1 ← select vel0.2 indx;
  sig1 ← select sig0.1.1 indx;
  sig_ivar1 ← select sig0.1.2 indx;
  sig_mask1 ← select sc.1 indx;
  bordermask1 ← select bordermask0 indx;
  Return {| nimg := n; spatial_shape := spatial; beam := bm.1; beam_fft := bm.2;
            reff := arg_reff a; fwhm := arg_fwhm a; bordermask := bordermask1;
            x := x1; y := y1;
            sb := sb1; sb_ivar := sb_ivar1; sb_mask := sb_mask1;
            vel := vel1; vel_ivar := vel_ivar1; vel_mask := vel_mask1;
            sig := sig1; sig_ivar := sig_ivar1; sig_mask := sig_mask1;
            sig_corr := sc.2;
            binid := b.1.1.1.1; grid_x := arg_grid_x a; grid_y := arg_grid_y a;
            grid_indx := b.1.1.2; bin_inverse := b.1.2; bin_transform := b.2 |}.


(** [a[idx] = vals] for index vectors: an index past the end raises, the
    values are one per index or a single broadcast value. *)
Definition np_index_assign {A} (a : list A) (idx : list nat) (vals : list A)
  : result (list A) :=
  if negb (forallb (fun i => Nat.ltb i (length a)) idx) then Raise IndexError
  else if Nat.eqb (length vals) (length idx) then Return (scatter a idx vals)
  else match vals with
       | [w] => Return (scatter a idx (repeat w (length idx)))
       | _ => Raise (ValueError "shape mismatch: value array could not be broadcast to indexing result")
       end.

(** [np.unravel_index(idx, shape)]: an index past the last cell is a
    [ValueError].  The multi-index is used at once to address the same cell,
    so the flat position is kept. *)
Definition np_unravel_index (idx : list nat) (shp : list nat) : result (list nat) :=
  if forallb (fun i => Nat.ltb i (np_prod shp)) idx then Return idx
  else Raise (ValueError "index is out of bounds for array").

(** The first argument of [remap]: an array, or the name of an attribute. *)
Inductive remap_arg : Type :=
| RemapData (d : ndarray R)
| RemapAttr (name : string).

(** What [remap] returns: [None], a plain array, or a masked array. *)
Inductive remap_out : Type :=
| RemapNone
| RemapArray (a : ndarray R)
| RemapMasked (a : ndarray R) (mask : ndarray bool).

(** [hasattr]/[getattr] for the per-measurement float vectors.  Names outside
    this table are outside the model: whether they are attributes depends on
    the base class [FitArgs], which is not part of these files. *)
Definition getattr_vector (k : t) (name : string) : option (option (list R)) :=
  if String.eqb name "x" then Some (Some (x k))
  else if String.eqb name "y" then Some (Some (y k))
  else if String.eqb name "sb" then Some (sb k)
  else if String.eqb name "sb_ivar" then Some (sb_ivar k)
  else if String.eqb name "vel" then Some (vel k)
  else if String.eqb name "vel_ivar" then Some (vel_ivar k)
  else if String.eqb name "sig" then Some (sig k)
  else if String.eqb name "sig_ivar" then Some (sig_ivar k)
  else None.

(** [getattr(self, name + '_mask')] for the names of [getattr_vector]: only
    [sb], [vel] and [sig] have a mask attribute. *)
Definition getattr_mask (k : t) (name : string) : option (list bool) :=
  if String.eqb name "sb" then sb_mask k
  else if String.eqb name "vel" then vel_mask k
  else if String.eqb name "sig" then sig_mask k
  else None.

(** [remap(data, masked)].  Where the source starts from [np.ma.masked_all]
    the cells that stay masked hold uninitialised memory; they are [0] here. *)
Definition remap (k : t) (data : remap_arg) (masked : bool) : result remap_out :=
  let ncell := np_prod (spatial_shape k) in
  match data with
  | RemapData d =>
      match vel k with
      | None => Raise (AttributeError "'NoneType' object has no attribute 'shape'")
      | Some v =>
          _ ← raise_if (negb (shape_eqb (shape d) [length v]))
                (ValueError "To remap, must have the same shape as the internal data attributes.");
          cells ← np_unravel_index (grid_indx k) (spatial_shape k);
          vals ← np_take (ravel d) (bin_inverse k);
          _data ← np_index_assign (repeat 0%R ncell) cells vals;
          if masked then
            m ← np_index_assign (repeat true ncell) cells
                                (repeat false (length vals));
            Return (RemapMasked (NDArray (spatial_shape k) _data)
                                (NDArray (spatial_shape k) m))
          else Return (RemapArray (NDArray (spatial_shape k) _data))
      end
  | RemapAttr name =>
      match getattr_vector k name with
      | None => Raise (AttributeError ("No attribute called " ++ name ++ "."))
      | Some None => Return RemapNone
      | Some (Some v) =>
          cells ← np_unravel_index (grid_indx k) (spatial_shape k);
          vals ← np_take v (bin_inverse k);
          _data ← np_index_assign (repeat 0%R ncell) cells vals;
          match (if masked then getattr_mask k name else None) with
          | None => Return (RemapArray (NDArray (spatial_shape k) _data))
          | Some mk =>
              cells' ← np_unravel_index (grid_indx k) (spatial_shape k);
              mvals ← np_take mk (bin_inverse k);
              m ← np_index_assign (repeat true ncell) cells' mvals;
              Return (RemapMasked (NDArray (spatial_shape k) _data)
                                  (NDArray (spatial_shape k) m))
          end
      end
  end.

(** [bin(data)] *)
Definition bin (k : t) (data : ndarray R) : result (list R) :=
  _ ← raise_if (negb (shape_eqb (shape data) (spatial_shape k)))
        (ValueError "Data to rebin has incorrect shape.");
  csr_dot (bin_transform k) (ravel data).

(** [np.amin], [np.amax]: an empty array has no minimum. *)
Definition np_amin (l : list R) : result R :=
  match l with
  | [] => Raise (ValueError "zero-size array to reduction operation minimum which has no identity")
  | h :: t => Return (foldl Rmin h t)
  end.

Definition np_amax (l : list R) : result R :=
  match l with
  | [] => Raise (ValueError "zero-size array to reduction operation maximum which has no identity")
  | h :: t => Return (foldl Rmax h t)
  end.

(** [max_radius()] *)
Definition max_radius (k : t) : result R :=
  minx ← np_amin (x k);
  maxx ← np_amax (x k);
  miny ← np_amin (y k);
  maxy ← np_amax (y k);
  Return (sqrt ((Rmax (Rabs minx) maxx) ^ 2 + (Rmax (Rabs miny) maxy) ^ 2)).


(** *** [Kinematics.mock] *)

Record mock_args : Type := MockArgs {
  m_size : Z;
  m_inc : R;
  m_pa : R;
  m_pab : R;
  m_vsys : R;
  m_vt : list R;
  m_v2t : list R;
  m_v2r : list R;
  m_sig : list R;
  m_xc : R;
  m_yc : R;
  m_reff : R;
  m_maxr : R;
  m_psf : option (ndarray R);
  m_border : R;
  m_fwhm : R
}.

(** [int(v)]: truncation toward zero. *)
Definition py_int (v : R) : Z :=
  if Rle_dec 0 v then Int_part v else (- Int_part (- v))%Z.

(** [np.linspace(a, b, num)] *)
Definition np_linspace (a b : R) (num : Z) : result (list R) :=
  if (num <? 0)%Z then Raise (ValueError "Number of samples must be non-negative.")
  else Return (match Z.to_nat num with
               | 0%nat => []
               | 1%nat => [a]
               | S m => map (fun i => (a + INR i * ((b - a) / INR m))%R) (seq 0 (S m))
               end).

(** [np.interp(r, xp, fp)] over an array of abscissae. *)
Definition interp (r xp fp : list R) : result (list R) :=
  match xp with
  | [] => Raise (ValueError "array of sample points is empty")
  | _ => Return (map (fun v => np_interp v xp fp) r)
  end.

(** The bound of a slice [lo:hi] on an axis of [n] cells. *)
Definition slice_bound (z : Z) (n : nat) : nat :=
  Z.to_nat (if (z <? 0)%Z then Z.max (z + Z.of_nat n) 0 else Z.min z (Z.of_nat n)).

Definition in_window (lo hi i j : nat) : bool :=
  Nat.leb lo i && Nat.ltb i hi && Nat.leb lo j && Nat.ltb j hi.

(** A square array of side [n] given cell by cell. *)
Definition tabulate2 {A} (n : nat) (f : nat -> nat -> A) : ndarray A :=
  NDArray [n; n] (flat_map (fun i => map (fun j => f i j) (seq 0 n)) (seq 0 n)).

(** The shape of a source array seen as two-dimensional, as broadcasting
    does: leading axes of length one are dropped or added. *)
Definition as_2d (s : list nat) : option (nat * nat) :=
  match rev s with
  | [] => Some (1%nat, 1%nat)
  | [q] => Some (1%nat, q)
  | q :: p :: lead => if forallb (Nat.eqb 1) lead then Some (p, q) else None
  end.

(** [dst[lo:hi, lo:hi] = src] on a square [dst] of side [n]. *)
Definition window_assign (n : nat) (dst : ndarray R) (lo hi : nat) (src : ndarray R)
  : result (ndarray R) :=
  let h := (hi - lo)%nat in
  match as_2d (shape src) with
  | Some (p, q) =>
      if (Nat.eqb p h || Nat.eqb p 1) && (Nat.eqb q h || Nat.eqb q 1) then
        Return (tabulate2 n (fun i j =>
          if in_window lo hi i j then
            nth ((if Nat.eqb p 1 then 0 else i - lo) * q
                 + (if Nat.eqb q 1 then 0 else j - lo))%nat (ravel src) 0%R
          else nth (i * n + j)%nat (ravel dst) 0%R))
      else Raise (ValueError "could not broadcast input array")
  | None => Raise (ValueError "could not broadcast input array")
  end.

Definition mock (a : mock_args) : result t :=
  let nv := length (m_vt a) in
  _ ← raise_if (negb (Nat.eqb nv (length (m_v2t a)))
                || negb (Nat.eqb nv (length (m_v2r a)))
                || negb (Nat.eqb nv (length (m_sig a))))
        (ValueError "Velocity arrays must be the same length.");
  (* make grid of x and y *)
  g ← (if truthy (m_border a) then
         let _r := (m_maxr a + m_border a * m_fwhm a)%R in
         _ ← raise_if (negb (truthy (m_maxr a))) ZeroDivisionError;
         let _size := (py_int (_r / m_maxr a * IZR (m_size a)) + 1)%Z in
         Return (_r, _size, Some ((_size - m_size a) / 2)%Z)
       else Return (m_maxr a, m_size a, None));
  let '(_r, _size, _bsize) := g in
  av ← np_linspace (- _r) _r _size;
  edges ← np_linspace 0 (m_maxr a) (Z.of_nat nv + 1);
  let '(gx, gy) := np_meshgrid av av in
  (* convert angles to polar and normalize radial coordinate *)
  let _inc := np_radians (m_inc a) in
  let _pa := np_radians (m_pa a) in
  let _pab := np_radians (m_pab a) in
  let rth := zip_with (fun xv yv => projected_polar (xv - m_xc a) (yv - m_yc a) _pa _inc)
                      (ravel gx) (ravel gy) in
  let r := map fst rth in
  let th := map snd rth in
  (* interpolate velocity values for all r *)
  let bincents := zip_with (fun e0 e1 => ((e0 + e1) / 2)%R) (removelast edges) (tail edges) in
  vtvals ← interp r bincents (m_vt a);
  v2tvals ← interp r bincents (m_v2t a);
  v2rvals ← interp r bincents (m_v2r a);
  sigv ← interp r bincents (m_sig a);
  let sbv := map (sersic1d_sample [1; 10; 1]%R) r in
  (* second-order velocity field *)
  let velv := zip_with (fun t '(vt_, v2t_, v2r_) =>
                (m_vsys a + sin _inc * (vt_ * cos t - v2t_ * cos (2 * (t - _pab)) * cos t
                                         - v2r_ * sin (2 * (t - _pab)) * sin t))%R)
                th (zip3 vtvals v2tvals v2rvals) in
  (* load the example PSF if none is provided *)
  psf ← match m_psf a with
        | None => np_load "psfexample56.npy"
        | Some p => Return p
        end;
  (* make border around PSF if necessary; the masked copies made in this
     branch are overwritten by the assignment that follows it *)
  let n := length av in
  loc ← (if truthy (m_border a) then
           bs ← read_local "_bsize" _bsize;
           let lo := slice_bound bs n in
           let hi := slice_bound (- bs) n in
           let bordermask := tabulate2 n (fun i j => if in_window lo hi i j then 0%R else 1%R) in
           _psf ← window_assign n (NDArray [n; n] (repeat 0%R (n * n))) lo hi psf;
           Return (Some _psf, Some bordermask)
         else Return (None, None));
  let '(_psf, bordermask) := loc in
  let shp := shape gx in
  let binid := NDArray shp (map Z.of_nat (np_arange (np_prod shp))) in
  (* the arguments of [cls(...)] are evaluated in the order written *)
  psf_arg ← read_local "_psf" _psf;
  bordermask_arg ← read_local "bordermask" bordermask;
  __init__ {| arg_vel := Plain (NDArray shp velv);
              arg_vel_ivar := None; arg_vel_mask := None;
              arg_x := Some gx; arg_y := Some gy;
              arg_sb := Some (Plain (NDArray shp sbv));
              arg_sb_ivar := None; arg_sb_mask := None;
              arg_sig := Some (Plain (NDArray shp sigv));
              arg_sig_ivar := None; arg_sig_mask := None; arg_sig_corr := None;
              arg_psf := Some psf_arg; arg_aperture := None;
              arg_binid := Some binid;
              arg_grid_x := Some gx; arg_grid_y := Some gy;
              arg_reff := Some (m_reff a); arg_fwhm := None;
              arg_bordermask := Some bordermask_arg |}.

(** *** [Kinematics.border] *)

(** [np.ma.array(data, mask=mask)] for a vector [data]: a mask of the same
    size is taken as it is, a mask of one element is repeated, and any other
    size is a [MaskError]. *)
Definition np_ma_array {A} (data : list A) (mask : list bool) : result (list A * list bool) :=
  if Nat.eqb (length mask) (length data) then Return (data, mask)
  else match mask with
       | [b] => Return (data, repeat b (length data))
       | _ => Raise (OtherError "MaskError: Mask and data not compatible")
       end.

(** [np.ma.array(getattr(self, attr), mask=self.bordermask)] when the
    attribute is not [None]. *)
Definition ma_opt {A} (o : option (list A)) (m : list bool)
  : result (option (list A * list bool)) :=
  match o with
  | None => Return None
  | Some d => r ← np_ma_array d m; Return (Some r)
  end.

(** The attributes that [border()] replaces by masked arrays, as pairs of
    data and mask. *)
Record bordered : Type := Bordered {
  b_x : list R * list bool;
  b_y : list R * list bool;
  b_sb : option (list R * list bool);
  b_sb_ivar : option (list R * list bool);
  b_sb_mask : option (list bool * list bool);
  b_vel : option (list R * list bool);
  b_vel_ivar : option (list R * list bool);
  b_vel_mask : option (list bool * list bool);
  b_sig : option (list R * list bool);
  b_sig_ivar : option (list R * list bool);
  b_sig_mask : option (list bool * list bool)
}.

(** [border()] *)
Definition border (k : t) : result bordered :=
  match bordermask k with
  | None => Raise (ValueError "Must set bordermask first")
  | Some m =>
      x1 ← np_ma_array (x k) m;
      y1 ← np_ma_array (y k) m;
      sb1 ← ma_opt (sb k) m;
      sb_ivar1 ← ma_opt (sb_ivar k) m;
      sb_mask1 ← ma_opt (sb_mask k) m;
      vel1 ← ma_opt (vel k) m;
      vel_ivar1 ← ma_opt (vel_ivar k) m;
      vel_mask1 ← ma_opt (vel_mask k) m;
      sig1 ← ma_opt (sig k) m;
      sig_ivar1 ← ma_opt (sig_ivar k) m;
      sig_mask1 ← ma_opt (sig_mask k) m;
      Return {| b_x := x1; b_y := y1;
                b_sb := sb1; b_sb_ivar := sb_ivar1; b_sb_mask := sb_mask1;
                b_vel := vel1; b_vel_ivar := vel_ivar1; b_vel_mask := vel_mask1;
                b_sig := sig1; b_sig_ivar := sig_ivar1; b_sig_mask := sig_mask1 |}
  end.

End WithBeamOps.
End Kinematics.

(** ** The bin transform in binary64

    The weights [1/nbin] of [bin_transform] and the sums that [bin] takes
    over them are rounded: six weights [1/6] do not add up to one.  Where a
    statement about the program turns on that, the code of "Construct the bin
    transform", of [bin] and of [remap] is embedded here a second time, with
    the floating-point numbers as Rocq's primitive binary64 floats.  The
    integer bookkeeping is the same functions as above. *)

Module Float64.

(** An integer count or index as a float. *)
Definition of_nat (n : nat) : PrimFloat.float :=
  PrimFloat.of_uint63 (Uint63.of_Z (Z.of_nat n)).

Record csr_matrix : Type := CSR {
  nrows : nat;
  ncols : nat;
  entries : list (PrimFloat.float * nat * nat)
}.

(** [sparse.coo_matrix((d, (i, j)), shape=(m, n)).tocsr()] *)
Definition coo_matrix (d : list PrimFloat.float) (i j : list nat) (m n : nat)
  : result csr_matrix :=
  let es := zip3 d i j in
  if forallb (fun e => match e with (_, r, c) => Nat.ltb r m && Nat.ltb c n end) es
  then Return (CSR m n es)
  else Raise (ValueError "index exceeds matrix dimensions").

Definition row_entries (m : csr_matrix) (r : nat) : list (PrimFloat.float * nat * nat) :=
  filter (fun e => e.1.2 = r) (entries m).


(** [m.dot(v)]: each entry of the result starts at zero and takes up the
    products of its row one after the other. *)
Definition csr_dot (m : csr_matrix) (v : list PrimFloat.float)
  : result (list PrimFloat.float) :=
  if negb (Nat.eqb (length v) (ncols m)) then Raise (ValueError "dimension mismatch")
  else Return (map (fun r =>
                      fold_left (fun acc e =>
                                   PrimFloat.add acc (PrimFloat.mul e.1.1 (nth e.2 v (of_nat 0))))
                                (row_entries m r) (of_nat 0))
                   (seq 0 (nrows m))).

(** The bin bookkeeping of the constructor for binned data, with the weights
    [1/nbin[i]] as float quotients. *)
Definition bin_setup (binid_map : list Z) (ncell : nat)
  : result (list Z * list nat * list nat * list nat * csr_matrix) :=
  let '(ids, indx, inverse, nbin) := np_unique binid_map in
  let grid_indx0 := np_arange ncell in
  r ← (if existsb (fun b => (b =? -1)%Z) ids then
         let keep := map (fun k => Nat.ltb 0 k) inverse in
         gi ← np_mask_select grid_indx0 keep;
         bi ← np_mask_select inverse keep;
         Return (tail ids, tail indx, gi, map (fun k => (k - 1)%nat) bi, tail nbin)
       else Return (ids, indx, grid_indx0, inverse, nbin));
  let '(ids, indx, gi, bi, nbin) := r in
  let dij := flat_map (fun ib =>
                         map (fun j => (PrimFloat.div (of_nat 1) (of_nat (nth ib.1 nbin 0%nat)),
                                        ib.1, j))
                             (np_where_eq binid_map ib.2))
                      (enumerate ids) in
  match dij with
  | [] => Raise (ValueError "not enough values to unpack (expected 3, got 0)")
  | _ =>
      bt ← coo_matrix (map (fun e => e.1.1) dij) (map (fun e => e.1.2) dij)
                      (map (fun e => e.2) dij) (length ids) ncell;
      Return (ids, indx, gi, bi, bt)
  end.

(** [(binid, indx, grid_indx, bin_inverse, bin_transform)], the identity
    operator being built from [np.ones]. *)
Definition bin_bookkeeping (bid : option (ndarray Z)) (ncell : nat)
  : result (option (list Z) * list nat * list nat * list nat * csr_matrix) :=
  let grid_indx0 := np_arange ncell in
  ident ← coo_matrix (repeat (of_nat 1) ncell) grid_indx0 grid_indx0 ncell ncell;
  match bid with
  | None => Return (None, grid_indx0, grid_indx0, grid_indx0, ident)
  | Some b =>
      r ← bin_setup (ravel b) ncell;
      Return (Some r.1.1.1.1, r.1.1.1.2, r.1.1.2, r.1.2, r.2)
  end.

(** [remap(data, masked=False)] for an array [data], on an instance with
    [nmeas] measurements. *)
Definition remap (spatial_shape : list nat) (grid_indx bin_inverse : list nat) (nmeas : nat)
    (d : ndarray PrimFloat.float) : result (ndarray PrimFloat.float) :=
  let ncell := np_prod spatial_shape in
  _ ← raise_if (negb (shape_eqb (shape d) [nmeas]))
        (ValueError "To remap, must have the same shape as the internal data attributes.");
  cells ← Kinematics.np_unravel_index grid_indx spatial_shape;
  vals ← np_take (ravel d) bin_inverse;
  _data ← Kinematics.np_index_assign (repeat (of_nat 0) ncell) cells vals;
  Return (NDArray spatial_shape _data).

(** [bin(data)] *)
Definition bin (spatial_shape : list nat) (bin_transform : csr_matrix)
    (data : ndarray PrimFloat.float) : result (list PrimFloat.float) :=
  _ ← raise_if (negb (shape_eqb (shape data) spatial_shape))
        (ValueError "Data to rebin has incorrect shape.");
  csr_dot bin_transform (ravel data).

End Float64.

(** ** Methods that mutate [self]

    A method is a transformer of the instance's attributes; when it raises,
    the assignments made before the [raise] stay. *)

Definition py (S A : Type) : Type := S -> result A * S.

#[global] Instance py_ret {S} : MRet (py S) := fun A a s => (Return a, s).
#[global] Instance py_bind {S} : MBind (py S) := fun A B f m s =>
  match m s with
  | (Return a, s') => f a s'
  | (Raise e, s') => (Raise e, s')
  end.

Definition py_raise {S A} (e : exn) : py S A := fun s => (Raise e, s).
Definition py_get {S} : py S S := fun s => (Return s, s).
Definition py_put {S} (s : S) : py S unit := fun _ => (Return tt, s).
Definition py_modify {S} (f : S -> S) : py S unit := fun s => (Return tt, f s).
(** A call without effect on [self]. *)
Definition py_lift {S A} (r : result A) : py S A := fun s => (r, s).
(** [try: body / except: handler]: a bare [except] catches everything. *)
Definition py_try {S A} (body : py S A) (handler : py S A) : py S A := fun s =>
  match body s with
  | (Return a, s') => (Return a, s')
  | (Raise _, s') => handler s'
  end.

(** ** Collaborators of the disk models *)

(** Modelled from the spec: the one-dimensional curve families of
    [nirvana.models.oned] (section 6) are not part of these files.  Each
    exposes a parameter count, a default guess, lower and upper bounds, and
    [sample(r, par)], which is evaluated radius by radius. *)
Record Curve1D : Type := {
  curve_np : nat;
  curve_guess_par : list R;
  curve_lb : list R;
  curve_ub : list R;
  curve_sample : R -> list R -> R
}.

(** Which bound method is handed to the optimizer as merit function. *)
Inductive fom_kind : Type :=
| FomResid
| FomChisqr.

(** The arguments of one call of [scipy.optimize.least_squares]. *)
Record lsq_call : Type := LsqCall {
  lsq_fun : fom_kind;
  lsq_x0 : list R;
  lsq_method : string;
  lsq_bounds : list R * list R;
  lsq_diff_step : list R;
  lsq_verbose : Z
}.

(** [scipy.optimize.least_squares] and [nirvana.models.util.cov_err].  The
    optimizer evaluates the merit function, a bound method that stores each
    trial vector in [self.par]; this effect on the model instance is part of
    its transformer. *)
Class Optimizer (S : Type) : Type := {
  jacobian : Type;
  least_squares : lsq_call -> py S (ndarray R * jacobian);
  cov_err : jacobian -> result (ndarray R)
}.

(** [np.diag(c)] of a two-dimensional array. *)
Definition np_diag (c : ndarray R) : result (list R) :=
  match shape c with
  | [n; m] => Return (map (fun i => nth (i * m + i)%nat (ravel c) 0%R) (seq 0 (Nat.min n m)))
  | [n] => Raise (ValueError "boolean array indexing assignment requires a 0 or 1-dimensional input")
  | _ => Raise (ValueError "Input must be 1- or 2-d.")
  end.

(** [nirvana.models.beam.smear], as [model] of the axisymmetric disk calls
    it: [smear(vel, beam_fft, beam_fft=True, sb=sb, cnvfftw=cnvfftw)[1]], and
    with [sig=sig] and [[1:]]. *)
Class Smear `{BeamOps} : Type := {
  cnvfftw : Type;
  smear_vel : ndarray R -> ndarray complex -> option (ndarray R) -> option cnvfftw
              -> result (ndarray R);
  smear_vel_sig : ndarray R -> ndarray complex -> option (ndarray R) -> ndarray R
                  -> option cnvfftw -> result (ndarray R * ndarray R)
}.

(** The attributes [sig_phys2] and [sig_phys2_ivar] of the data object are
    set by its base class [FitArgs], which is not part of these files. *)
Class PhysicalDispersion `{BeamOps} : Type := {
  sig_phys2 : Kinematics.t -> option (list R);
  sig_phys2_ivar : Kinematics.t -> option (list R)
}.


(** ** [nirvana.models.axisym.AxisymmetricDisk] *)

Module AxisymmetricDisk.

(** [np.logical_not(mask)]: of [None] it is the scalar [True]. *)
Inductive gpm : Type :=
| GpmUnset
| GpmScalarTrue
| GpmMask (m : list bool).

Definition logical_not_mask (m : option (list bool)) : gpm :=
  match m with
  | None => GpmScalarTrue
  | Some v => GpmMask (map negb v)
  end.

Section WithCollaborators.
Context `{BeamOps}.

Record t : Type := Disk {
  rc : Curve1D;
  dc : option Curve1D;
  nbp : nat;
  np : nat;
  par : list R;
  par_err : option (list R);
  free : list bool;
  nfree : nat;
  x : option (ndarray R);
  y : option (ndarray R);
  beam_fft : option (ndarray complex);
  kin : option Kinematics.t;
  sb : option (ndarray R);
  vel_gpm : gpm;
  sig_gpm : gpm
}.

Definition set_par (v : list R) (s : t) : t :=
  {| rc := rc s; dc := dc s; nbp := nbp s; np := np s; par := v; par_err := par_err s;
     free := free s; nfree := nfree s; x := x s; y := y s; beam_fft := beam_fft s;
     kin := kin s; sb := sb s; vel_gpm := vel_gpm s; sig_gpm := sig_gpm s |}.

Definition set_par_err (v : option (list R)) (s : t) : t :=
  {| rc := rc s; dc := dc s; nbp := nbp s; np := np s; par := par s; par_err := v;
     free := free s; nfree := nfree s; x := x s; y := y s; beam_fft := beam_fft s;
     kin := kin s; sb := sb s; vel_gpm := vel_gpm s; sig_gpm := sig_gpm s |}.

Definition set_free (f : list bool) (n : nat) (s : t) : t :=
  {| rc := rc s; dc := dc s; nbp := nbp s; np := np s; par := par s; par_err := par_err s;
     free := f; nfree := n; x := x s; y := y s; beam_fft := beam_fft s;
     kin := kin s; sb := sb s; vel_gpm := vel_gpm s; sig_gpm := sig_gpm s |}.

(** [self.kin = kin; self.x = kin.grid_x; self.y = kin.grid_y] *)
Definition set_kin (k : Kinematics.t) (s : t) : t :=
  {| rc := rc s; dc := dc s; nbp := nbp s; np := np s; par := par s; par_err := par_err s;
     free := free s; nfree := nfree s;
     x := Kinematics.grid_x k; y := Kinematics.grid_y k;
     beam_fft := beam_fft s; kin := Some k; sb := sb s;
     vel_gpm := vel_gpm s; sig_gpm := sig_gpm s |}.

(** [self.sb = sbw] *)
Definition set_sb (sbw : option (ndarray R)) (s : t) : t :=
  {| rc := rc s; dc := dc s; nbp := nbp s; np := np s; par := par s; par_err := par_err s;
     free := free s; nfree := nfree s; x := x s; y := y s;
     beam_fft := beam_fft s; kin := kin s; sb := sbw;
     vel_gpm := vel_gpm s; sig_gpm := sig_gpm s |}.

(** [self.beam_fft = kin.beam_fft] and the two good-pixel masks. *)
Definition set_beam_gpm (k : Kinematics.t) (s : t) : t :=
  {| rc := rc s; dc := dc s; nbp := nbp s; np := np s; par := par s; par_err := par_err s;
     free := free s; nfree := nfree s; x := x s; y := y s;
     beam_fft := Kinematics.beam_fft k; kin := kin s; sb := sb s;
     vel_gpm := logical_not_mask (Kinematics.vel_mask k);
     sig_gpm := logical_not_mask (Kinematics.sig_mask k) |}.

Definition guess_par_of (rc0 : Curve1D) (dc0 : option Curve1D) : list R :=
  let gp := [0; 0; 45; 30; 0]%R ++ curve_guess_par rc0 in
  match dc0 with
  | None => gp
  | Some d => gp ++ curve_guess_par d
  end.

Definition guess_par (s : t) : list R := guess_par_of (rc s) (dc s).

(** [AxisymmetricDisk(rc, dc)]; the default rotation curve is supplied by the
    caller. *)
Definition __init__ (rc0 : Curve1D) (dc0 : option Curve1D) : t :=
  let n := (5 + curve_np rc0 + match dc0 with None => 0 | Some d => curve_np d end)%nat in
  {| rc := rc0; dc := dc0; nbp := 5; np := n;
     par := guess_par_of rc0 dc0; par_err := None;
     free := repeat true n; nfree := count_true (repeat true n);
     x := None; y := None; beam_fft := None; kin := None; sb := None;
     vel_gpm := GpmUnset; sig_gpm := GpmUnset |}.

(** [_set_par(par)] *)
Definition _set_par (p : ndarray R) : py t unit :=
  s ← py_get;
  _ ← py_lift (raise_if (negb (Nat.eqb (length (shape p)) 1))
                 (ValueError "Parameter array must be a 1D vector."));
  if Nat.eqb (np_prod (shape p)) (np s) then py_modify (set_par (ravel p))
  else
    _ ← py_lift (raise_if (negb (Nat.eqb (np_prod (shape p)) (nfree s)))
                   (ValueError "Must provide np or nfree parameters."));
    v ← py_lift (np_mask_assign (par s) (free s) (ravel p));
    py_modify (set_par v).

(** [_init_par(p0, fix)] *)
Definition _init_par (p0 : option (list R)) (fix_ : option (list bool)) : py t unit :=
  s ← py_get;
  let _p0 := match p0 with None => guess_par s | Some p => p end in
  _ ← py_lift (raise_if (negb (Nat.eqb (length _p0) (np s)))
                 (ValueError "Incorrect number of model parameters."));
  _ ← py_modify (set_par _p0);
  _ ← py_modify (set_par_err None);
  let _free := match fix_ with None => repeat true (np s) | Some f => map negb f end in
  _ ← py_lift (raise_if (negb (Nat.eqb (length _free) (np s)))
                 (ValueError "Incorrect number of model parameter fitting flags."));
  py_modify (set_free _free (count_true _free)).

(** [np.amin(a)] of an attribute that may be [None]. *)
Definition amin_of (a : option (ndarray R)) : result R :=
  match a with
  | None => Raise TypeError
  | Some v => Kinematics.np_amin (ravel v)
  end.

Definition amax_of (a : option (ndarray R)) : result R :=
  match a with
  | None => Raise TypeError
  | Some v => Kinematics.np_amax (ravel v)
  end.

(** [par_bounds()] *)
Definition par_bounds (s : t) : result (list R * list R) :=
  minx ← amin_of (x s);
  maxx ← amax_of (x s);
  miny ← amin_of (y s);
  maxy ← amax_of (y s);
  let lb := [minx; miny; -350; 0; -300]%R ++ curve_lb (rc s) in
  let ub := [maxx; maxy; 350; 89; 300]%R ++ curve_ub (rc s) in
  match dc s with
  | None => Return (lb, ub)
  | Some d => Return (lb ++ curve_lb d, ub ++ curve_ub d)
  end.

(** [remap('sb').filled(0.0)] *)
Definition remap_sb_filled (k : Kinematics.t) : result (ndarray R) :=
  r ← Kinematics.remap k (Kinematics.RemapAttr "sb") true;
  match r with
  | Kinematics.RemapNone => Raise (AttributeError "'NoneType' object has no attribute 'filled'")
  | Kinematics.RemapArray a => Raise (AttributeError "'numpy.ndarray' object has no attribute 'filled'")
  | Kinematics.RemapMasked a m =>
      Return (NDArray (shape a) (zip_with (fun v (b : bool) => if b then 0%R else v) (ravel a) (ravel m)))
  end.

(** [_fit_prep(kin, p0, fix, sb_wgt)]: returns the merit function. *)
Definition _fit_prep (k : Kinematics.t) (p0 : option (list R)) (fix_ : option (list bool))
                     (sb_wgt : bool) : py t fom_kind :=
  _ ← _init_par p0 fix_;
  _ ← py_modify (set_kin k);
  sbw ← (if sb_wgt then a ← py_lift (remap_sb_filled k); mret (Some a) else mret None);
  _ ← py_modify (set_sb sbw);
  _ ← py_modify (set_beam_gpm k);
  s ← py_get;
  let use_resid := is_None (Kinematics.vel_ivar k)
                   || (negb (is_None (dc s)) && is_None (Kinematics.sig_ivar k)) in
  mret (if use_resid then FomResid else FomChisqr).


Context `{!Optimizer t}.

(** The arguments with which [lsq_fit] calls [optimize.least_squares]. *)
Definition lsq_fit_call (k : Kinematics.t) (sb_wgt : bool) (p0 : option (list R))
                        (fix_ : option (list bool)) (verbose : Z) : py t lsq_call :=
  fom ← _fit_prep k p0 fix_ sb_wgt;
  s ← py_get;
  b ← py_lift (par_bounds s);
  let diff_step := repeat 0.1%R (np s) in
  x0 ← py_lift (np_mask_select (par s) (free s));
  lbf ← py_lift (np_mask_select b.1 (free s));
  ubf ← py_lift (np_mask_select b.2 (free s));
  dsf ← py_lift (np_mask_select diff_step (free s));
  mret (LsqCall fom x0 "trf" (lbf, ubf) dsf verbose).

(** The body of the [try] block of [lsq_fit]. *)
Definition set_errors (jac : jacobian) : py t unit :=
  cov ← py_lift (cov_err jac);
  s ← py_get;
  _ ← py_modify (set_par_err (Some (repeat 0%R (np s))));
  d ← py_lift (np_diag cov);
  v ← py_lift (np_mask_assign (repeat 0%R (np s)) (free s) (map sqrt d));
  py_modify (set_par_err (Some v)).

(** [lsq_fit(kin, sb_wgt, p0, fix, verbose)] *)
Definition lsq_fit (k : Kinematics.t) (sb_wgt : bool) (p0 : option (list R))
                   (fix_ : option (list bool)) (verbose : Z) : py t unit :=
  c ← lsq_fit_call k sb_wgt p0 fix_ verbose;
  r ← least_squares c;
  _ ← _set_par r.1;
  py_try (set_errors r.2) (py_modify (set_par_err None)).

(** *** Evaluation of the model and merit functions *)

Context `{Geometry} `{!Smear} `{!PhysicalDispersion}.

(** [base_par()]: [par] is set by the constructor, so it is never [None]. *)
Definition base_par (s : t) : list R := take (nbp s) (par s).

(** The [beam] argument of [_init_coo] and [model] with its [is_fft] flag. *)
Inductive beam_arg : Type :=
| BeamImage (b : ndarray R)
| BeamFFT (b : ndarray complex).

Definition set_coo (x0 y0 : option (ndarray R)) (b : option (ndarray complex)) (s : t) : t :=
  {| rc := rc s; dc := dc s; nbp := nbp s; np := np s; par := par s; par_err := par_err s;
     free := free s; nfree := nfree s; x := x0; y := y0; beam_fft := b;
     kin := kin s; sb := sb s; vel_gpm := vel_gpm s; sig_gpm := sig_gpm s |}.

(** [_init_coo(x, y, beam, is_fft)] *)
Definition _init_coo (x0 y0 : option (ndarray R)) (beam : option beam_arg) : py t unit :=
  s ← py_get;
  let x1 := match x0 with Some _ => x0 | None => x s end in
  let y1 := match y0 with Some _ => y0 | None => y s end in
  let b1 := match beam with
            | Some (BeamFFT b) => Some b
            | Some (BeamImage b) => Some (fftn_ifftshift b)
            | None => beam_fft s
            end in
  _ ← py_modify (set_coo x1 y1 b1);
  match x1, y1 with
  | Some xa, Some ya =>
      _ ← py_lift (raise_if (negb (shape_eqb (shape xa) (shape ya)))
                     (ValueError "Input coordinates must have the same shape."));
      match b1 with
      | None => mret tt
      | Some b =>
          _ ← py_lift (raise_if (negb (Nat.eqb (length (shape xa)) 2))
                (ValueError "To perform convolution, must provide 2d coordinate arrays."));
          py_lift (raise_if (negb (shape_eqb (shape b) (shape xa)))
                (ValueError "Currently, convolution requires the beam map to have the same shape as the coordinate maps."))
      end
  | _, _ => py_raise (AttributeError "'NoneType' object has no attribute 'shape'")
  end.

(** [self.par[i]] *)
Definition par_item (s : t) (i : nat) : result R :=
  match par s !! i with
  | Some v => Return v
  | None => Raise IndexError
  end.

(** The statements of [model] from the call of [projected_polar] to the end:
    the velocity field and, when a dispersion curve is fit, the dispersion
    field. *)
Definition evaluate (s : t) (cnv : option cnvfftw) (ignore_beam : bool)
  : result (ndarray R * option (ndarray R)) :=
  match x s, y s with
  | Some xa, Some ya =>
      xc ← par_item s 0;
      yc ← par_item s 1;
      match map np_radians (take 2 (drop 2 (par s))) with
      | [pa; inc] =>
          _ ← raise_if (negb (shape_eqb (shape xa) (shape ya)))
                (ValueError "operands could not be broadcast together");
          let rth := zip_with (fun xv yv => projected_polar (xv - xc) (yv - yc) pa inc)
                              (ravel xa) (ravel ya) in
          let ps := nbp s in
          let pe := (ps + curve_np (rc s))%nat in
          vsys ← par_item s 4;
          let vel := NDArray (shape xa)
                       (map (fun p => (curve_sample (rc s) p.1 (take (pe - ps) (drop ps (par s)))
                                       * cos p.2 + vsys)%R) rth) in
          match dc s with
          | None =>
              match beam_fft s with
              | Some b =>
                  if ignore_beam then Return (vel, None)
                  else v ← smear_vel vel b (sb s) cnv; Return (v, None)
              | None => Return (vel, None)
              end
          | Some d =>
              let ps' := pe in
              let pe' := (ps' + curve_np d)%nat in
              let sig := NDArray (shape xa)
                           (map (fun p => curve_sample d p.1 (take (pe' - ps') (drop ps' (par s))))
                                rth) in
              match beam_fft s with
              | Some b =>
                  if ignore_beam then Return (vel, Some sig)
                  else r ← smear_vel_sig vel b (sb s) sig cnv; Return (r.1, Some r.2)
              | None => Return (vel, Some sig)
              end
          end
      | _ => Raise TypeError
      end
  | _, _ => Raise (ValueError "No coordinate grid defined.")
  end.

(** [model(par, x, y, beam, is_fft, cnvfftw, ignore_beam)] *)
Definition model (p : option (ndarray R)) (x0 y0 : option (ndarray R))
                 (beam : option beam_arg) (cnv : option cnvfftw) (ignore_beam : bool)
  : py t (ndarray R * option (ndarray R)) :=
  _ ← (if negb (is_None x0) || negb (is_None y0) || negb (is_None beam)
       then _init_coo x0 y0 beam else mret tt);
  s ← py_get;
  _ ← py_lift (raise_if (is_None (x s) || is_None (y s))
                 (ValueError "No coordinate grid defined."));
  _ ← match p with Some v => _set_par v | None => mret tt end;
  s' ← py_get;
  py_lift (evaluate s' cnv ignore_beam).

(** [a[g]] for a per-measurement vector [a] and a good-pixel mask [g]:
    a boolean mask selects, [None] and the scalar [True] add a leading axis
    of length one. *)
Definition index_gpm (a : option (list R)) (g : gpm) : result (ndarray R) :=
  match a with
  | None => Raise TypeError
  | Some v =>
      match g with
      | GpmMask m => r ← np_mask_select v m; Return (NDArray [length r] r)
      | _ => Return (NDArray [1%nat; length v] v)
      end
  end.

(** An arithmetic operation on two arrays that were indexed by [index_gpm]
    with the same mask: along their last axis the lengths agree, or one of
    them is one and is repeated. *)
Definition np_broadcast (f : R -> R -> R) (a b : ndarray R) : result (ndarray R) :=
  r ← (if Nat.eqb (length (ravel a)) (length (ravel b))
       then Return (zip_with f (ravel a) (ravel b))
       else match ravel a, ravel b with
            | [u], vs => Return (map (f u) vs)
            | us, [v] => Return (map (fun u => f u v) us)
            | _, _ => Raise (ValueError "operands could not be broadcast together")
            end);
  Return (NDArray (match shape a with
                   | [_] => [length r]
                   | _ => [1%nat; length r]
                   end) r).

(** [self.kin], of which the attribute [attr] is read next. *)
Definition the_kin (attr : string) (s : t) : result Kinematics.t :=
  match kin s with
  | Some k => Return k
  | None => Raise (AttributeError ("'NoneType' object has no attribute '" ++ attr ++ "'"))
  end.

(** [_resid(par)] *)
Definition _resid (p : ndarray R) : py t (ndarray R) :=
  _ ← _set_par p;
  s ← py_get;
  match dc s with
  | None =>
      k ← py_lift (the_kin "vel" s);
      d ← py_lift (index_gpm (Kinematics.vel k) (vel_gpm s));
      m ← model None None None None None false;
      b ← py_lift (Kinematics.bin k m.1);
      bm ← py_lift (index_gpm (Some b) (vel_gpm s));
      py_lift (np_broadcast Rminus d bm)
  | Some _ =>
      m ← model None None None None None false;
      sg ← py_lift (match m.2 with
                    | Some sg => Return sg
                    | None => Raise (TypeError)
                    end);
      k ← py_lift (the_kin "vel" s);
      d ← py_lift (index_gpm (Kinematics.vel k) (vel_gpm s));
      b ← py_lift (Kinematics.bin k m.1);
      bm ← py_lift (index_gpm (Some b) (vel_gpm s));
      rv ← py_lift (np_broadcast Rminus d bm);
      d2 ← py_lift (index_gpm (sig_phys2 k) (sig_gpm s));
      b2 ← py_lift (Kinematics.bin k sg);
      bm2 ← py_lift (index_gpm (Some b2) (sig_gpm s));
      rs ← py_lift (np_broadcast Rminus d2
                      (NDArray (shape bm2) (map (fun v => (v ^ 2)%R) (ravel bm2))));
      mret (NDArray [length (ravel rv ++ ravel rs)] (ravel rv ++ ravel rs))
  end.

(** [_chisqr(par)] *)
Definition _chisqr (p : ndarray R) : py t (ndarray R) :=
  s0 ← py_get;
  match dc s0 with
  | None =>
      r ← _resid p;
      s ← py_get;
      k ← py_lift (the_kin "vel_ivar" s);
      iv ← py_lift (index_gpm (Kinematics.vel_ivar k) (vel_gpm s));
      py_lift (np_broadcast Rmult r (NDArray (shape iv) (map sqrt (ravel iv))))
  | Some _ =>
      k ← py_lift (the_kin "vel_ivar" s0);
      iv ← py_lift (index_gpm (Kinematics.vel_ivar k) (vel_gpm s0));
      iv2 ← py_lift (index_gpm (sig_phys2_ivar k) (sig_gpm s0));
      let ivar := ravel iv ++ ravel iv2 in
      r ← _resid p;
      py_lift (np_broadcast Rmult r (NDArray [length ivar] (map sqrt ivar)))
  end.

End WithCollaborators.
End AxisymmetricDisk.

(** ** [nirvana.models.bisym.BisymmetricDisk] *)

(** The part of [BisymmetricDisk._fit_prep] that configures errors and
    covariances ("Determine which errors were provided" to the end of the
    method) reads attributes of the data object ([vel_err], [vel_covar],
    [sig_phys2_ivar], ...) and calls helpers ([inverse], [cinv],
    [impose_positive_definite]) that are not part of these files.  It only
    sets the error attributes of the model, or raises. *)
Class FitErrors `{BeamOps} : Type := {
  err_cfg : Type;
  cfg_has_err : err_cfg -> bool;
  cfg_has_covar : err_cfg -> bool;
  (** data, whether a dispersion curve is fit, [scatter],
      [assume_posdef_covar], [ignore_covar] *)
  fit_errors : Kinematics.t -> bool -> option (list R) -> bool -> bool -> result err_cfg
}.

(** [a % m] on floats, for a positive [m].  In exact arithmetic the result
    is in [[0, m)]; in binary64 the rounded result can be [m] itself. *)
Definition py_fmod (a m : R) : R := (a - m * IZR (Int_part (a / m)))%R.

(** [l[lo:hi]] *)
Definition py_slice {A} (lo hi : nat) (l : list A) : list A := take (hi - lo) (drop lo l).

(** [l[i]] *)
Definition py_item {A} (l : list A) (i : nat) : result A :=
  match l !! i with
  | Some v => Return v
  | None => Raise IndexError
  end.

Module BisymmetricDisk.

Inductive beam_arg `{BeamOps} : Type :=
| BeamImage (b : ndarray R)
| BeamFFT (b : ndarray complex).

Section WithCollaborators.
Context `{FitErrors} `{Geometry}.

Record t : Type := Disk {
  vt : Curve1D;
  v2t : Curve1D;
  v2r : Curve1D;
  dc : option Curve1D;
  nbp : nat;
  np : nat;
  par : list R;
  par_err : option (list R);
  free : list bool;
  nfree : nat;
  x : option (ndarray R);
  y : option (ndarray R);
  beam_fft : option (ndarray complex);
  kin : option Kinematics.t;
  sb : option (ndarray R);
  vel_gpm : option (list bool);
  sig_gpm : option AxisymmetricDisk.gpm;
  errs : option err_cfg
}.

Definition set_par (v : list R) (s : t) : t :=
  {| vt := vt s; v2t := v2t s; v2r := v2r s; dc := dc s; nbp := nbp s; np := np s;
     par := v; par_err := par_err s; free := free s; nfree := nfree s;
     x := x s; y := y s; beam_fft := beam_fft s; kin := kin s; sb := sb s;
     vel_gpm := vel_gpm s; sig_gpm := sig_gpm s; errs := errs s |}.

Definition set_par_err (v : option (list R)) (s : t) : t :=
  {| vt := vt s; v2t := v2t s; v2r := v2r s; dc := dc s; nbp := nbp s; np := np s;
     par := par s; par_err := v; free := free s; nfree := nfree s;
     x := x s; y := y s; beam_fft := beam_fft s; kin := kin s; sb := sb s;
     vel_gpm := vel_gpm s; sig_gpm := sig_gpm s; errs := errs s |}.

Definition set_free (f : list bool) (n : nat) (s : t) : t :=
  {| vt := vt s; v2t := v2t s; v2r := v2r s; dc := dc s; nbp := nbp s; np := np s;
     par := par s; par_err := par_err s; free := f; nfree := n;
     x := x s; y := y s; beam_fft := beam_fft s; kin := kin s; sb := sb s;
     vel_gpm := vel_gpm s; sig_gpm := sig_gpm s; errs := errs s |}.

Definition set_coo (x0 y0 : option (ndarray R)) (b : option (ndarray complex)) (s : t) : t :=
  {| vt := vt s; v2t := v2t s; v2r := v2r s; dc := dc s; nbp := nbp s; np := np s;
     par := par s; par_err := par_err s; free := free s; nfree := nfree s;
     x := x0; y := y0; beam_fft := b; kin := kin s; sb := sb s;
     vel_gpm := vel_gpm s; sig_gpm := sig_gpm s; errs := errs s |}.

Definition set_kin (k : Kinematics.t) (s : t) : t :=
  {| vt := vt s; v2t := v2t s; v2r := v2r s; dc := dc s; nbp := nbp s; np := np s;
     par := par s; par_err := par_err s; free := free s; nfree := nfree s;
     x := Kinematics.grid_x k; y := Kinematics.grid_y k; beam_fft := beam_fft s;
     kin := Some k; sb := sb s;
     vel_gpm := vel_gpm s; sig_gpm := sig_gpm s; errs := errs s |}.

Definition set_sb (sbw : option (ndarray R)) (s : t) : t :=
  {| vt := vt s; v2t := v2t s; v2r := v2r s; dc := dc s; nbp := nbp s; np := np s;
     par := par s; par_err := par_err s; free := free s; nfree := nfree s;
     x := x s; y := y s; beam_fft := beam_fft s; kin := kin s; sb := sbw;
     vel_gpm := vel_gpm s; sig_gpm := sig_gpm s; errs := errs s |}.

Definition set_beam_gpm (k : Kinematics.t) (s : t) : t :=
  {| vt := vt s; v2t := v2t s; v2r := v2r s; dc := dc s; nbp := nbp s; np := np s;
     par := par s; par_err := par_err s; free := free s; nfree := nfree s;
     x := x s; y := y s; beam_fft := Kinematics.beam_fft k; kin := kin s; sb := sb s;
     vel_gpm := (fun m => map negb m) <$> Kinematics.vel_mask k;
     sig_gpm := match dc s with
                | None => None
                | Some _ => Some (AxisymmetricDisk.logical_not_mask (Kinematics.sig_mask k))
                end;
     errs := errs s |}.

Definition set_errs (e : err_cfg) (s : t) : t :=
  {| vt := vt s; v2t := v2t s; v2r := v2r s; dc := dc s; nbp := nbp s; np := np s;
     par := par s; par_err := par_err s; free := free s; nfree := nfree s;
     x := x s; y := y s; beam_fft := beam_fft s; kin := kin s; sb := sb s;
     vel_gpm := vel_gpm s; sig_gpm := sig_gpm s; errs := Some e |}.

(** [guess_par()]: the guess of the tangential curve is concatenated
    twice, as in the source. *)
Definition guess_par_of (vt0 v2t0 v2r0 : Curve1D) (dc0 : option Curve1D) : list R :=
  let gp := [0; 0; 45; 30; 0; 0]%R ++ curve_guess_par vt0 ++ curve_guess_par vt0
            ++ curve_guess_par v2t0 ++ curve_guess_par v2r0 in
  match dc0 with
  | None => gp
  | Some d => gp ++ curve_guess_par d
  end.

Definition guess_par (s : t) : list R := guess_par_of (vt s) (v2t s) (v2r s) (dc s).

(** [BisymmetricDisk(vt, v2t, v2r, dc)]; the default curves are supplied by
    the caller. *)
Definition __init__ (vt0 v2t0 v2r0 : Curve1D) (dc0 : option Curve1D) : t :=
  let n := (6 + curve_np vt0 + curve_np v2t0 + curve_np v2r0
            + match dc0 with None => 0 | Some d => curve_np d end)%nat in
  {| vt := vt0; v2t := v2t0; v2r := v2r0; dc := dc0; nbp := 6; np := n;
     par := guess_par_of vt0 v2t0 v2r0 dc0; par_err := None;
     free := repeat true n; nfree := count_true (repeat true n);
     x := None; y := None; beam_fft := None; kin := None; sb := None;
     vel_gpm := None; sig_gpm := None; errs := None |}.

(** [_vt_slice()], [_v2t_slice()], [_v2r_slice()], [_dc_slice()] as
    [(start, stop)]. *)
Definition _vt_slice (s : t) : nat * nat :=
  (nbp s, nbp s + curve_np (vt s))%nat.
Definition _v2t_slice (s : t) : nat * nat :=
  (nbp s + curve_np (vt s), nbp s + curve_np (vt s) + curve_np (v2t s))%nat.
Definition _v2r_slice (s : t) : nat * nat :=
  (nbp s + curve_np (vt s) + curve_np (v2t s),
   nbp s + curve_np (vt s) + curve_np (v2t s) + curve_np (v2r s))%nat.

Definition par_slice (s : t) (sl : nat * nat) : list R := py_slice sl.1 sl.2 (par s).

(** [par_bounds(base_lb, base_ub)] *)
Definition par_bounds (s : t) (base_lb base_ub : option (list R)) : result (list R * list R) :=
  _ ← raise_if (match base_lb with Some l => negb (Nat.eqb (length l) (nbp s)) | None => false end)
        (ValueError "Incorrect number of lower bounds for the base parameters.");
  _ ← raise_if (match base_ub with Some l => negb (Nat.eqb (length l) (nbp s)) | None => false end)
        (ValueError "Incorrect number of upper bounds for the base parameters.");
  _ ← raise_if ((is_None base_lb || is_None base_ub) && (is_None (x s) || is_None (y s)))
        (ValueError "Cannot define limits on center.  Provide base_lb,base_ub or set the evaluation grid coordinates (attributes x and y).");
  blb ← match base_lb with
        | Some l => Return l
        | None =>
            minx ← AxisymmetricDisk.amin_of (x s);
            miny ← AxisymmetricDisk.amin_of (y s);
            Return [minx; miny; -350; 1; -100; -300]%R
        end;
  bub ← match base_ub with
        | Some l => Return l
        | None =>
            maxx ← AxisymmetricDisk.amax_of (x s);
            maxy ← AxisymmetricDisk.amax_of (y s);
            Return [maxx; maxy; 350; 89; 100; 300]%R
        end;
  let lb := blb ++ curve_lb (vt s) ++ curve_lb (v2t s) ++ curve_lb (v2r s) in
  let ub := bub ++ curve_ub (vt s) ++ curve_ub (v2t s) ++ curve_ub (v2r s) in
  match dc s with
  | None => Return (lb, ub)
  | Some d => Return (lb ++ curve_lb d, ub ++ curve_ub d)
  end.

(** [_set_par(par)] *)
Definition _set_par (p : ndarray R) : py t unit :=
  s ← py_get;
  _ ← py_lift (raise_if (negb (Nat.eqb (length (shape p)) 1))
                 (ValueError "Parameter array must be a 1D vector."));
  if Nat.eqb (np_prod (shape p)) (np s) then py_modify (set_par (ravel p))
  else
    _ ← py_lift (raise_if (negb (Nat.eqb (np_prod (shape p)) (nfree s)))
                   (ValueError "Must provide np or nfree parameters."));
    v ← py_lift (np_mask_assign (par s) (free s) (ravel p));
    py_modify (set_par v).

(** [_init_coo(x, y, beam, is_fft)] *)
Definition _init_coo (x0 y0 : option (ndarray R)) (beam : option beam_arg) : py t unit :=
  s ← py_get;
  let x1 := match x0 with Some _ => x0 | None => x s end in
  let y1 := match y0 with Some _ => y0 | None => y s end in
  let b1 := match beam with
            | Some (BeamFFT b) => Some b
            | Some (BeamImage b) => Some (fftn_ifftshift b)
            | None => beam_fft s
            end in
  _ ← py_modify (set_coo x1 y1 b1);
  match x1, y1 with
  | Some xa, Some ya =>
      _ ← py_lift (raise_if (negb (shape_eqb (shape xa) (shape ya)))
                     (ValueError "Input coordinates must have the same shape."));
      match b1 with
      | None => mret tt
      | Some b =>
          _ ← py_lift (raise_if (negb (Nat.eqb (length (shape xa)) 2))
                (ValueError "To perform convolution, must provide 2d coordinate arrays."));
          py_lift (raise_if (negb (shape_eqb (shape b) (shape xa)))
                (ValueError "Currently, convolution requires the beam map to have the same shape as the coordinate maps."))
      end
  | _, _ => py_raise (AttributeError "'NoneType' object has no attribute 'shape'")
  end.

(** [_init_par(p0, fix)] *)
Definition _init_par (p0 : option (list R)) (fix_ : option (list bool)) : py t unit :=
  s ← py_get;
  let _p0 := match p0 with None => guess_par s | Some p => p end in
  _ ← py_lift (raise_if (negb (Nat.eqb (length _p0) (np s)))
                 (ValueError "Incorrect number of model parameters."));
  _ ← py_modify (set_par _p0);
  _ ← py_modify (set_par_err None);
  let _free := match fix_ with None => repeat true (np s) | Some f => map negb f end in
  _ ← py_lift (raise_if (negb (Nat.eqb (length _free) (np s)))
                 (ValueError "Incorrect number of model parameter fitting flags."));
  py_modify (set_free _free (count_true _free)).

(** [_pab = (pab + np.pi/2) % np.pi - np.pi/2] *)
Definition wrap_pab (pab : R) : R := (py_fmod (pab + PI / 2) PI - PI / 2)%R.

(** The line-of-sight velocity at one grid point, from the in-plane radius
    [r] and azimuth [theta] there. *)
Definition los_at (s : t) (inc pab vsys : R) (r theta : R) : R :=
  let _pab := wrap_pab pab in
  let theta_b := (theta - atan (tan _pab / cos inc))%R in
  let cost := cos theta in
  (vsys + curve_sample (vt s) r (par_slice s (_vt_slice s)) * cost
   - curve_sample (v2t s) r (par_slice s (_v2t_slice s)) * cost * cos (2 * theta_b)
   - curve_sample (v2r s) r (par_slice s (_v2r_slice s)) * sin theta * sin (2 * theta_b))%R.

(** The assignments of [model] from "Get the coordinate data" to [vel]. *)
Definition los_velocity (s : t) : result (ndarray R) :=
  match x s, y s with
  | Some xa, Some ya =>
      match map np_radians (py_slice 2 5 (par s)) with
      | [pa; inc; pab] =>
          xc ← py_item (par s) 0;
          yc ← py_item (par s) 1;
          _ ← raise_if (negb (shape_eqb (shape xa) (shape ya)))
                (ValueError "operands could not be broadcast together");
          let rth := zip_with (fun xv yv => projected_polar (xv - xc) (yv - yc) pa inc)
                              (ravel xa) (ravel ya) in
          vsys ← py_item (par s) 5;
          Return (NDArray (shape xa) (map (fun p => los_at s inc pab vsys p.1 p.2) rth))
      | _ => Raise (ValueError "not enough values to unpack")
      end
  | _, _ => Raise (ValueError "No coordinate grid defined.")
  end.

(** [model(par, x, y, beam, is_fft, cnvfftw, ignore_beam)].  After [vel] the
    source calls [embed()] and [exit()]: the statements that would return the
    field are never reached. *)
Definition model (p : option (ndarray R)) (x0 y0 : option (ndarray R))
                 (beam : option beam_arg) : py t (ndarray R * option (ndarray R)) :=
  _ ← (if negb (is_None x0) || negb (is_None y0) || negb (is_None beam)
       then _init_coo x0 y0 beam else mret tt);
  s ← py_get;
  _ ← py_lift (raise_if (is_None (x s) || is_None (y s))
                 (ValueError "No coordinate grid defined."));
  _ ← match p with Some v => _set_par v | None => mret tt end;
  s' ← py_get;
  vel ← py_lift (los_velocity s');
  py_raise SystemExit.

(** [_fit_prep(kin, p0, fix, scatter, sb_wgt, assume_posdef_covar, ignore_covar)] *)
Definition _fit_prep (k : Kinematics.t) (p0 : option (list R)) (fix_ : option (list bool))
                     (scatter : option (list R)) (sb_wgt assume_posdef_covar ignore_covar : bool)
  : py t unit :=
  _ ← _init_par p0 fix_;
  _ ← py_modify (set_kin k);
  sbw ← (if sb_wgt then a ← py_lift (AxisymmetricDisk.remap_sb_filled k); mret (Some a)
         else mret None);
  _ ← py_modify (set_sb sbw);
  _ ← py_modify (set_beam_gpm k);
  s ← py_get;
  e ← py_lift (fit_errors k (negb (is_None (dc s))) scatter assume_posdef_covar ignore_covar);
  py_modify (set_errs e).

(** [_get_fom()] *)
Definition _get_fom (s : t) : result fom_kind :=
  match errs s with
  | None => Raise (AttributeError "'BisymmetricDisk' object has no attribute 'has_err'")
  | Some e => Return (if cfg_has_err e || cfg_has_covar e then FomChisqr else FomResid)
  end.

Context `{!Optimizer t}.

(** The arguments with which [lsq_fit] calls [optimize.least_squares]. *)
Definition lsq_fit_call (k : Kinematics.t) (sb_wgt : bool) (p0 : option (list R))
                        (fix_ : option (list bool)) (lb ub : option (list R))
                        (scatter : option (list R)) (verbose : Z)
                        (assume_posdef_covar ignore_covar : bool) : py t lsq_call :=
  _ ← _fit_prep k p0 fix_ scatter sb_wgt assume_posdef_covar ignore_covar;
  s ← py_get;
  fom ← py_lift (_get_fom s);
  b ← py_lift (par_bounds s None None);
  let lb1 := match lb with None => b.1 | Some l => l end in
  let ub1 := match ub with None => b.2 | Some l => l end in
  _ ← py_lift (raise_if (negb (Nat.eqb (length lb1) (np s)) || negb (Nat.eqb (length ub1) (np s)))
                 (ValueError "Length of one or both of the bound vectors is incorrect."));
  let diff_step := repeat 0.01%R (np s) in
  x0 ← py_lift (np_mask_select (par s) (free s));
  lbf ← py_lift (np_mask_select lb1 (free s));
  ubf ← py_lift (np_mask_select ub1 (free s));
  dsf ← py_lift (np_mask_select diff_step (free s));
  mret (LsqCall fom x0 "trf" (lbf, ubf) dsf verbose).

(** The body of the [try] block of [lsq_fit]. *)
Definition set_errors (jac : jacobian) : py t unit :=
  cov ← py_lift (cov_err jac);
  s ← py_get;
  _ ← py_modify (set_par_err (Some (repeat 0%R (np s))));
  d ← py_lift (np_diag cov);
  v ← py_lift (np_mask_assign (repeat 0%R (np s)) (free s) (map sqrt d));
  py_modify (set_par_err (Some v)).

(** [report()]: it first evaluates the merit function at [self.par], which
    evaluates [model()]. *)
Definition report : py t unit :=
  s ← py_get;
  _ ← py_lift (_get_fom s);
  _ ← _set_par (NDArray [length (par s)] (par s));
  _ ← model None None None None;
  mret tt.

(** [lsq_fit(kin, sb_wgt, p0, fix, lb, ub, scatter, verbose,
    assume_posdef_covar, ignore_covar)] *)
Definition lsq_fit (k : Kinematics.t) (sb_wgt : bool) (p0 : option (list R))
                   (fix_ : option (list bool)) (lb ub : option (list R))
                   (scatter : option (list R)) (verbose : Z)
                   (assume_posdef_covar ignore_covar : bool) : py t unit :=
  c ← lsq_fit_call k sb_wgt p0 fix_ lb ub scatter verbose assume_posdef_covar ignore_covar;
  r ← least_squares c;
  _ ← _set_par r.1;
  _ ← py_try (set_errors r.2) (py_modify (set_par_err None));
  report.

(** *** The parameter blocks *)

(** [_base_slice()] and [_dc_slice()] as [(start, stop)]; the latter reads
    [self.dc.np]. *)
Definition _base_slice (s : t) : nat * nat := (0%nat, nbp s).

Definition _dc_slice (s : t) : result (nat * nat) :=
  match dc s with
  | None => Raise (AttributeError "'NoneType' object has no attribute 'np'")
  | Some d =>
      let start := (nbp s + curve_np (vt s) + curve_np (v2t s) + curve_np (v2r s))%nat in
      Return (start, (start + curve_np d)%nat)
  end.

(** [p = self.par_err if err else self.par]; [par] is set by the
    constructor, so only [par_err] can be [None]. *)
Definition par_or_err (err : bool) (s : t) : option (list R) :=
  if err then par_err s else Some (par s).

(** [base_par(err)], [vt_par(err)], [v2t_par(err)], [v2r_par(err)] *)
Definition base_par (err : bool) (s : t) : option (list R) :=
  (fun p => py_slice (_base_slice s).1 (_base_slice s).2 p) <$> par_or_err err s.

Definition vt_par (err : bool) (s : t) : option (list R) :=
  (fun p => py_slice (_vt_slice s).1 (_vt_slice s).2 p) <$> par_or_err err s.

Definition v2t_par (err : bool) (s : t) : option (list R) :=
  (fun p => py_slice (_v2t_slice s).1 (_v2t_slice s).2 p) <$> par_or_err err s.

Definition v2r_par (err : bool) (s : t) : option (list R) :=
  (fun p => py_slice (_v2r_slice s).1 (_v2r_slice s).2 p) <$> par_or_err err s.

(** [dc_par(err)] *)
Definition dc_par (err : bool) (s : t) : result (option (list R)) :=
  match par_or_err err s with
  | None => Return None
  | Some p =>
      if is_None (dc s) then Return None
      else sl ← _dc_slice s; Return (Some (py_slice sl.1 sl.2 p))
  end.

(** [par_names(short)].  The curves' own [par_names] are not part of these
    files and are given by [curve_par_names].  The name [rc] of the last line
    is the function imported from [matplotlib]: adding it to a list is a
    [TypeError]. *)
Definition par_names (curve_par_names : Curve1D -> bool -> result (list string))
                     (short : bool) (s : t) : result (list string) :=
  let prefixed := fun (pre : string) (c : Curve1D) =>
    l ← curve_par_names c short; Return (map (fun n => (pre ++ n)%string) l) in
  let base := if short then ["x0"; "y0"; "pa"; "inc"; "pab"; "vsys"]%string
              else ["X center"; "Y center"; "Position Angle"; "Inclination";
                    "Bisymmetry PA"; "Systemic Velocity"]%string in
  vt_ ← prefixed (if short then "vt_" else "VT: ")%string (vt s);
  v2t_ ← prefixed (if short then "v2t_" else "V2T: ")%string (v2t s);
  v2r_ ← prefixed (if short then "v2r_" else "V2R: ")%string (v2r s);
  dc_ ← match dc s with
        | None => Return []
        | Some d => prefixed (if short then "s_" else "Disp: ")%string d
        end;
  Raise TypeError.

End WithCollaborators.
End BisymmetricDisk.

(** * Properties *)

(** ** Well-formed arguments

    Every numpy array holds as many items as its shape says.  The arguments
    of the constructor are arbitrary records of the embedding, so this is
    stated where a property needs it. *)

Definition wf_opt {A} (o : option (ndarray A)) : Prop :=
  match o with
  | None => True
  | Some a => wf_ndarray a
  end.

Definition wf_opt_ma (o : option marray) : Prop :=
  match o with
  | None => True
  | Some a => wf_marray a
  end.

Definition wf_args (a : Kinematics.args) : Prop :=
  wf_marray (Kinematics.arg_vel a) /\ wf_opt_ma (Kinematics.arg_vel_ivar a)
  /\ wf_opt (Kinematics.arg_vel_mask a)
  /\ wf_opt (Kinematics.arg_x a) /\ wf_opt (Kinematics.arg_y a)
  /\ wf_opt_ma (Kinematics.arg_sb a) /\ wf_opt_ma (Kinematics.arg_sb_ivar a)
  /\ wf_opt (Kinematics.arg_sb_mask a)
  /\ wf_opt_ma (Kinematics.arg_sig a) /\ wf_opt_ma (Kinematics.arg_sig_ivar a)
  /\ wf_opt (Kinematics.arg_sig_mask a) /\ wf_opt_ma (Kinematics.arg_sig_corr a)
  /\ wf_opt (Kinematics.arg_psf a) /\ wf_opt (Kinematics.arg_aperture a)
  /\ wf_opt (Kinematics.arg_binid a)
  /\ wf_opt (Kinematics.arg_grid_x a) /\ wf_opt (Kinematics.arg_grid_y a)
  /\ wf_opt (Kinematics.arg_bordermask a).


(** ** Consistency predicates *)

(** The three arrays that tie the grid to the measurements, for a grid of
    [ncell] cells and [nb] unique measurements: [bin_transform] is
    [nb] by [ncell]; [grid_indx] lists distinct cells and [bin_inverse] the
    measurement of each of them; every row of [bin_transform] puts one
    weight [w] on a list of cells that all belong to the row's measurement,
    and the weights of the row add up to one in exact arithmetic. *)
Definition bins_consistent (ncell nb : nat) (gi bi : list nat) (bt : csr_matrix) : Prop :=
  nrows bt = nb /\ ncols bt = ncell /\
  NoDup gi /\ Forall (fun g => (g < ncell)%nat) gi /\
  length gi = length bi /\ Forall (fun b => (b < nb)%nat) bi /\
  forall r, (r < nb)%nat -> exists w cells,
    row_entries bt r = map (fun j => (w, r, j)) cells /\
    (INR (length cells) * w = 1)%R /\
    Forall (fun j => In (j, r) (zip gi bi)) cells.

(** [grid_indx] and [bin_inverse] against the raveled bin-id map [l] and the
    kept ids: each cell whose id is kept is listed with the position of its
    id. *)
Definition pairs_ok (l : list Z) (ncell : nat) (ids : list Z) (gi bi : list nat) : Prop :=
  NoDup gi /\ Forall (fun g => (g < ncell)%nat) gi /\
  length gi = length bi /\ Forall (fun b => (b < length ids)%nat) bi /\
  forall j b r, l !! j = Some b -> ids !! r = Some b -> In (j, r) (zip gi bi).

(** The places of the stored entries of a sparse matrix. *)
Definition places {A} (es : list (A * nat * nat)) : list (nat * nat) :=
  map (fun e => (e.1.2, e.2)) es.

(** Two runs of the bin bookkeeping, one over the reals and one over
    binary64, agree in everything but the values of the weights. *)
Definition same_bookkeeping
    (r : result (option (list Z) * list nat * list nat * list nat * csr_matrix))
    (r64 : result (option (list Z) * list nat * list nat * list nat * Float64.csr_matrix))
  : Prop :=
  match r, r64 with
  | Return (ids, indx, gi, bi, bt), Return (ids', indx', gi', bi', bt') =>
      ids = ids' /\ indx = indx' /\ gi = gi' /\ bi = bi' /\
      nrows bt = Float64.nrows bt' /\ ncols bt = Float64.ncols bt' /\
      places (entries bt) = places (Float64.entries bt')
  | Raise e, Raise e' => e = e'
  | _, _ => False
  end.

(** The parameter attributes of a disk model agree with each other, as they
    do after [_init_par]: [par] and [free] have [np] entries and [nfree]
    counts the free ones. *)
Definition par_consistent (np nfree : nat) (par : list R) (free : list bool) : Prop :=
  length par = np /\ length free = np /\ nfree = count_true free.

(** What [_set_par] does to a model, read off the attributes of the model
    before the call ([s]) and after it ([s']): with a vector of [np] entries
    [par] is that vector afterwards; with a vector of [nfree] entries the
    free entries of [par] are, in order, the entries of the vector and the
    fixed entries are what they were; in both cases [np], [nfree] and [free]
    stay; a vector of any other length raises [ValueError] and leaves the
    model as it was. *)
Definition set_par_contract {S : Type} (np nfree : S -> nat) (par : S -> list R)
    (free : S -> list bool) (_set_par : ndarray R -> py S unit) : Prop :=
  forall (s : S) (p : ndarray R),
    par_consistent (np s) (nfree s) (par s) (free s) ->
    wf_ndarray p ->
    (shape p = [np s] ->
     exists s',
       _set_par p s = (Return tt, s') /\
       par s' = ravel p /\
       np s' = np s /\ nfree s' = nfree s /\ free s' = free s) /\
    (shape p = [nfree s] ->
     exists s',
       _set_par p s = (Return tt, s') /\
       length (par s') = np s /\
       (forall i, free s !! i = Some false -> par s' !! i = par s !! i) /\
       mask_filter (free s) (par s') = ravel p /\
       np s' = np s /\ nfree s' = nfree s /\ free s' = free s) /\
    (forall n, shape p = [n] -> n <> np s -> n <> nfree s ->
     exists msg, _set_par p s = (Raise (ValueError msg), s)).

(** [o] is [None] or a vector of [n] entries. *)
Definition opt_length {A} (o : option (list A)) (n : nat) : Prop :=
  match o with
  | Some v => length v = n
  | None => True
  end.

(** [m] masks every entry of [iv] that is not positive. *)
Definition masks_nonpositive (m : list bool) (iv : list R) : Prop :=
  length m = length iv /\
  forall p v, iv !! p = Some v -> (v <= 0)%R -> m !! p = Some true.

Definition opt_masks_nonpositive (m : option (list bool)) (iv : option (list R)) : Prop :=
  match iv with
  | None => True
  | Some v => exists mk, m = Some mk /\ masks_nonpositive mk v
  end.

(** The mask of a masked array has [L] entries. *)
Definition ma_mask_length (d : marray) (L : nat) : Prop :=
  match d with
  | Plain _ => True
  | MaskedArray _ k => length (ravel k) = L
  end.

(** The in-plane polar coordinates of the cells of a grid. *)
Definition axisym_polar `{Geometry} (xa ya : ndarray R) (xc yc pa inc : R) : list (R * R) :=
  zip_with (fun xv yv => projected_polar (xv - xc) (yv - yc) (np_radians pa) (np_radians inc))
           (ravel xa) (ravel ya).

(** ** Sample collaborators and inputs

    Stand-ins for the collaborators, to run the embedding on concrete
    inputs. *)

Definition sample_beam_ops : BeamOps :=
  {| complex := R;
     fftn_ifftshift := fun a => a;
     construct_beam := fun p _ => p;
     ifftn_real := fun a => a |}.

Definition sample_geometry : Geometry :=
  {| projected_polar := fun xv yv _ _ => (sqrt (xv * xv + yv * yv), 0)%R |}.

Definition sample_mock_ops : MockOps :=
  {| np_interp := fun _ _ fp => hd 0%R fp;
     sersic1d_sample := fun _ _ => 1%R;
     np_load := fun _ => Raise (OtherError "FileNotFoundError") |}.

(** A curve with one parameter, its amplitude. *)
Definition sample_curve : Curve1D :=
  {| curve_np := 1;
     curve_guess_par := [100]%R;
     curve_lb := [0]%R;
     curve_ub := [500]%R;
     curve_sample := fun _ p => hd 0%R p |}.

Definition sample_fit_errors : @FitErrors sample_beam_ops :=
  {| err_cfg := unit;
     cfg_has_err := fun _ => false;
     cfg_has_covar := fun _ => false;
     fit_errors := fun _ _ _ _ _ => Return tt |}.

(** An optimizer that returns its starting point, with a covariance that has
    [4] everywhere. *)
Definition sample_optimizer (S : Type) : Optimizer S :=
  {| jacobian := nat;
     least_squares := fun c s => (Return (NDArray [length (lsq_x0 c)] (lsq_x0 c),
                                          length (lsq_x0 c)), s);
     cov_err := fun n => Return (NDArray [n; n] (repeat 4%R (n * n))) |}.

Definition sample_map (v0 v1 v2 v3 : R) : ndarray R :=
  NDArray [2%nat; 2%nat] [v0; v1; v2; v3].

(** A 2 by 2 map with default coordinates; only [grid_y] is given. *)
Definition sample_unbinned_args : Kinematics.args :=
  {| Kinematics.arg_vel := Plain (sample_map 10 20 30 40);
     Kinematics.arg_vel_ivar := None; Kinematics.arg_vel_mask := None;
     Kinematics.arg_x := None; Kinematics.arg_y := None;
     Kinematics.arg_sb := None; Kinematics.arg_sb_ivar := None;
     Kinematics.arg_sb_mask := None;
     Kinematics.arg_sig := None; Kinematics.arg_sig_ivar := None;
     Kinematics.arg_sig_mask := None; Kinematics.arg_sig_corr := None;
     Kinematics.arg_psf := None; Kinematics.arg_aperture := None;
     Kinematics.arg_binid := None;
     Kinematics.arg_grid_x := None;
     Kinematics.arg_grid_y := Some (sample_map (-1) (-1) 1 1);
     Kinematics.arg_reff := None; Kinematics.arg_fwhm := None;
     Kinematics.arg_bordermask := None |}.

(** The same map with nothing but [vel]. *)
Definition sample_vel_only_args : Kinematics.args :=
  {| Kinematics.arg_vel := Plain (sample_map 10 20 30 40);
     Kinematics.arg_vel_ivar := None; Kinematics.arg_vel_mask := None;
     Kinematics.arg_x := None; Kinematics.arg_y := None;
     Kinematics.arg_sb := None; Kinematics.arg_sb_ivar := None;
     Kinematics.arg_sb_mask := None;
     Kinematics.arg_sig := None; Kinematics.arg_sig_ivar := None;
     Kinematics.arg_sig_mask := None; Kinematics.arg_sig_corr := None;
     Kinematics.arg_psf := None; Kinematics.arg_aperture := None;
     Kinematics.arg_binid := None;
     Kinematics.arg_grid_x := None; Kinematics.arg_grid_y := None;
     Kinematics.arg_reff := None; Kinematics.arg_fwhm := None;
     Kinematics.arg_bordermask := None |}.

(** The same map binned: cells 0 and 2 form bin 5, cell 3 is bin 7 and cell 1
    belongs to no bin. *)
Definition sample_binned_args : Kinematics.args :=
  {| Kinematics.arg_vel := Plain (sample_map 10 20 30 40);
     Kinematics.arg_vel_ivar := None; Kinematics.arg_vel_mask := None;
     Kinematics.arg_x := None; Kinematics.arg_y := None;
     Kinematics.arg_sb := None; Kinematics.arg_sb_ivar := None;
     Kinematics.arg_sb_mask := None;
     Kinematics.arg_sig := None; Kinematics.arg_sig_ivar := None;
     Kinematics.arg_sig_mask := None; Kinematics.arg_sig_corr := None;
     Kinematics.arg_psf := None; Kinematics.arg_aperture := None;
     Kinematics.arg_binid := Some (NDArray [2%nat; 2%nat] [5; -1; 5; 7]%Z);
     Kinematics.arg_grid_x := Some (sample_map 1 (-1) 1 (-1));
     Kinematics.arg_grid_y := Some (sample_map (-1) (-1) 1 1);
     Kinematics.arg_reff := None; Kinematics.arg_fwhm := None;
     Kinematics.arg_bordermask := None |}.



(** What the constructor makes of [sample_binned_args]: two measurements, at
    cells 0 and 3. *)
Definition sample_binned_kin : @Kinematics.t sample_beam_ops :=
  {| Kinematics.nimg := 2;
     Kinematics.spatial_shape := [2%nat; 2%nat];
     Kinematics.beam := None; Kinematics.beam_fft := None;
     Kinematics.reff := None; Kinematics.fwhm := None;
     Kinematics.bordermask := None;
     Kinematics.x := [0; -1]%R; Kinematics.y := [-1; 0]%R;
     Kinematics.sb := None; Kinematics.sb_ivar := None; Kinematics.sb_mask := None;
     Kinematics.vel := Some [10; 40]%R; Kinematics.vel_ivar := None;
     Kinematics.vel_mask := Some [false; false];
     Kinematics.sig := None; Kinematics.sig_ivar := None; Kinematics.sig_mask := None;
     Kinematics.sig_corr := None;
     Kinematics.binid := Some [5; 7]%Z;
     Kinematics.grid_x := Some (sample_map 1 (-1) 1 (-1));
     Kinematics.grid_y := Some (sample_map (-1) (-1) 1 1);
     Kinematics.grid_indx := [0; 2; 3]%nat;
     Kinematics.bin_inverse := [0; 0; 1]%nat;
     Kinematics.bin_transform :=
       CSR 2 4 [((1 / INR 2)%R, 0%nat, 0%nat); ((1 / INR 2)%R, 0%nat, 2%nat);
                ((1 / INR 1)%R, 1%nat, 3%nat)] |}.

(** A mock galaxy without border. *)
Definition sample_mock_args : Kinematics.mock_args :=
  {| Kinematics.m_size := 2;
     Kinematics.m_inc := 45; Kinematics.m_pa := 0; Kinematics.m_pab := 0;
     Kinematics.m_vsys := 0;
     Kinematics.m_vt := [100; 200]%R; Kinematics.m_v2t := [0; 0]%R;
     Kinematics.m_v2r := [0; 0]%R; Kinematics.m_sig := [10; 10]%R;
     Kinematics.m_xc := 0; Kinematics.m_yc := 0;
     Kinematics.m_reff := 10; Kinematics.m_maxr := 15;
     Kinematics.m_psf := Some (sample_map 0 0 0 1);
     Kinematics.m_border := 0; Kinematics.m_fwhm := 2.44 |}.

(** ** Reasoning about results and methods *)

Lemma bind_Return {A B} (m : result A) (f : A -> result B) (b : B) :
  m ≫= f = Return b -> exists a, m = Return a /\ f a = Return b.
Proof. destruct m as [a|e]; simpl; [eauto | discriminate]. Qed.

Tactic Notation "inv_bind" hyp(H) :=
  let a := fresh "a" in
  let Ha := fresh "Ha" in
  apply bind_Return in H; destruct H as (a & Ha & H).

Tactic Notation "inv_bind" hyp(H) "as" ident(a) ident(Ha) :=
  apply bind_Return in H; destruct H as (a & Ha & H).

Lemma raise_if_Return (c : bool) (e : exn) (u : unit) : raise_if c e = Return u -> c = false.
Proof. by destruct c. Qed.

Ltac py_simpl :=
  cbv [mbind mret py_bind py_ret py_get py_lift py_modify py_raise py_put]; cbn.

Lemma py_bind_Return {S A B} (m : py S A) (f : A -> py S B) (s s' : S) (b : B) :
  (m ≫= f) s = (Return b, s') ->
  exists a s1, m s = (Return a, s1) /\ f a s1 = (Return b, s').
Proof.
  cbv [mbind py_bind]. destruct (m s) as [[a|e] s1]; [eauto | discriminate].
Qed.

Tactic Notation "py_inv" hyp(H) "as" ident(a) ident(s) ident(Ha) :=
  apply py_bind_Return in H; destruct H as (a & s & Ha & H).

Lemma py_lift_Return {S A} (r : result A) (s s' : S) (a : A) :
  py_lift r s = (Return a, s') -> r = Return a /\ s' = s.
Proof. cbv [py_lift]. by intros [= -> ->]. Qed.

Lemma py_get_Return {S} (s s' a : S) : py_get s = (Return a, s') -> a = s /\ s' = s.
Proof. cbv [py_get]. by intros [= -> ->]. Qed.

Lemma py_modify_Return {S} (f : S -> S) (s s' : S) (u : unit) :
  py_modify f s = (Return u, s') -> s' = f s.
Proof. cbv [py_modify]. by intros [= _ ->]. Qed.

Lemma py_ret_Return {S A} (a b : A) (s s' : S) :
  (mret a : py S A) s = (Return b, s') -> b = a /\ s' = s.
Proof. cbv [mret py_ret]. by intros [= -> ->]. Qed.

(** ** Lists as arrays *)

Lemma lookup_map {A B} (f : A -> B) (l : list A) (i : nat) :
  map f l !! i = f <$> l !! i.
Proof. exact (list_lookup_fmap f l i). Qed.

Lemma lookup_repeat {A} (v : A) (n i : nat) : i < n -> repeat v n !! i = Some v.
Proof.
  revert i. induction n as [|n IH]; intros [|i] Hi; simpl; try lia; [done|].
  apply IH. lia.
Qed.

Lemma lookup_rev {A} (l : list A) (i : nat) :
  i < length l -> rev l !! i = l !! (length l - S i).
Proof. rewrite rev_alt. fold (reverse l). apply reverse_lookup. Qed.

Lemma tail_map {A B} (f : A -> B) (l : list A) : tail (map f l) = map f (tail l).
Proof. by destruct l. Qed.

Lemma In_tail {A} (v : A) (l : list A) : In v (tail l) -> In v l.
Proof. destruct l; simpl; tauto. Qed.

Lemma seq_lt_Forall (n : nat) : Forall (fun g => g < n) (seq 0 n).
Proof. apply Forall_forall. intros g Hg%list_elem_of_In%in_seq. lia. Qed.

Lemma forallb_lt (n : nat) (l : list nat) :
  Forall (fun g => g < n) l -> forallb (fun i => Nat.ltb i n) l = true.
Proof.
  intros Hl. apply forallb_forall. intros v Hv. apply Nat.ltb_lt.
  rewrite Forall_forall in Hl. by apply Hl, list_elem_of_In.
Qed.

Lemma existsb_false {A} (f : A -> bool) (l : list A) (v : A) :
  existsb f l = false -> In v l -> f v = false.
Proof.
  intros Hex Hv. destruct (f v) eqn:Hf; [|done].
  rewrite <- Hex. symmetry. apply existsb_exists. eauto.
Qed.

Lemma In_zip_lookup {A B} (l1 : list A) (l2 : list B) (m : nat) (a : A) (b : B) :
  l1 !! m = Some a -> l2 !! m = Some b -> In (a, b) (zip l1 l2).
Proof.
  intros H1 H2. apply list_elem_of_In, list_elem_of_lookup. exists m.
  by rewrite lookup_zip_with, H1, H2.
Qed.

Lemma In_zip_inv {A B} (l1 : list A) (l2 : list B) (a : A) (b : B) :
  In (a, b) (zip l1 l2) -> exists m, l1 !! m = Some a /\ l2 !! m = Some b.
Proof.
  intros (m & Hm)%list_elem_of_In%list_elem_of_lookup. exists m.
  apply lookup_zip_with_Some in Hm. destruct Hm as (a' & b' & [= -> ->] & ? & ?). done.
Qed.

Lemma In_zip_seq (n r : nat) : r < n -> In (r, r) (zip (seq 0 n) (seq 0 n)).
Proof.
  intros Hr. apply (In_zip_lookup _ _ r); by rewrite lookup_seq_lt.
Qed.

(** Cell [(i, j)] of an array built row by row from rows of one length. *)
Lemma lookup_concat_rows {A B} (row : B -> list A) (n : nat) (l : list B) (i j : nat) (b : B) :
  (forall v, length (row v) = n) ->
  l !! i = Some b -> j < n ->
  concat (map row l) !! (i * n + j) = row b !! j.
Proof.
  intros Hrow. revert i. induction l as [|h l IH]; intros [|i] Hi Hj; simpl in *; try done.
  - injection Hi as ->. by rewrite lookup_app_l by (rewrite Hrow; lia).
  - rewrite lookup_app_r by (rewrite Hrow; lia). rewrite Hrow.
    replace (n + i * n + j - n) with (i * n + j) by lia. by apply IH.
Qed.

Lemma length_concat_rows {A B} (row : B -> list A) (n : nat) (l : list B) :
  (forall v, length (row v) = n) -> length (concat (map row l)) = length l * n.
Proof.
  intros Hrow. induction l as [|h l IH]; simpl; [done|].
  rewrite length_app, Hrow, IH. lia.
Qed.

Lemma np_prod_1d (n : nat) : np_prod [n] = n.
Proof. simpl. lia. Qed.

Lemma np_prod_2d (n m : nat) : np_prod [n; m] = n * m.
Proof. simpl. lia. Qed.

Lemma shape_eqb_true (s1 s2 : list nat) : shape_eqb s1 s2 = true <-> s1 = s2.
Proof. unfold shape_eqb. by rewrite bool_decide_eq_true. Qed.

Lemma wf_shape_length {A} (a : ndarray A) (s : list nat) :
  wf_ndarray a -> shape a = s -> length (ravel a) = np_prod s.
Proof. unfold wf_ndarray. by intros -> ->. Qed.

(** ** Gathering and scattering *)

Lemma take_Return {A} (a : list A) (idx : list nat) (r : list A) :
  np_take a idx = Return r ->
  length r = length idx /\
  forall m p, idx !! m = Some p -> r !! m = a !! p /\ p < length a.
Proof.
  revert r. induction idx as [|i idx IH]; intros r Hr; simpl in *.
  - injection Hr as <-. split; [done|]. intros m p Hm. done.
  - destruct (a !! i) as [v|] eqn:Hv; [|discriminate].
    inv_bind Hr. injection Hr as <-. destruct (IH _ Ha) as [Hlen Hlk].
    split; [simpl; lia|]. intros [|m] p Hm; simpl in *.
    + injection Hm as <-. split; [done|]. by eapply lookup_lt_Some.
    + by apply Hlk.
Qed.

Lemma take_total {A} (a : list A) (idx : list nat) :
  Forall (fun i => i < length a) idx -> exists r, np_take a idx = Return r.
Proof.
  induction 1 as [|i idx Hi _ [r Hr]]; simpl; [by eexists|].
  destruct (lookup_lt_is_Some_2 a i Hi) as [v ->]. rewrite Hr. simpl. by eexists.
Qed.


Lemma scatter_length {A} (a : list A) (idx : list nat) (vals : list A) :
  length (scatter a idx vals) = length a.
Proof.
  revert a vals. induction idx as [|i idx IH]; intros a [|v vals]; simpl; try done.
  by rewrite IH, length_insert.
Qed.

Lemma scatter_lookup_notin {A} (a : list A) (idx : list nat) (vals : list A) (i : nat) :
  ~ In i idx -> scatter a idx vals !! i = a !! i.
Proof.
  revert a vals. induction idx as [|i0 idx IH]; intros a [|v vals] Hi; simpl in *; try done.
  rewrite IH by tauto. apply list_lookup_insert_ne. tauto.
Qed.

Lemma scatter_lookup_In {A} (a : list A) (idx : list nat) (vals : list A) (i : nat) (w : A) :
  NoDup idx -> In (i, w) (zip idx vals) -> i < length a ->
  scatter a idx vals !! i = Some w.
Proof.
  intros Hnd. revert a vals.
  induction Hnd as [|i0 idx Hi0 Hnd IH]; intros a [|v vals] Hin Hlt; simpl in *; try done.
  destruct Hin as [Heq|Hin].
  - injection Heq as -> ->. rewrite scatter_lookup_notin.
    + by apply list_lookup_insert_eq.
    + by rewrite <- list_elem_of_In.
  - apply IH; [done|]. by rewrite length_insert.
Qed.


(** ** Boolean masks *)

Lemma count_true_cons (b : bool) (m : list bool) :
  count_true (b :: m) = ((if b then 1 else 0) + count_true m)%nat.
Proof. unfold count_true. rewrite filter_cons. by destruct b. Qed.

Lemma count_true_le (m : list bool) : count_true m <= length m.
Proof. apply length_filter. Qed.

Lemma mask_filter_In {A} (m : list bool) (a : list A) (v : A) :
  In v (mask_filter m a) -> In v a.
Proof.
  revert a. induction m as [|b m IH]; intros [|x a]; simpl; try done.
  destruct b; simpl; intuition.
Qed.

Lemma mask_filter_NoDup {A} (m : list bool) (a : list A) :
  NoDup a -> NoDup (mask_filter m a).
Proof.
  intros Hnd. revert m. induction Hnd as [|x a Hx Hnd IH]; intros [|b m]; simpl;
    try apply NoDup_nil_2.
  destruct b; [|done]. constructor; [|done].
  intros Hin%list_elem_of_In%mask_filter_In. by apply Hx, list_elem_of_In.
Qed.

Lemma mask_filter_Forall {A} (P : A -> Prop) (m : list bool) (a : list A) :
  Forall P a -> Forall P (mask_filter m a).
Proof.
  intros Ha. apply Forall_forall. intros v Hv%list_elem_of_In%mask_filter_In.
  rewrite Forall_forall in Ha. by apply Ha, list_elem_of_In.
Qed.

Lemma mask_filter_length {A} (m : list bool) (a : list A) :
  length m = length a -> length (mask_filter m a) = count_true m.
Proof.
  revert a. induction m as [|b m IH]; intros [|x a] Hlen; simpl in *; try done.
  rewrite count_true_cons. destruct b; simpl; rewrite IH by lia; done.
Qed.

(** A mask computed from the values it selects keeps the values that
    satisfy the test. *)
Lemma mask_filter_test {A} (p : A -> bool) (a : list A) (v : A) :
  In v (mask_filter (map p a) a) -> p v = true.
Proof.
  induction a as [|x a IH]; simpl; [done|].
  destruct (p x) eqn:Hp; simpl; [|done]. intros [<-|Hin]; [done | by apply IH].
Qed.

(** The selected position of a cell that the mask keeps. *)
Lemma mask_filter_lookup {A} (m : list bool) (a : list A) (j : nat) :
  m !! j = Some true -> mask_filter m a !! count_true (take j m) = a !! j.
Proof.
  revert a j. induction m as [|b m IH]; intros a j Hj; [done|].
  destruct j as [|j]; simpl in Hj.
  - injection Hj as ->. by destruct a.
  - simpl take. rewrite count_true_cons. destruct a as [|x a]; simpl.
    + by destruct b.
    + destruct b; simpl; by apply IH.
Qed.

Lemma mask_scatter_length {A} (m : list bool) (a vals : list A) :
  length (mask_scatter m a vals) = length a.
Proof.
  revert a vals. induction m as [|b m IH]; intros [|x a] vals; simpl; try done.
  destruct b; [destruct vals|]; simpl; by rewrite IH.
Qed.

Lemma mask_scatter_fixed {A} (m : list bool) (a vals : list A) (i : nat) :
  m !! i = Some false -> mask_scatter m a vals !! i = a !! i.
Proof.
  revert a vals i. induction m as [|b m IH]; intros [|x a] vals [|i] Hi; simpl in *; try done.
  - injection Hi as ->. done.
  - destruct b; [destruct vals|]; simpl; by apply IH.
Qed.

Lemma mask_filter_scatter {A} (m : list bool) (a vals : list A) :
  length m = length a -> length vals = count_true m ->
  mask_filter m (mask_scatter m a vals) = vals.
Proof.
  revert a vals. induction m as [|b m IH]; intros [|x a] vals Hlen Hvals; simpl in *; try done.
  - by destruct vals.
  - rewrite count_true_cons in Hvals. destruct b.
    + destruct vals as [|w vals]; simpl in *; [lia|]. f_equal. apply IH; lia.
    + apply IH; simpl in *; lia.
Qed.

Lemma all_true_no_false (m : list bool) (i : nat) :
  count_true m = length m -> m !! i <> Some false.
Proof.
  revert i. induction m as [|b m IH]; intros i Hc; [done|].
  rewrite count_true_cons in Hc. simpl in Hc. pose proof (count_true_le m).
  destruct b; [|lia]. destruct i as [|i]; simpl; [done|]. apply IH. lia.
Qed.

Lemma mask_filter_all_true {A} (m : list bool) (a : list A) :
  count_true m = length m -> length m = length a -> mask_filter m a = a.
Proof.
  revert a. induction m as [|b m IH]; intros [|x a] Hc Hlen; simpl in *; try done.
  rewrite count_true_cons in Hc. pose proof (count_true_le m).
  destruct b; [|lia]. f_equal. apply IH; lia.
Qed.

Lemma mask_filter_repeat {A} (m : list bool) (c : A) (n : nat) :
  length m = n -> mask_filter m (repeat c n) = repeat c (count_true m).
Proof.
  revert n. induction m as [|b m IH]; intros [|n] Hlen; simpl in *; try done.
  rewrite count_true_cons. destruct b; simpl; rewrite IH by lia; done.
Qed.

Lemma np_mask_select_Return {A} (a : list A) (m : list bool) (r : list A) :
  np_mask_select a m = Return r -> r = mask_filter m a /\ length m = length a.
Proof.
  unfold np_mask_select. destruct (Nat.eqb_spec (length m) (length a)); [|done].
  by intros [= <-].
Qed.


(** ** [np.unique] and [np.where] *)

Lemma insert_unique_In (z v : Z) (l : list Z) :
  In v (insert_unique z l) <-> v = z \/ In v l.
Proof.
  induction l as [|h t IH]; simpl.
  - intuition.
  - destruct (Z.ltb_spec z h); [simpl; intuition|].
    destruct (Z.eqb_spec z h) as [->|Hne]; simpl; [intuition|].
    rewrite IH. intuition.
Qed.

Lemma unique_values_In (v : Z) (l : list Z) : In v (unique_values l) <-> In v l.
Proof.
  induction l as [|h t IH]; simpl; [done|].
  rewrite insert_unique_In, IH. intuition.
Qed.

Lemma insert_unique_sorted (z : Z) (l : list Z) :
  StronglySorted Z.lt l -> StronglySorted Z.lt (insert_unique z l).
Proof.
  induction 1 as [|h t Hs IH Hh]; simpl.
  - repeat constructor.
  - destruct (Z.ltb_spec z h).
    + constructor; [by constructor|]. constructor; [done|].
      eapply Forall_impl; [exact Hh|]. simpl. intros; lia.
    + destruct (Z.eqb_spec z h) as [->|Hne]; [by constructor|].
      constructor; [done|]. apply Forall_forall. intros v Hv.
      apply list_elem_of_In, insert_unique_In in Hv. destruct Hv as [->|Hv]; [lia|].
      rewrite Forall_forall in Hh. apply Hh. by apply list_elem_of_In.
Qed.

Lemma unique_values_sorted (l : list Z) : StronglySorted Z.lt (unique_values l).
Proof.
  induction l as [|h t IH]; simpl; [constructor | by apply insert_unique_sorted].
Qed.

Lemma sorted_NoDup (l : list Z) : StronglySorted Z.lt l -> NoDup l.
Proof.
  induction 1 as [|h t Hs IH Hh]; constructor; [|done].
  intros Hin. rewrite Forall_forall in Hh. specialize (Hh _ Hin). lia.
Qed.

Lemma unique_values_NoDup (l : list Z) : NoDup (unique_values l).
Proof. apply sorted_NoDup, unique_values_sorted. Qed.

Lemma index_of_lookup (z : Z) (u : list Z) :
  In z u -> u !! index_of z u = Some z.
Proof.
  induction u as [|h t IH]; simpl; [done|].
  destruct (Z.eqb_spec h z) as [->|Hne]; [done|].
  intros [?|Hin]; [done | by apply IH].
Qed.

Lemma index_of_NoDup (u : list Z) (r : nat) (z : Z) :
  NoDup u -> u !! r = Some z -> index_of z u = r.
Proof.
  intros Hnd. revert r. induction Hnd as [|h t Hh Hnd IH]; intros [|r] Hr; simpl in *; try done.
  - injection Hr as ->. by rewrite Z.eqb_refl.
  - destruct (Z.eqb_spec h z) as [->|Hne].
    + exfalso. apply Hh. by eapply list_elem_of_lookup_2.
    + f_equal. by apply IH.
Qed.

Lemma index_of_lt (z : Z) (u : list Z) : In z u -> (index_of z u < length u)%nat.
Proof. intros Hz. eapply lookup_lt_Some. by apply index_of_lookup. Qed.

Lemma where_eq_from_spec (s : nat) (l : list Z) (b : Z) (j : nat) :
  In j (where_eq_from s l b) <-> s <= j /\ l !! (j - s) = Some b.
Proof.
  revert s. induction l as [|h t IH]; intros s; simpl.
  - intuition. discriminate.
  - destruct (Z.eqb_spec h b) as [->|Hne]; simpl; rewrite IH.
    + split.
      * intros [<-|[Hs Hl]]; [split; [lia|]; by replace (s - s) with 0 by lia|].
        split; [lia|]. by replace (j - s) with (S (j - S s)) by lia.
      * intros [Hs Hl]. destruct (decide (j = s)) as [->|Hjs]; [by left|right].
        split; [lia|]. by replace (j - s) with (S (j - S s)) in Hl by lia.
    + split.
      * intros [Hs Hl]. split; [lia|]. by replace (j - s) with (S (j - S s)) by lia.
      * intros [Hs Hl]. destruct (decide (j = s)) as [->|Hjs].
        { replace (s - s) with 0 in Hl by lia. simpl in Hl. congruence. }
        split; [lia|]. by replace (j - s) with (S (j - S s)) in Hl by lia.
Qed.

Lemma np_where_eq_spec (l : list Z) (b : Z) (j : nat) :
  In j (np_where_eq l b) <-> l !! j = Some b.
Proof.
  unfold np_where_eq. rewrite where_eq_from_spec. replace (j - 0) with j by lia.
  intuition lia.
Qed.

Lemma where_eq_from_length (s : nat) (l : list Z) (b : Z) :
  length (where_eq_from s l b) = count_of b l.
Proof.
  unfold count_of. revert s. induction l as [|h t IH]; intros s; simpl; [done|].
  rewrite filter_cons. destruct (Z.eqb_spec h b) as [->|Hne].
  - rewrite decide_True by done. simpl. by rewrite IH.
  - rewrite decide_False by done. by rewrite IH.
Qed.

Lemma count_of_pos (b : Z) (l : list Z) : In b l -> 0 < count_of b l.
Proof.
  unfold count_of. induction l as [|h t IH]; simpl; [done|].
  rewrite filter_cons. destruct (decide (h = b)) as [->|Hne]; simpl; [lia|].
  intros [?|Hin]; [done | by apply IH].
Qed.


(** ** Rows of the bin operator *)

Section BinOperator.
Context `{BeamOps}.
Local Open Scope R_scope.

Lemma zip3_maps {A B C} (l : list (A * B * C)) :
  zip3 (map (fun e => e.1.1) l) (map (fun e => e.1.2) l) (map (fun e => e.2) l) = l.
Proof. induction l as [|[[a b] c] l IH]; simpl; [done | by rewrite IH]. Qed.

Lemma coo_matrix_Return d i j m n bt :
  coo_matrix d i j m n = Return bt -> bt = CSR m n (zip3 d i j).
Proof. unfold coo_matrix. by destruct (forallb _ _); [intros [= <-]|]. Qed.

(** The rows of the identity operator of the unbinned case. *)
Lemma ident_rows (s n r : nat) :
  filter (fun e : R * nat * nat => e.1.2 = r) (zip3 (repeat 1 n) (seq s n) (seq s n))
  = if decide (s <= r < s + n)%nat then [(1, r, r)] else [].
Proof.
  revert s. induction n as [|n IH]; intros s; simpl.
  - by rewrite decide_False by lia.
  - rewrite filter_cons. simpl. rewrite IH.
    repeat case_decide; subst; try done; lia.
Qed.

Lemma unbinned_consistent (n : nat) (bt : csr_matrix) :
  coo_matrix (repeat 1 n) (np_arange n) (np_arange n) n n = Return bt ->
  bins_consistent n n (np_arange n) (np_arange n) bt.
Proof.
  intros Hbt. apply coo_matrix_Return in Hbt. subst bt. unfold np_arange.
  repeat split; simpl.
  - apply NoDup_ListNoDup, seq_NoDup.
  - apply Forall_forall. intros g Hg%list_elem_of_In%in_seq. lia.
  - apply Forall_forall. intros g Hg%list_elem_of_In%in_seq. lia.
  - intros r Hr. exists 1, [r]. unfold row_entries. simpl. rewrite ident_rows.
    rewrite decide_True by lia. repeat split; [lra|].
    constructor; [|constructor]. by apply In_zip_seq.
Qed.


Lemma filter_row_map (w : R) (i r : nat) (cells : list nat) :
  filter (fun e : R * nat * nat => e.1.2 = r) (map (fun j => (w, i, j)) cells)
  = if decide (i = r) then map (fun j => (w, i, j)) cells else [].
Proof.
  induction cells as [|c cells IH]; simpl; [by case_decide|].
  rewrite filter_cons. simpl. rewrite IH. by repeat case_decide.
Qed.

Lemma binned_rows (w : nat -> R) (cells : Z -> list nat) (s : nat) (ids : list Z)
                  (r : nat) (b : Z) :
  (s <= r)%nat -> ids !! (r - s)%nat = Some b ->
  filter (fun e : R * nat * nat => e.1.2 = r)
         (flat_map (fun ib : nat * Z => map (fun j => (w ib.1, ib.1, j)) (cells ib.2))
                   (zip (seq s (length ids)) ids))
  = map (fun j => (w r, r, j)) (cells b).
Proof.
  revert s. induction ids as [|h ids IH]; intros s Hs Hr; [done|].
  simpl. rewrite filter_app, filter_row_map. case_decide as Hsr.
  - subst s. replace (r - r)%nat with 0%nat in Hr by lia. injection Hr as ->.
    enough (Hnil : filter (fun e : R * nat * nat => e.1.2 = r)
              (flat_map (fun ib : nat * Z => map (fun j => (w ib.1, ib.1, j)) (cells ib.2))
                        (zip (seq (S r) (length ids)) ids)) = [])
      by (rewrite Hnil; apply app_nil_r).
    clear. generalize (Nat.lt_succ_diag_r r). generalize (S r) as s.
    induction ids as [|h ids IH]; intros s Hs; [done|].
    simpl. rewrite filter_app, filter_row_map, decide_False by lia.
    apply IH. lia.
  - simpl. apply IH; [lia|]. by replace (r - s)%nat with (S (r - S s)) in Hr by lia.
Qed.

(** No bin id is [-1]: every cell belongs to a bin. *)
Lemma pairs_ok_all (l : list Z) :
  let u := unique_values l in
  pairs_ok l (length l) u (np_arange (length l)) (map (fun z => index_of z u) l).
Proof.
  intros u. unfold np_arange. repeat split.
  - apply NoDup_ListNoDup, seq_NoDup.
  - apply seq_lt_Forall.
  - by rewrite length_seq, length_map.
  - apply Forall_forall. intros b (z & <- & Hz)%list_elem_of_In%in_map_iff.
    apply index_of_lt. by apply unique_values_In.
  - intros j b r Hj Hr. apply (In_zip_lookup _ _ j).
    + rewrite lookup_seq_lt; [done|]. by eapply lookup_lt_Some.
    + rewrite lookup_map, Hj. simpl. f_equal.
      apply index_of_NoDup; [apply unique_values_NoDup | done].
Qed.

(** The smallest id is dropped: its cells belong to no bin. *)
Lemma pairs_ok_tail (l : list Z) :
  let u := unique_values l in
  let inverse := map (fun z => index_of z u) l in
  let keep := map (fun k => Nat.ltb 0 k) inverse in
  pairs_ok l (length l) (tail u) (mask_filter keep (np_arange (length l)))
           (map (fun k => (k - 1)%nat) (mask_filter keep inverse)).
Proof.
  intros u inverse keep. unfold np_arange.
  assert (Hlk : length keep = length l) by (unfold keep, inverse; by rewrite !length_map).
  assert (Hli : length inverse = length l) by (unfold inverse; by rewrite !length_map).
  repeat split.
  - apply mask_filter_NoDup, NoDup_ListNoDup, seq_NoDup.
  - apply mask_filter_Forall, seq_lt_Forall.
  - rewrite length_map, !mask_filter_length; [done | lia | by rewrite length_seq].
  - apply Forall_forall. intros b (e & <- & He)%list_elem_of_In%in_map_iff.
    pose proof (mask_filter_test _ _ _ He) as Hpos. apply Nat.ltb_lt in Hpos.
    apply mask_filter_In, in_map_iff in He. destruct He as (z & <- & Hz).
    apply unique_values_In, index_of_lt in Hz. fold u in Hz.
    fold u in Hpos. destruct u; simpl in *; lia.
  - intros j b r Hj Hr.
    assert (Hu : u !! S r = Some b) by (destruct u; done).
    assert (Hinv : inverse !! j = Some (S r)).
    { unfold inverse. rewrite lookup_map, Hj. simpl. f_equal.
      apply index_of_NoDup; [apply unique_values_NoDup | done]. }
    assert (Hkeep : keep !! j = Some true).
    { unfold keep. by rewrite lookup_map, Hinv. }
    apply (In_zip_lookup _ _ (count_true (take j keep))).
    + rewrite mask_filter_lookup by done. rewrite lookup_seq_lt; [done|].
      by eapply lookup_lt_Some.
    + rewrite lookup_map, mask_filter_lookup, Hinv by done. simpl. f_equal. lia.
Qed.

Lemma binned_consistent (l : list Z) (ncell : nat) (ids : list Z) (gi bi nbin : list nat)
                        (bt : csr_matrix) :
  let dij := flat_map (fun ib : nat * Z =>
                 map (fun j => ((1 / INR (nth ib.1 nbin 0%nat))%R, ib.1, j))
                     (np_where_eq l ib.2)) (enumerate ids) in
  pairs_ok l ncell ids gi bi ->
  (forall b, In b ids -> In b l) ->
  nbin = map (fun z => count_of z l) ids ->
  coo_matrix (map (fun e => e.1.1) dij) (map (fun e => e.1.2) dij) (map (fun e => e.2) dij)
             (length ids) ncell = Return bt ->
  bins_consistent ncell (length ids) gi bi bt.
Proof.
  intros dij (Hnd & Hgi & Hlen & Hbi & Hpairs) Hids Hnbin Hbt.
  apply coo_matrix_Return in Hbt. rewrite zip3_maps in Hbt. subst bt.
  repeat split; try done. simpl. intros r Hr.
  destruct (lookup_lt_is_Some_2 ids r Hr) as [b Hb].
  exists (1 / INR (nth r nbin 0%nat)), (np_where_eq l b). repeat split.
  - unfold row_entries, dij, enumerate. simpl.
    apply (binned_rows (fun i => 1 / INR (nth i nbin 0%nat)) (np_where_eq l) 0 ids r b);
      [lia | by replace (r - 0)%nat with r by lia].
  - assert (Hcnt : nth r nbin 0%nat = count_of b l).
    { subst nbin. apply nth_lookup_Some. by rewrite lookup_map, Hb. }
    rewrite Hcnt. unfold np_where_eq. rewrite where_eq_from_length.
    assert (0 < count_of b l)%nat
      by (apply count_of_pos, Hids, list_elem_of_In; by eapply list_elem_of_lookup_2).
    field. apply not_0_INR. lia.
  - apply Forall_forall. intros j Hj%list_elem_of_In%np_where_eq_spec. by eapply Hpairs.
Qed.

Lemma bin_setup_consistent (l : list Z) ids indx gi bi bt :
  Kinematics.bin_setup l (length l) = Return (ids, indx, gi, bi, bt) ->
  bins_consistent (length l) (length indx) gi bi bt.
Proof.
  unfold Kinematics.bin_setup, np_unique. intros Hb.
  destruct (existsb _ (unique_values l)).
  - unfold np_mask_select, np_arange in Hb. rewrite !length_map, length_seq in Hb.
    rewrite Nat.eqb_refl in Hb. simpl in Hb.
    match type of Hb with
    | context [match ?d with [] => _ | _ :: _ => _ end] =>
        destruct d eqn:Hdij; [discriminate|]; rewrite <- Hdij in Hb; clear Hdij
    end.
    inv_bind Hb. injection Hb as <- <- <- <- <-.
    rewrite tail_map, length_map. rewrite tail_map in Ha.
    eapply binned_consistent; [apply pairs_ok_tail | | reflexivity | exact Ha].
    intros b Hb%In_tail. by apply unique_values_In.
  - simpl in Hb.
    match type of Hb with
    | context [match ?d with [] => _ | _ :: _ => _ end] =>
        destruct d eqn:Hdij; [discriminate|]; rewrite <- Hdij in Hb; clear Hdij
    end.
    inv_bind Hb. injection Hb as <- <- <- <- <-.
    rewrite length_map.
    eapply binned_consistent; [apply pairs_ok_all | | reflexivity | exact Ha].
    intros b Hb. by apply unique_values_In.
Qed.

Lemma bin_bookkeeping_consistent (bid : option (ndarray Z)) (ncell : nat) ids indx gi bi bt :
  match bid with Some b => length (ravel b) = ncell | None => True end ->
  Kinematics.bin_bookkeeping bid ncell = Return (ids, indx, gi, bi, bt) ->
  bins_consistent ncell (length indx) gi bi bt.
Proof.
  intros Hwf Hb. unfold Kinematics.bin_bookkeeping in Hb. inv_bind Hb.
  destruct bid as [b|].
  - inv_bind Hb as r Hr. destruct r as [[[[ids' indx'] gi'] bi'] bt']. simpl in Hb.
    injection Hb as <- <- <- <- <-. subst ncell. by eapply bin_setup_consistent.
  - injection Hb as <- <- <- <- <-. unfold np_arange at 1. rewrite length_seq.
    by apply unbinned_consistent.
Qed.

End BinOperator.

(** ** The constructor *)

Section Constructor.
Context `{BeamOps}.
Local Open Scope R_scope.

Lemma check_args_Return (a : Kinematics.args) (n : nat) :
  Kinematics.check_args a = Return n ->
  ma_shape (Kinematics.arg_vel a) = [n; n] /\
  (forall s, In (Some s) (Kinematics.companion_shapes a) -> s = [n; n]) /\
  (Kinematics.arg_x a = None <-> Kinematics.arg_y a = None) /\
  Kinematics.binned_without_grid a = false.
Proof.
  unfold Kinematics.check_args. destruct (ma_shape (Kinematics.arg_vel a)) as [|n0 sh] eqn:Hsh;
    [discriminate|].
  intros Hc.
  inv_bind Hc as u1 H2d. apply raise_if_Return, negb_false_iff, Nat.eqb_eq in H2d.
  inv_bind Hc as u2 Hsq. apply raise_if_Return, negb_false_iff, Nat.eqb_eq in Hsq.
  inv_bind Hc as u3 Hcomp. apply raise_if_Return in Hcomp.
  inv_bind Hc as u4 Hxy. apply raise_if_Return in Hxy.
  inv_bind Hc as u5 Hgrid. apply raise_if_Return in Hgrid.
  injection Hc as <-.
  destruct sh as [|m [|? ?]]; simpl in H2d, Hsq; try discriminate. subst m.
  repeat split; try done.
  - intros s Hs. pose proof (existsb_false _ _ _ Hcomp Hs) as Hm. simpl in Hm.
    by apply negb_false_iff, shape_eqb_true in Hm.
  - destruct (Kinematics.arg_x a), (Kinematics.arg_y a); simpl in Hxy; done.
  - destruct (Kinematics.arg_x a), (Kinematics.arg_y a); simpl in Hxy; done.
Qed.

Lemma ingest_data (sp : list nat) (d : marray) (iv : option marray) (m : option (ndarray bool)) :
  (Kinematics._ingest sp (Some d) iv m).1.1 = Some (ravel (ma_data d)).
Proof. unfold Kinematics._ingest. by destruct iv. Qed.

Lemma select_Some {A} (l : list A) (indx : list nat) (o : option (list A)) :
  Kinematics.select (Some l) indx = Return o ->
  exists v, o = Some v /\ np_take l indx = Return v.
Proof. simpl. intros Hs. inv_bind Hs. injection Hs as <-. eauto. Qed.

Lemma init_Return (a : Kinematics.args) (k : Kinematics.t) :
  Kinematics.__init__ a = Return k ->
  exists n ids indx,
    Kinematics.check_args a = Return n /\
    Kinematics.nimg k = n /\
    Kinematics.spatial_shape k = ma_shape (Kinematics.arg_vel a) /\
    Kinematics.bin_bookkeeping (Kinematics.arg_binid a) (np_prod (ma_shape (Kinematics.arg_vel a)))
      = Return (ids, indx, Kinematics.grid_indx k, Kinematics.bin_inverse k,
                Kinematics.bin_transform k) /\
    np_take (Kinematics.coordinates a n).1 indx = Return (Kinematics.x k) /\
    np_take (Kinematics.coordinates a n).2 indx = Return (Kinematics.y k) /\
    exists v, Kinematics.vel k = Some v /\
              np_take (ravel (ma_data (Kinematics.arg_vel a))) indx = Return v.
Proof.
  unfold Kinematics.__init__. intros Hi.
  inv_bind Hi as n Hcheck.
  inv_bind Hi as sc Hsc.
  inv_bind Hi as b Hbins. destruct b as [[[[ids indx] gi] bi] bt]. cbn [fst snd] in Hi.
  inv_bind Hi as x1 Hx.
  inv_bind Hi as y1 Hy.
  inv_bind Hi. inv_bind Hi. inv_bind Hi.
  inv_bind Hi as vel1 Hvel.
  inv_bind Hi. inv_bind Hi. inv_bind Hi. inv_bind Hi. inv_bind Hi. inv_bind Hi.
  injection Hi as <-. cbn [Kinematics.nimg Kinematics.spatial_shape Kinematics.grid_indx
    Kinematics.bin_inverse Kinematics.bin_transform Kinematics.x Kinematics.y Kinematics.vel fst snd].
  rewrite ingest_data in Hvel. apply select_Some in Hvel.
  exists n, ids, indx. repeat split; done.
Qed.

Lemma init_bins_consistent (a : Kinematics.args) (k : Kinematics.t) :
  wf_args a ->
  Kinematics.__init__ a = Return k ->
  exists vk, Kinematics.vel k = Some vk /\
    bins_consistent (np_prod (Kinematics.spatial_shape k)) (length vk)
                    (Kinematics.grid_indx k) (Kinematics.bin_inverse k)
                    (Kinematics.bin_transform k).
Proof.
  intros Hwf Hi.
  destruct (init_Return _ _ Hi) as (n & ids & indx & Hcheck & _ & Hsp & Hbins & _ & _ & vk & Hvk & Htake).
  exists vk. split; [done|]. rewrite Hsp.
  apply take_Return in Htake. destruct Htake as [-> _].
  eapply bin_bookkeeping_consistent; [|exact Hbins].
  destruct (Kinematics.arg_binid a) as [b|] eqn:Hb; [|done].
  destruct (check_args_Return _ _ Hcheck) as (Hv & Hcomp & _).
  apply wf_shape_length.
  - unfold wf_args in Hwf. rewrite Hb in Hwf. simpl in Hwf. tauto.
  - rewrite Hv. apply Hcomp. unfold Kinematics.companion_shapes. rewrite Hb. simpl. tauto.
Qed.



End Constructor.

(** ** The default coordinate grid *)

Section DefaultGrid.
Context `{BeamOps}.

Lemma default_grid_x (n i j : nat) :
  i < n -> j < n ->
  ravel (Kinematics.default_grid n).1 !! (i * n + j)
  = Some (Z.of_nat (n - 1 - j) - Z.of_nat n / 2)%Z.
Proof.
  intros Hi Hj. unfold Kinematics.default_grid, Kinematics.np_meshgrid, np_arange. simpl.
  rewrite lookup_map.
  rewrite (lookup_concat_rows (fun _ => rev (map Z.of_nat (seq 0 n))) n _ i j (Z.of_nat i)); try done.
  - rewrite lookup_rev by (rewrite length_map, length_seq; lia).
    rewrite length_map, length_seq, lookup_map, lookup_seq_lt by lia. simpl.
    do 3 f_equal. lia.
  - intros _. by rewrite length_rev, length_map, length_seq.
  - by rewrite lookup_map, lookup_seq_lt.
Qed.

Lemma default_grid_y (n i j : nat) :
  i < n -> j < n ->
  ravel (Kinematics.default_grid n).2 !! (i * n + j)
  = Some (Z.of_nat i - Z.of_nat n / 2)%Z.
Proof.
  intros Hi Hj. unfold Kinematics.default_grid, Kinematics.np_meshgrid, np_arange. simpl.
  rewrite length_rev, length_map, length_seq, lookup_map.
  rewrite (lookup_concat_rows (fun v => repeat v n) n _ i j (Z.of_nat i)); try done.
  - by rewrite lookup_repeat.
  - intros v. apply repeat_length.
  - by rewrite lookup_map, lookup_seq_lt.
Qed.

Lemma default_grid_length (n : nat) :
  length (ravel (Kinematics.default_grid n).1) = n * n /\
  length (ravel (Kinematics.default_grid n).2) = n * n.
Proof.
  unfold Kinematics.default_grid, Kinematics.np_meshgrid, np_arange. simpl.
  rewrite !length_map, length_rev, length_map, length_seq.
  split.
  - rewrite (length_concat_rows (fun _ => rev (map Z.of_nat (seq 0 n))) n).
    + by rewrite length_map, length_seq.
    + intros _. by rewrite length_rev, length_map, length_seq.
  - rewrite (length_concat_rows (fun v => repeat v n) n).
    + by rewrite length_map, length_seq.
    + intros v. apply repeat_length.
Qed.

End DefaultGrid.

(** ** Extrema *)

Section Extrema.
Context `{BeamOps}.
Local Open Scope R_scope.

Lemma foldl_Rmin_le_init (t : list R) (h : R) : foldl Rmin h t <= h.
Proof.
  revert h. induction t as [|u t IH]; intros h; simpl; [lra|].
  etransitivity; [apply IH | apply Rmin_l].
Qed.

Lemma foldl_Rmin_le_In (t : list R) (h v : R) : In v t -> foldl Rmin h t <= v.
Proof.
  revert h. induction t as [|u t IH]; intros h Hv; simpl in *; [contradiction|].
  destruct Hv as [->|Hv]; [|by apply IH].
  etransitivity; [apply foldl_Rmin_le_init | apply Rmin_r].
Qed.

Lemma foldl_Rmax_ge_init (t : list R) (h : R) : h <= foldl Rmax h t.
Proof.
  revert h. induction t as [|u t IH]; intros h; simpl; [lra|].
  etransitivity; [apply Rmax_l | apply IH].
Qed.

Lemma foldl_Rmax_ge_In (t : list R) (h v : R) : In v t -> v <= foldl Rmax h t.
Proof.
  revert h. induction t as [|u t IH]; intros h Hv; simpl in *; [contradiction|].
  destruct Hv as [->|Hv]; [|by apply IH].
  etransitivity; [apply Rmax_r | apply foldl_Rmax_ge_init].
Qed.

Lemma np_amin_le (l : list R) (v : R) :
  In v l -> exists m, Kinematics.np_amin l = Return m /\ m <= v.
Proof.
  destruct l as [|h t]; simpl; [contradiction|].
  intros [->|Hv]; eexists; split; try reflexivity.
  - apply foldl_Rmin_le_init.
  - by apply foldl_Rmin_le_In.
Qed.

Lemma np_amax_ge (l : list R) (v : R) :
  In v l -> exists m, Kinematics.np_amax l = Return m /\ v <= m.
Proof.
  destruct l as [|h t]; simpl; [contradiction|].
  intros [->|Hv]; eexists; split; try reflexivity.
  - apply foldl_Rmax_ge_init.
  - by apply foldl_Rmax_ge_In.
Qed.

Lemma Rabs_le_extrema (lo hi v : R) : lo <= v -> v <= hi -> Rabs v <= Rmax (Rabs lo) hi.
Proof.
  intros Hlo Hhi. unfold Rabs at 1. destruct (Rcase_abs v) as [Hneg|Hpos].
  - etransitivity; [|apply Rmax_l]. rewrite Rabs_left by lra. lra.
  - etransitivity; [|apply Rmax_r]. lra.
Qed.

Lemma sq_le_of_abs (v b : R) : Rabs v <= b -> v ^ 2 <= b ^ 2.
Proof.
  intros Hb. rewrite <- (pow2_abs v).
  assert (0 <= Rabs v) by apply Rabs_pos. nra.
Qed.

End Extrema.

(** ** The mock generator *)

Section MockLemmas.
Context `{BeamOps} `{Geometry} `{MockOps}.

Lemma truthy_0 : truthy 0 = false.
Proof. unfold truthy. by destruct (Req_dec_T 0 0). Qed.

Lemma np_linspace_Return (a b : R) (n : nat) :
  exists l, Kinematics.np_linspace a b (Z.of_nat n) = Return l /\ length l = n.
Proof.
  unfold Kinematics.np_linspace. destruct (Z.ltb_spec (Z.of_nat n) 0); [lia|].
  rewrite Nat2Z.id. eexists. split; [reflexivity|].
  destruct n as [|[|n]]; simpl; try done. by rewrite length_map, length_seq.
Qed.

Lemma bincents_nonempty (edges : list R) :
  (2 <= length edges)%nat ->
  zip_with (fun e0 e1 => ((e0 + e1) / 2)%R) (removelast edges) (tail edges) <> [].
Proof. destruct edges as [|e0 [|e1 edges]]; simpl; [lia | lia | done]. Qed.

End MockLemmas.

(** ** [_set_par] of the two disk models *)

Section SetPar.
Context `{FitErrors} `{Geometry}.

Lemma axisym_set_par_full (s : AxisymmetricDisk.t) (p : ndarray R) :
  shape p = [AxisymmetricDisk.np s] ->
  AxisymmetricDisk._set_par p s = (Return tt, AxisymmetricDisk.set_par (ravel p) s).
Proof.
  intros Hp. unfold AxisymmetricDisk._set_par. py_simpl. rewrite Hp. cbn.
  by rewrite Nat.mul_1_r, Nat.eqb_refl.
Qed.

Lemma axisym_set_par_free (s : AxisymmetricDisk.t) (p : ndarray R) :
  par_consistent (AxisymmetricDisk.np s) (AxisymmetricDisk.nfree s)
                 (AxisymmetricDisk.par s) (AxisymmetricDisk.free s) ->
  wf_ndarray p ->
  shape p = [AxisymmetricDisk.nfree s] ->
  exists v,
    AxisymmetricDisk._set_par p s = (Return tt, AxisymmetricDisk.set_par v s) /\
    length v = AxisymmetricDisk.np s /\
    (forall i, AxisymmetricDisk.free s !! i = Some false ->
               v !! i = AxisymmetricDisk.par s !! i) /\
    mask_filter (AxisymmetricDisk.free s) v = ravel p.
Proof.
  intros (Hpar & Hfree & Hnfree) Hwf Hp.
  assert (Hlen : length (ravel p) = AxisymmetricDisk.nfree s)
    by (unfold wf_ndarray in Hwf; by rewrite Hwf, Hp, np_prod_1d).
  unfold AxisymmetricDisk._set_par. py_simpl. rewrite Hp. cbn. rewrite Nat.mul_1_r.
  destruct (Nat.eqb_spec (AxisymmetricDisk.nfree s) (AxisymmetricDisk.np s)) as [Heq|Hne].
  - exists (ravel p). cbn. repeat split.
    + lia.
    + intros i Hi. exfalso. eapply all_true_no_false; [|exact Hi]. lia.
    + apply mask_filter_all_true; lia.
  - rewrite Nat.eqb_refl. cbn. unfold np_mask_assign.
    rewrite Hfree, Hpar, Nat.eqb_refl. cbn. rewrite Hlen, Hnfree, Nat.eqb_refl. cbn.
    eexists. repeat split.
    + by rewrite mask_scatter_length.
    + intros i Hi. by apply mask_scatter_fixed.
    + apply mask_filter_scatter; lia.
Qed.

Lemma axisym_set_par_other (s : AxisymmetricDisk.t) (p : ndarray R) (n : nat) :
  shape p = [n] -> n <> AxisymmetricDisk.np s -> n <> AxisymmetricDisk.nfree s ->
  exists msg, AxisymmetricDisk._set_par p s = (Raise (ValueError msg), s).
Proof.
  intros Hp Hnp Hnfree. unfold AxisymmetricDisk._set_par. py_simpl. rewrite Hp. cbn.
  rewrite Nat.mul_1_r.
  destruct (Nat.eqb_spec n (AxisymmetricDisk.np s)); [done|].
  destruct (Nat.eqb_spec n (AxisymmetricDisk.nfree s)); [done|]. cbn. by eexists.
Qed.

Lemma bisym_set_par_full (s : BisymmetricDisk.t) (p : ndarray R) :
  shape p = [BisymmetricDisk.np s] ->
  BisymmetricDisk._set_par p s = (Return tt, BisymmetricDisk.set_par (ravel p) s).
Proof.
  intros Hp. unfold BisymmetricDisk._set_par. py_simpl. rewrite Hp. cbn.
  by rewrite Nat.mul_1_r, Nat.eqb_refl.
Qed.

Lemma bisym_set_par_free (s : BisymmetricDisk.t) (p : ndarray R) :
  par_consistent (BisymmetricDisk.np s) (BisymmetricDisk.nfree s)
                 (BisymmetricDisk.par s) (BisymmetricDisk.free s) ->
  wf_ndarray p ->
  shape p = [BisymmetricDisk.nfree s] ->
  exists v,
    BisymmetricDisk._set_par p s = (Return tt, BisymmetricDisk.set_par v s) /\
    length v = BisymmetricDisk.np s /\
    (forall i, BisymmetricDisk.free s !! i = Some false ->
               v !! i = BisymmetricDisk.par s !! i) /\
    mask_filter (BisymmetricDisk.free s) v = ravel p.
Proof.
  intros (Hpar & Hfree & Hnfree) Hwf Hp.
  assert (Hlen : length (ravel p) = BisymmetricDisk.nfree s)
    by (unfold wf_ndarray in Hwf; by rewrite Hwf, Hp, np_prod_1d).
  unfold BisymmetricDisk._set_par. py_simpl. rewrite Hp. cbn. rewrite Nat.mul_1_r.
  destruct (Nat.eqb_spec (BisymmetricDisk.nfree s) (BisymmetricDisk.np s)) as [Heq|Hne].
  - exists (ravel p). cbn. repeat split.
    + lia.
    + intros i Hi. exfalso. eapply all_true_no_false; [|exact Hi]. lia.
    + apply mask_filter_all_true; lia.
  - rewrite Nat.eqb_refl. cbn. unfold np_mask_assign.
    rewrite Hfree, Hpar, Nat.eqb_refl. cbn. rewrite Hlen, Hnfree, Nat.eqb_refl. cbn.
    eexists. repeat split.
    + by rewrite mask_scatter_length.
    + intros i Hi. by apply mask_scatter_fixed.
    + apply mask_filter_scatter; lia.
Qed.

Lemma bisym_set_par_other (s : BisymmetricDisk.t) (p : ndarray R) (n : nat) :
  shape p = [n] -> n <> BisymmetricDisk.np s -> n <> BisymmetricDisk.nfree s ->
  exists msg, BisymmetricDisk._set_par p s = (Raise (ValueError msg), s).
Proof.
  intros Hp Hnp Hnfree. unfold BisymmetricDisk._set_par. py_simpl. rewrite Hp. cbn.
  rewrite Nat.mul_1_r.
  destruct (Nat.eqb_spec n (BisymmetricDisk.np s)); [done|].
  destruct (Nat.eqb_spec n (BisymmetricDisk.nfree s)); [done|]. cbn. by eexists.
Qed.

(** [_init_par] establishes the consistency that [_set_par] relies on. *)
Lemma axisym_init_par_consistent (p0 : option (list R)) (fix_ : option (list bool))
    (s s' : AxisymmetricDisk.t) :
  AxisymmetricDisk._init_par p0 fix_ s = (Return tt, s') ->
  par_consistent (AxisymmetricDisk.np s') (AxisymmetricDisk.nfree s')
                 (AxisymmetricDisk.par s') (AxisymmetricDisk.free s').
Proof.
  unfold AxisymmetricDisk._init_par. intros Hi.
  py_inv Hi as s0 s1 Hget. apply py_get_Return in Hget. destruct Hget as [-> ->].
  py_inv Hi as u1 s1 Hp0. apply py_lift_Return in Hp0. destruct Hp0 as [Hp0 ->].
  apply raise_if_Return, negb_false_iff, Nat.eqb_eq in Hp0.
  py_inv Hi as u2 s1 Hm1. apply py_modify_Return in Hm1. subst s1.
  py_inv Hi as u3 s1 Hm2. apply py_modify_Return in Hm2. subst s1.
  py_inv Hi as u4 s1 Hfr. apply py_lift_Return in Hfr. destruct Hfr as [Hfr ->].
  apply raise_if_Return, negb_false_iff, Nat.eqb_eq in Hfr.
  apply py_modify_Return in Hi. subst s'. by repeat split.
Qed.

End SetPar.

(** ** [lsq_fit] of the two disk models *)

Section LsqFit.
Context `{FitErrors} `{Geometry}.

Lemma axisym_lsq_fit_call_spec `{!Optimizer AxisymmetricDisk.t}
    (k : Kinematics.t) (sb_wgt : bool) (p0 : option (list R))
    (fix_ : option (list bool)) (verbose : Z) (s s' : AxisymmetricDisk.t) (c : lsq_call) :
  AxisymmetricDisk.lsq_fit_call k sb_wgt p0 fix_ verbose s = (Return c, s') ->
  lsq_method c = "trf"%string /\
  lsq_x0 c = mask_filter (AxisymmetricDisk.free s') (AxisymmetricDisk.par s') /\
  (exists lb ub, AxisymmetricDisk.par_bounds s' = Return (lb, ub) /\
     lsq_bounds c = (mask_filter (AxisymmetricDisk.free s') lb,
                     mask_filter (AxisymmetricDisk.free s') ub)) /\
  lsq_diff_step c = repeat 0.1%R (count_true (AxisymmetricDisk.free s')).
Proof.
  unfold AxisymmetricDisk.lsq_fit_call. intros Hc.
  py_inv Hc as fom s1 Hprep.
  py_inv Hc as s1' s2 Hget. apply py_get_Return in Hget. destruct Hget as [-> ->].
  py_inv Hc as b s2 Hb. apply py_lift_Return in Hb. destruct Hb as [Hb ->].
  py_inv Hc as x0 s2 Hx0. apply py_lift_Return in Hx0. destruct Hx0 as [Hx0 ->].
  py_inv Hc as lbf s2 Hlb. apply py_lift_Return in Hlb. destruct Hlb as [Hlb ->].
  py_inv Hc as ubf s2 Hub. apply py_lift_Return in Hub. destruct Hub as [Hub ->].
  py_inv Hc as dsf s2 Hds. apply py_lift_Return in Hds. destruct Hds as [Hds ->].
  apply py_ret_Return in Hc. destruct Hc as [-> ->]. simpl.
  apply np_mask_select_Return in Hx0, Hlb, Hub, Hds.
  destruct Hx0 as [-> _], Hlb as [-> _], Hub as [-> _], Hds as [-> Hlen].
  rewrite repeat_length in Hlen.
  repeat split; try done.
  - destruct b as [lb ub]. eauto.
  - by apply mask_filter_repeat.
Qed.

Lemma bisym_lsq_fit_call_spec `{!Optimizer BisymmetricDisk.t}
    (k : Kinematics.t) (sb_wgt : bool) (p0 : option (list R))
    (fix_ : option (list bool)) (lb ub : option (list R)) (scatter_ : option (list R))
    (verbose : Z) (assume_posdef_covar ignore_covar : bool)
    (s s' : BisymmetricDisk.t) (c : lsq_call) :
  BisymmetricDisk.lsq_fit_call k sb_wgt p0 fix_ lb ub scatter_ verbose
      assume_posdef_covar ignore_covar s = (Return c, s') ->
  lsq_method c = "trf"%string /\
  lsq_x0 c = mask_filter (BisymmetricDisk.free s') (BisymmetricDisk.par s') /\
  (exists lb0 ub0, BisymmetricDisk.par_bounds s' None None = Return (lb0, ub0) /\
     lsq_bounds c
     = (mask_filter (BisymmetricDisk.free s') (match lb with None => lb0 | Some v => v end),
        mask_filter (BisymmetricDisk.free s') (match ub with None => ub0 | Some v => v end))) /\
  lsq_diff_step c = repeat 0.01%R (count_true (BisymmetricDisk.free s')).
Proof.
  unfold BisymmetricDisk.lsq_fit_call. intros Hc.
  py_inv Hc as u s1 Hprep.
  py_inv Hc as s1' s2 Hget. apply py_get_Return in Hget. destruct Hget as [-> ->].
  py_inv Hc as fom s2 Hfom. apply py_lift_Return in Hfom. destruct Hfom as [Hfom ->].
  py_inv Hc as b s2 Hb. apply py_lift_Return in Hb. destruct Hb as [Hb ->].
  py_inv Hc as u1 s2 Hlens. apply py_lift_Return in Hlens. destruct Hlens as [Hlens ->].
  py_inv Hc as x0 s2 Hx0. apply py_lift_Return in Hx0. destruct Hx0 as [Hx0 ->].
  py_inv Hc as lbf s2 Hlb. apply py_lift_Return in Hlb. destruct Hlb as [Hlb ->].
  py_inv Hc as ubf s2 Hub. apply py_lift_Return in Hub. destruct Hub as [Hub ->].
  py_inv Hc as dsf s2 Hds. apply py_lift_Return in Hds. destruct Hds as [Hds ->].
  apply py_ret_Return in Hc. destruct Hc as [-> ->]. simpl.
  apply np_mask_select_Return in Hx0, Hlb, Hub, Hds.
  destruct Hx0 as [-> _], Hlb as [-> _], Hub as [-> _], Hds as [-> Hlen].
  rewrite repeat_length in Hlen.
  repeat split; try done.
  - destruct b as [lb0 ub0]. eauto.
  - by apply mask_filter_repeat.
Qed.

Section AxisymErrors.
Context `{!Optimizer AxisymmetricDisk.t}.



End AxisymErrors.

End LsqFit.

(** ** The bisymmetric axis *)

Section Wrap.
Context `{FitErrors} `{Geometry}.
Local Open Scope R_scope.

Lemma py_fmod_range (a m : R) : 0 < m -> 0 <= py_fmod a m < m.
Proof.
  intros Hm. unfold py_fmod.
  destruct (base_Int_part (a / m)) as [Hlo Hhi].
  assert (Ha : a = a / m * m) by (field; lra).
  set (r := a / m) in *. set (q := IZR (Int_part r)) in *.
  clearbody q r. subst a. split; nra.
Qed.

Lemma wrap_pab_range (pab : R) :
  - (PI / 2) <= BisymmetricDisk.wrap_pab pab < PI / 2 /\
  exists n : Z, BisymmetricDisk.wrap_pab pab = pab - IZR n * PI.
Proof.
  unfold BisymmetricDisk.wrap_pab.
  pose proof (py_fmod_range (pab + PI / 2) PI PI_RGT_0). split; [lra|].
  exists (Int_part ((pab + PI / 2) / PI)). unfold py_fmod. lra.
Qed.

(** At [phi_b = 90] degrees the wrapped angle is [-90] degrees. *)
Lemma wrap_pab_90 : BisymmetricDisk.wrap_pab (np_radians 90) = - (PI / 2).
Proof.
  unfold BisymmetricDisk.wrap_pab, py_fmod, np_radians.
  replace ((90 * PI / 180 + PI / 2) / PI) with 1 by (field; apply PI_neq0).
  replace (Int_part 1) with 1%Z; [simpl; lra|].
  apply Int_part_spec. simpl. lra.
Qed.


(** [phi_b = 0] stays where it is. *)
Lemma wrap_pab_0 : BisymmetricDisk.wrap_pab (np_radians 0) = 0.
Proof.
  unfold BisymmetricDisk.wrap_pab, py_fmod, np_radians.
  replace ((0 * PI / 180 + PI / 2) / PI) with (1 / 2) by (field; apply PI_neq0).
  replace (Int_part (1 / 2)) with 0%Z; [simpl; lra|].
  apply Int_part_spec. simpl. lra.
Qed.

Lemma py_item_Return {A} (l : list A) (i : nat) (v : A) :
  py_item l i = Return v -> l !! i = Some v.
Proof. unfold py_item. by destruct (l !! i); [intros [= ->]|]. Qed.

Lemma slice3 (l : list R) (a b c : R) :
  py_slice 2 5 l = [a; b; c] -> l !! 2%nat = Some a /\ l !! 3%nat = Some b /\ l !! 4%nat = Some c.
Proof.
  unfold py_slice. destruct l as [|x0 [|x1 [|x2 [|x3 [|x4 l]]]]]; simpl; try done.
  by intros [= -> -> ->].
Qed.

(** Once the velocity is computed, [model] stops at its [exit()]. *)
Lemma model_stops_after_velocity (s : BisymmetricDisk.t) (xa ya vel : ndarray R) :
  BisymmetricDisk.x s = Some xa -> BisymmetricDisk.y s = Some ya ->
  BisymmetricDisk.los_velocity s = Return vel ->
  BisymmetricDisk.model None None None None s = (Raise SystemExit, s).
Proof.
  intros Hx Hy Hv. unfold BisymmetricDisk.model. py_simpl. rewrite Hx, Hy. cbn.
  by rewrite Hv.
Qed.

End Wrap.

(** * The claims *)

(** ** The data container

    C3 and C4, on the bin transform, are stated with the lemmas on binning
    further down. *)

Section KinematicsClaims.
Context `{BeamOps} `{Geometry} `{MockOps}.
Local Open Scope R_scope.

(** The last check of the constructor fires exactly when [binid] is given
    without [grid_x], or [grid_y] is missing, whatever [binid] is. *)
Lemma binned_without_grid_iff (a : Kinematics.args) :
  Kinematics.binned_without_grid a = true <->
  (Kinematics.arg_binid a <> None /\ Kinematics.arg_grid_x a = None)
  \/ Kinematics.arg_grid_y a = None.
Proof.
  unfold Kinematics.binned_without_grid.
  destruct (Kinematics.arg_binid a), (Kinematics.arg_grid_x a), (Kinematics.arg_grid_y a);
    simpl; intuition congruence.
Qed.

(** C1, on the code: a construction that gives [vel] alone -- no [binid], no
    [grid_x], no [grid_y] -- is refused with the binned-without-grid
    validation error.  The claim, like the docstring of the class, has this
    error only when [binid] is given without both grids. *)
Theorem init_vel_only_raises_binned_without_grid :
  Kinematics.__init__ sample_vel_only_args
  = Raise (ValueError Kinematics.binned_without_grid_msg).
Proof. unfold Kinematics.__init__. reflexivity. Qed.

Lemma cell_of_index (n p : nat) :
  (p < n * n)%nat -> exists i j, (i < n)%nat /\ (j < n)%nat /\ p = (i * n + j)%nat.
Proof.
  intros Hp. assert (Hn0 : (0 < n)%nat) by nia.
  exists (p / n)%nat, (p mod n)%nat. repeat split.
  - apply Nat.Div0.div_lt_upper_bound; lia.
  - apply Nat.mod_upper_bound; lia.
  - rewrite (Nat.div_mod_eq p n) at 1. lia.
Qed.

(** The default grid as the code builds it.  When [x] and [y] are omitted,
    cell [(i, j)] of the default grid -- [i] the first-axis (row) index, [j]
    the second-axis (column) index -- has [x = (N - 1 - j) - N // 2] and
    [y = i - N // 2]: [x] falls by one with each step of the second-axis
    index and does not change along the first axis, [y] rises by one with
    each step of the first-axis index.  Every stored measurement has the
    coordinates of one grid cell, and for unbinned data the stored vectors
    are the raveled grid. *)
Theorem default_grid_layout (a : Kinematics.args) (k : Kinematics.t) :
  Kinematics.__init__ a = Return k ->
  Kinematics.arg_x a = None ->
  let N := Kinematics.nimg k in
  let xcoord := fun j : nat => IZR (Z.of_nat (N - 1 - j) - Z.of_nat N / 2) in
  let ycoord := fun i : nat => IZR (Z.of_nat i - Z.of_nat N / 2) in
  (forall m xm, Kinematics.x k !! m = Some xm ->
     exists i j, (i < N)%nat /\ (j < N)%nat /\
       xm = xcoord j /\ Kinematics.y k !! m = Some (ycoord i)) /\
  (Kinematics.arg_binid a = None ->
   forall i j, (i < N)%nat -> (j < N)%nat ->
     Kinematics.x k !! (i * N + j)%nat = Some (xcoord j) /\
     Kinematics.y k !! (i * N + j)%nat = Some (ycoord i)).
Proof.
  intros Hinit Hxnone.
  destruct (init_Return _ _ Hinit)
    as (n & ids & indx & Hcheck & Hn & Hsp & Hbins & Hx & Hy & _).
  rewrite Hn. cbv zeta.
  unfold Kinematics.coordinates in Hx, Hy. rewrite Hxnone in Hx, Hy.
  cbn [fst snd Kinematics.astype_float ravel] in Hx, Hy.
  apply take_Return in Hx, Hy. destruct Hx as [Hlx Hx], Hy as [Hly Hy].
  destruct (default_grid_length n) as [Hgx Hgy].
  assert (Hcell : forall m p, indx !! m = Some p ->
            exists i j, (i < n)%nat /\ (j < n)%nat /\ p = (i * n + j)%nat /\
              Kinematics.x k !! m = Some (IZR (Z.of_nat (n - 1 - j) - Z.of_nat n / 2)) /\
              Kinematics.y k !! m = Some (IZR (Z.of_nat i - Z.of_nat n / 2))).
  { intros m p Hp. destruct (Hx m p Hp) as [Hxm Hlt], (Hy m p Hp) as [Hym _].
    rewrite length_map, Hgx in Hlt.
    destruct (cell_of_index n p Hlt) as (i & j & Hi & Hj & ->).
    exists i, j. repeat split; try done.
    - by rewrite Hxm, lookup_map, default_grid_x.
    - by rewrite Hym, lookup_map, default_grid_y. }
  split.
  - intros m xm Hm.
    destruct (lookup_lt_is_Some_2 indx m) as [p Hp];
      [rewrite <- Hlx; by eapply lookup_lt_Some|].
    destruct (Hcell m p Hp) as (i & j & Hi & Hj & _ & Hxm & Hym).
    exists i, j. repeat split; try done. rewrite Hxm in Hm. by injection Hm as <-.
  - intros Hnone i j Hi Hj.
    rewrite Hnone in Hbins. unfold Kinematics.bin_bookkeeping in Hbins.
    inv_bind Hbins as ident Hident. injection Hbins as _ <- _ _ _.
    destruct (check_args_Return _ _ Hcheck) as (Hshape & _).
    rewrite Hshape, np_prod_2d in Hcell. unfold np_arange in Hcell.
    destruct (Hcell (i * n + j)%nat (i * n + j)%nat) as (i' & j' & Hi' & Hj' & Hp & Hxm & Hym).
    { rewrite lookup_seq_lt by nia. done. }
    destruct (Nat.div_mod_unique n i' i j' j) as [-> ->]; [done | done | lia | done].
Qed.

(** C8.  For a successfully constructed [Kinematics] and every stored
    coordinate pair [(x_i, y_i)], [max_radius()] returns a value that is at
    least [sqrt(x_i^2 + y_i^2)]. *)
Theorem max_radius_encloses (a : Kinematics.args) (k : Kinematics.t)
    (i : nat) (xi yi : R) :
  Kinematics.__init__ a = Return k ->
  Kinematics.x k !! i = Some xi ->
  Kinematics.y k !! i = Some yi ->
  exists r, Kinematics.max_radius k = Return r /\ sqrt (xi ^ 2 + yi ^ 2) <= r.
Proof.
  intros _ Hx Hy.
  apply list_elem_of_lookup_2, list_elem_of_In in Hx, Hy.
  destruct (np_amin_le _ _ Hx) as (minx & Eminx & Hminx).
  destruct (np_amax_ge _ _ Hx) as (maxx & Emaxx & Hmaxx).
  destruct (np_amin_le _ _ Hy) as (miny & Eminy & Hminy).
  destruct (np_amax_ge _ _ Hy) as (maxy & Emaxy & Hmaxy).
  unfold Kinematics.max_radius. rewrite Eminx, Emaxx, Eminy, Emaxy. simpl.
  eexists; split; [reflexivity|].
  apply sqrt_le_1_alt.
  pose proof (sq_le_of_abs _ _ (Rabs_le_extrema _ _ _ Hminx Hmaxx)).
  pose proof (sq_le_of_abs _ _ (Rabs_le_extrema _ _ _ Hminy Hmaxy)).
  lra.
Qed.

(** C9.  With [border = 0], [mock] never returns a [Kinematics]: [_psf] and
    [bordermask] are assigned only in the border branch and read when the
    result is constructed.  When the velocity arrays have one non-zero
    length, [size] is not negative and a PSF is given or can be loaded, the
    failure is the unbound local [_psf]; otherwise an earlier step raises. *)
Theorem mock_without_border_fails (a : Kinematics.mock_args) :
  Kinematics.m_border a = 0%R ->
  (forall k, Kinematics.mock a <> Return k) /\
  (length (Kinematics.m_v2t a) = length (Kinematics.m_vt a) ->
   length (Kinematics.m_v2r a) = length (Kinematics.m_vt a) ->
   length (Kinematics.m_sig a) = length (Kinematics.m_vt a) ->
   Kinematics.m_vt a <> [] ->
   (0 <= Kinematics.m_size a)%Z ->
   (Kinematics.m_psf a = None -> exists p, np_load "psfexample56.npy" = Return p) ->
   Kinematics.mock a = Raise (UnboundLocalError "_psf")).
Proof.
  intros Hb. split.
  - intros k Hk. unfold Kinematics.mock in Hk. rewrite Hb, truthy_0 in Hk.
    inv_bind Hk as u Hlen.
    inv_bind Hk as g Hg. injection Hg as <-.
    inv_bind Hk as av Hav.
    inv_bind Hk as edges Hedges.
    cbn [Kinematics.np_meshgrid] in Hk.
    inv_bind Hk as vtvals Hvt.
    inv_bind Hk as v2tvals Hv2t.
    inv_bind Hk as v2rvals Hv2r.
    inv_bind Hk as sigv Hsig.
    inv_bind Hk as psf Hpsf.
    inv_bind Hk as loc Hloc. injection Hloc as <-.
    inv_bind Hk as p Hp. discriminate.
  - intros Hv2t Hv2r Hsig Hvt Hsize Hpsf.
    unfold Kinematics.mock. rewrite Hb, truthy_0, Hv2t, Hv2r, Hsig, Nat.eqb_refl. simpl.
    destruct (np_linspace_Return (- Kinematics.m_maxr a) (Kinematics.m_maxr a)
                (Z.to_nat (Kinematics.m_size a))) as (av & Hav & _).
    rewrite Z2Nat.id in Hav by done. rewrite Hav. simpl.
    destruct (np_linspace_Return 0 (Kinematics.m_maxr a)
                (S (length (Kinematics.m_vt a)))) as (edges & Hedges & Hle).
    replace (Z.of_nat (S (length (Kinematics.m_vt a))))
      with (Z.of_nat (length (Kinematics.m_vt a)) + 1)%Z in Hedges by lia.
    rewrite Hedges. simpl.
    assert (Hbc : zip_with (fun e0 e1 => ((e0 + e1) / 2)%R) (removelast edges) (tail edges) <> []).
    { apply bincents_nonempty. rewrite Hle. destruct (Kinematics.m_vt a); [done | simpl; lia]. }
    unfold Kinematics.interp.
    destruct (zip_with _ (removelast edges) (tail edges)) as [|b0 bc]; [done|]. simpl.
    destruct (Kinematics.m_psf a) as [p|]; simpl; [done|].
    destruct (Hpsf eq_refl) as [p ->]. done.
Qed.

End KinematicsClaims.

(** ** The disk models *)

Section DiskClaims.
Context `{FitErrors} `{Geometry}.
Local Open Scope R_scope.

(** C5.  For both disk models, [_set_par] with a one-dimensional vector of
    [np] entries returns and [par] is that vector afterwards; with one of
    [nfree] entries it returns and afterwards the free entries of [par] are
    the entries of the vector, in order, and every fixed entry of [par] is
    what it was before; with one of any other length it raises a validation
    error and leaves [par] (and every other attribute) unchanged. *)
Theorem set_par_frame :
  set_par_contract AxisymmetricDisk.np AxisymmetricDisk.nfree AxisymmetricDisk.par
                   AxisymmetricDisk.free AxisymmetricDisk._set_par
  /\
  set_par_contract BisymmetricDisk.np BisymmetricDisk.nfree BisymmetricDisk.par
                   BisymmetricDisk.free BisymmetricDisk._set_par.
Proof.
  split; intros s p Hcons Hwf; (split; [|split]).
  - intros Hp. eexists. split; [by apply axisym_set_par_full|]. done.
  - intros Hp. destruct (axisym_set_par_free s p Hcons Hwf Hp) as (v & Hset & Hlen & Hfix & Hfree).
    eexists. split; [exact Hset|]. done.
  - apply axisym_set_par_other.
  - intros Hp. eexists. split; [by apply bisym_set_par_full|]. done.
  - intros Hp. destruct (bisym_set_par_free s p Hcons Hwf Hp) as (v & Hset & Hlen & Hfix & Hfree).
    eexists. split; [exact Hset|]. done.
  - apply bisym_set_par_other.
Qed.

(** C6, as the code has it.  [lsq_fit] of either model hands the optimizer
    the method ['trf'], the starting point [par[free]], the bounds
    [(lb[free], ub[free])] and one relative step per free parameter; the
    step is 0.1 (10%) in [AxisymmetricDisk.lsq_fit] and 0.01 (1%) in
    [BisymmetricDisk.lsq_fit]. *)
Theorem lsq_fit_call_restricted_to_free
    `{!Optimizer AxisymmetricDisk.t} `{!Optimizer BisymmetricDisk.t} :
  (forall k sb_wgt p0 fix_ verbose (s s1 : AxisymmetricDisk.t) c,
     AxisymmetricDisk.lsq_fit_call k sb_wgt p0 fix_ verbose s = (Return c, s1) ->
     AxisymmetricDisk.lsq_fit k sb_wgt p0 fix_ verbose s
     = (r ← least_squares c;
        _ ← AxisymmetricDisk._set_par r.1;
        py_try (AxisymmetricDisk.set_errors r.2)
               (py_modify (AxisymmetricDisk.set_par_err None))) s1 /\
     lsq_method c = "trf"%string /\
     lsq_x0 c = mask_filter (AxisymmetricDisk.free s1) (AxisymmetricDisk.par s1) /\
     (exists lb ub, AxisymmetricDisk.par_bounds s1 = Return (lb, ub) /\
        lsq_bounds c = (mask_filter (AxisymmetricDisk.free s1) lb,
                        mask_filter (AxisymmetricDisk.free s1) ub)) /\
     lsq_diff_step c = repeat 0.1 (count_true (AxisymmetricDisk.free s1)))
  /\
  (forall k sb_wgt p0 fix_ lb ub scatter_ verbose assume_posdef_covar ignore_covar
          (s s1 : BisymmetricDisk.t) c,
     BisymmetricDisk.lsq_fit_call k sb_wgt p0 fix_ lb ub scatter_ verbose
         assume_posdef_covar ignore_covar s = (Return c, s1) ->
     BisymmetricDisk.lsq_fit k sb_wgt p0 fix_ lb ub scatter_ verbose
         assume_posdef_covar ignore_covar s
     = (r ← least_squares c;
        _ ← BisymmetricDisk._set_par r.1;
        _ ← py_try (BisymmetricDisk.set_errors r.2)
                   (py_modify (BisymmetricDisk.set_par_err None));
        BisymmetricDisk.report) s1 /\
     lsq_method c = "trf"%string /\
     lsq_x0 c = mask_filter (BisymmetricDisk.free s1) (BisymmetricDisk.par s1) /\
     (exists lb0 ub0, BisymmetricDisk.par_bounds s1 None None = Return (lb0, ub0) /\
        lsq_bounds c
        = (mask_filter (BisymmetricDisk.free s1) (match lb with None => lb0 | Some v => v end),
           mask_filter (BisymmetricDisk.free s1) (match ub with None => ub0 | Some v => v end))) /\
     lsq_diff_step c = repeat 0.01 (count_true (BisymmetricDisk.free s1))).
Proof.
  split.
  - intros k sb_wgt p0 fix_ verbose s s1 c Hc. split.
    + unfold AxisymmetricDisk.lsq_fit. cbv [mbind py_bind]. by rewrite Hc.
    + by eapply axisym_lsq_fit_call_spec.
  - intros k sb_wgt p0 fix_ lb ub scatter_ verbose apc ic s s1 c Hc. split.
    + unfold BisymmetricDisk.lsq_fit. cbv [mbind py_bind]. by rewrite Hc.
    + by eapply bisym_lsq_fit_call_spec.
Qed.

Section AxisymFit.
Context `{!Optimizer AxisymmetricDisk.t}.


End AxisymFit.

(** C2, as the code has it.  When [model] gets to compute the line-of-sight
    velocity, the bisymmetry angle it uses is
    [phi_b' = (phi_b + pi/2) % pi - pi/2], which lies in the closed interval
    from -90 to 90 degrees.  Where [tan(phi_b')] and the quotient by
    [cos(i)] are defined -- [cos(phi_b')] and [cos(i)] are not zero; at these
    poles the real functions of this embedding do not stand for the rounded
    ones of the program -- the value at every grid point, deprojected to
    radius [r] and azimuth [theta], is
    [vsys + Vt(r) cos(theta) - V2t(r) cos(theta) cos(2 theta_b)
       - V2r(r) sin(theta) sin(2 theta_b)]
    with [theta_b = theta - atan(tan(phi_b') / cos(i))], each amplitude being
    its sub-curve sampled at [r], without any further factor [sin(i)]. *)
Theorem bisym_los_velocity (s : BisymmetricDisk.t) (xa ya vel : ndarray R) :
  BisymmetricDisk.x s = Some xa -> BisymmetricDisk.y s = Some ya ->
  BisymmetricDisk.los_velocity s = Return vel ->
  exists xc yc pa i phi_b vsys,
    BisymmetricDisk.par s !! 0%nat = Some xc /\ BisymmetricDisk.par s !! 1%nat = Some yc /\
    BisymmetricDisk.par s !! 2%nat = Some pa /\ BisymmetricDisk.par s !! 3%nat = Some i /\
    BisymmetricDisk.par s !! 4%nat = Some phi_b /\ BisymmetricDisk.par s !! 5%nat = Some vsys /\
    shape vel = shape xa /\
    let phi_b' := py_fmod (np_radians phi_b + PI / 2) PI - PI / 2 in
    - (PI / 2) <= phi_b' <= PI / 2 /\
    (cos phi_b' <> 0 -> cos (np_radians i) <> 0 ->
     forall k xk yk, ravel xa !! k = Some xk -> ravel ya !! k = Some yk ->
       let Vt := fun r => curve_sample (BisymmetricDisk.vt s) r
                   (BisymmetricDisk.par_slice s (BisymmetricDisk._vt_slice s)) in
       let V2t := fun r => curve_sample (BisymmetricDisk.v2t s) r
                   (BisymmetricDisk.par_slice s (BisymmetricDisk._v2t_slice s)) in
       let V2r := fun r => curve_sample (BisymmetricDisk.v2r s) r
                   (BisymmetricDisk.par_slice s (BisymmetricDisk._v2r_slice s)) in
       let rt := projected_polar (xk - xc) (yk - yc) (np_radians pa) (np_radians i) in
       let r := rt.1 in
       let theta := rt.2 in
       let theta_b := theta - atan (tan phi_b' / cos (np_radians i)) in
       ravel vel !! k
       = Some (vsys + Vt r * cos theta - V2t r * cos theta * cos (2 * theta_b)
               - V2r r * sin theta * sin (2 * theta_b))).
Proof.
  intros Hx Hy Hv. unfold BisymmetricDisk.los_velocity in Hv. rewrite Hx, Hy in Hv.
  destruct (py_slice 2 5 (BisymmetricDisk.par s)) as [|pa [|i [|phi_b [|? ?]]]] eqn:Hsl;
    simpl in Hv; try discriminate.
  apply slice3 in Hsl. destruct Hsl as (Hpa & Hi & Hpab).
  inv_bind Hv as xc Hxc. apply py_item_Return in Hxc.
  inv_bind Hv as yc Hyc. apply py_item_Return in Hyc.
  inv_bind Hv as u Hshape.
  inv_bind Hv as vsys Hvsys. apply py_item_Return in Hvsys.
  injection Hv as <-.
  exists xc, yc, pa, i, phi_b, vsys. do 7 (split; [done|]). cbv zeta.
  split.
  - pose proof (wrap_pab_range (np_radians phi_b)) as [Hr _].
    unfold BisymmetricDisk.wrap_pab in Hr. lra.
  - intros _ _ k xk yk Hxk Hyk.
    simpl. by rewrite lookup_map, lookup_zip_with, Hxk, Hyk.
Qed.

End DiskClaims.

(** * Further properties of the code *)

(** ** Validation in the constructor *)

Section Validation.
Context `{BeamOps}.

Lemma init_check_raise (a : Kinematics.args) (e : exn) :
  Kinematics.check_args a = Raise e -> Kinematics.__init__ a = Raise e.
Proof. intros Hc. unfold Kinematics.__init__. by rewrite Hc. Qed.

Lemma existsb_In {A} (f : A -> bool) (l : list A) (v : A) :
  In v l -> f v = true -> existsb f l = true.
Proof. intros Hin Hf. apply existsb_exists. eauto. Qed.

Lemma shape_eqb_false (s1 s2 : list nat) : s1 <> s2 -> shape_eqb s1 s2 = false.
Proof. intros Hne. unfold shape_eqb. by apply bool_decide_eq_false. Qed.

Lemma companions_match (a : Kinematics.args) (sh : list nat) :
  (forall s, In (Some s) (Kinematics.companion_shapes a) -> s = sh) ->
  existsb (Kinematics.shape_mismatch sh) (Kinematics.companion_shapes a) = false.
Proof.
  intros Hall. apply not_true_is_false. intros Hex.
  apply existsb_exists in Hex. destruct Hex as ([s|] & Hin & Hs); [|done].
  simpl in Hs. apply Hall in Hin. subst s.
  apply negb_true_iff in Hs. unfold shape_eqb in Hs.
  by apply bool_decide_eq_false in Hs.
Qed.

(** [Kinematics.__init__] refuses a [vel] whose shape has one axis, or more
    than two, with the message of its first check, and a two-dimensional [vel]
    that is not square with the message of its second check, whatever the
    other arguments are. *)
Theorem init_refuses_vel_not_square (a : Kinematics.args) :
  (forall n rest, ma_shape (Kinematics.arg_vel a) = n :: rest -> length rest <> 1%nat ->
     Kinematics.__init__ a = Raise (ValueError "Input arrays to Kinematics must be 2D.")) /\
  (forall n m, ma_shape (Kinematics.arg_vel a) = [n; m] -> m <> n ->
     Kinematics.__init__ a = Raise (ValueError "Input arrays to Kinematics must be square.")).
Proof.
  split.
  - intros n rest Hs Hlen. apply init_check_raise. unfold Kinematics.check_args.
    rewrite Hs. simpl. destruct (Nat.eqb_spec (length rest) 1); [done|]. reflexivity.
  - intros n m Hs Hne. apply init_check_raise. unfold Kinematics.check_args.
    rewrite Hs. simpl. destruct (Nat.eqb_spec m n); [done|]. reflexivity.
Qed.

(** With a square [vel], any of the sixteen companion arrays that the
    constructor loops over -- the point-spread function and the aperture
    among them -- whose shape is not that of [vel] is refused. *)
Theorem init_refuses_companion_of_other_shape (a : Kinematics.args) (n : nat) (sh : list nat) :
  ma_shape (Kinematics.arg_vel a) = [n; n] ->
  In (Some sh) (Kinematics.companion_shapes a) -> sh <> [n; n] ->
  Kinematics.__init__ a
  = Raise (ValueError "All arrays provided to Kinematics must have the same shape.").
Proof.
  intros Hs Hin Hne. apply init_check_raise. unfold Kinematics.check_args.
  rewrite Hs. cbn [length nth]. rewrite Nat.eqb_refl. cbn [negb raise_if mbind result_bind].
  rewrite (existsb_In _ _ (Some sh) Hin); [done|].
  simpl. by rewrite shape_eqb_false.
Qed.

(** With a square [vel] and companions of its shape, giving exactly one of
    [x] and [y] is refused. *)
Theorem init_refuses_x_without_y (a : Kinematics.args) (n : nat) :
  ma_shape (Kinematics.arg_vel a) = [n; n] ->
  (forall s, In (Some s) (Kinematics.companion_shapes a) -> s = [n; n]) ->
  is_None (Kinematics.arg_x a) <> is_None (Kinematics.arg_y a) ->
  Kinematics.__init__ a = Raise (ValueError "Must provide both x and y or neither.").
Proof.
  intros Hs Hall Hxy. apply init_check_raise. unfold Kinematics.check_args.
  rewrite Hs. cbn [length nth]. rewrite Nat.eqb_refl. cbn [negb raise_if mbind result_bind].
  rewrite (companions_match _ _ Hall). cbn [raise_if].
  destruct (Kinematics.arg_x a), (Kinematics.arg_y a); simpl in *; done.
Qed.

(** A masked [sig_corr] given without [sig] passes the validation and then
    fails: [self.sig_mask |= ...] is applied to [None], a [TypeError]. *)
Theorem init_masked_sig_corr_without_sig (a : Kinematics.args) (n : nat)
    (d : ndarray R) (m : ndarray bool) :
  Kinematics.check_args a = Return n ->
  Kinematics.arg_sig a = None ->
  Kinematics.arg_sig_corr a = Some (MaskedArray d m) ->
  Kinematics.__init__ a = Raise TypeError.
Proof.
  intros Hc Hsig Hsc. unfold Kinematics.__init__. rewrite Hc, Hsig, Hsc. reflexivity.
Qed.

Lemma zip3_ident_bounds (k s n : nat) :
  (s + k <= n)%nat ->
  forallb (fun e : R * nat * nat => match e with (_, r, c) => Nat.ltb r n && Nat.ltb c n end)
          (zip3 (repeat 1%R k) (seq s k) (seq s k)) = true.
Proof.
  revert s. induction k as [|k IH]; intros s Hle; [done|].
  simpl. rewrite IH by lia.
  destruct (Nat.ltb_spec s n); [done|lia].
Qed.

Lemma ident_coo_Return (n : nat) :
  coo_matrix (repeat 1%R n) (np_arange n) (np_arange n) n n
  = Return (CSR n n (zip3 (repeat 1%R n) (np_arange n) (np_arange n))).
Proof. unfold coo_matrix, np_arange. by rewrite zip3_ident_bounds. Qed.

Lemma unique_values_all (z : Z) (l : list Z) :
  (forall v, In v l -> v = z) -> l <> [] -> unique_values l = [z].
Proof.
  induction l as [|h t IH]; intros Hall Hne; [done|].
  assert (h = z) as -> by (apply Hall; by left).
  unfold unique_values. simpl. fold (unique_values t).
  destruct t as [|h' t'].
  - reflexivity.
  - rewrite IH; [|intros v Hv; apply Hall; by right|done].
    simpl. rewrite Z.ltb_irrefl, Z.eqb_refl. reflexivity.
Qed.

Lemma bin_setup_all_unbinned (l : list Z) :
  (forall v, In v l -> v = (-1)%Z) ->
  Kinematics.bin_setup l (length l)
  = Raise (ValueError "not enough values to unpack (expected 3, got 0)").
Proof.
  intros Hall. unfold Kinematics.bin_setup, np_unique.
  destruct l as [|h t].
  - reflexivity.
  - rewrite (unique_values_all (-1)) by done.
    cbn [existsb Z.eqb orb]. 
    set (inverse := map _ (h :: t)).
    set (keep := map _ inverse).
    unfold np_mask_select.
    assert (Hlk : length keep = length (h :: t)) by (unfold keep, inverse; by rewrite !length_map).
    assert (Hli : length inverse = length (h :: t)) by (unfold inverse; by rewrite length_map).
    unfold np_arange. rewrite length_seq, Hlk, Hli, Nat.eqb_refl.
    cbn [mbind result_bind tail enumerate length seq zip zip_with flat_map]. reflexivity.
Qed.

(** A bin-id map whose entries are all [-1] leaves no bin: the list of
    triplets of the bin transform is empty, its transpose cannot be unpacked
    into [d, i, j], and the constructor raises that [ValueError]. *)
Theorem init_refuses_map_without_bins (a : Kinematics.args) (n : nat) (b : ndarray Z) :
  Kinematics.check_args a = Return n ->
  wf_ndarray b ->
  Kinematics.arg_binid a = Some b ->
  Kinematics.arg_sig_corr a = None ->
  (forall z, In z (ravel b) -> z = (-1)%Z) ->
  Kinematics.__init__ a
  = Raise (ValueError "not enough values to unpack (expected 3, got 0)").
Proof.
  intros Hc Hwf Hb Hsc Hall.
  destruct (check_args_Return _ _ Hc) as (Hs & Hcomp & _).
  assert (Hsb : shape b = [n; n]).
  { apply Hcomp. unfold Kinematics.companion_shapes. rewrite Hb. simpl. tauto. }
  unfold Kinematics.__init__. rewrite Hc, Hsc, Hb. cbn [mbind result_bind Kinematics.ingest_sig_corr].
  unfold Kinematics.bin_bookkeeping. rewrite Hs, ident_coo_Return.
  cbn [mbind result_bind].
  replace (np_prod [n; n]) with (length (ravel b)) by (rewrite Hwf, Hsb; done).
  by rewrite bin_setup_all_unbinned.
Qed.
End Validation.

(** ** What the constructor stores *)

Section Fields.
Context `{BeamOps}.

Lemma init_fields (a : Kinematics.args) (k : Kinematics.t) :
  Kinematics.__init__ a = Return k ->
  let sp := ma_shape (Kinematics.arg_vel a) in
  let sb0 := Kinematics._ingest sp (Kinematics.arg_sb a) (Kinematics.arg_sb_ivar a)
                                (Kinematics.arg_sb_mask a) in
  let vel0 := Kinematics._ingest sp (Some (Kinematics.arg_vel a)) (Kinematics.arg_vel_ivar a)
                                 (Kinematics.arg_vel_mask a) in
  let sig0 := Kinematics._ingest sp (Kinematics.arg_sig a) (Kinematics.arg_sig_ivar a)
                                 (Kinematics.arg_sig_mask a) in
  exists n sc indx,
    Kinematics.check_args a = Return n /\
    Kinematics.ingest_sig_corr sig0.2 (Kinematics.arg_sig_corr a) = Return sc /\
    Kinematics.bin_bookkeeping (Kinematics.arg_binid a) (np_prod sp)
      = Return (Kinematics.binid k, indx, Kinematics.grid_indx k, Kinematics.bin_inverse k,
                Kinematics.bin_transform k) /\
    np_take (Kinematics.coordinates a n).1 indx = Return (Kinematics.x k) /\
    np_take (Kinematics.coordinates a n).2 indx = Return (Kinematics.y k) /\
    Kinematics.select sb0.1.1 indx = Return (Kinematics.sb k) /\
    Kinematics.select sb0.1.2 indx = Return (Kinematics.sb_ivar k) /\
    Kinematics.select sb0.2 indx = Return (Kinematics.sb_mask k) /\
    Kinematics.select vel0.1.1 indx = Return (Kinematics.vel k) /\
    Kinematics.select vel0.1.2 indx = Return (Kinematics.vel_ivar k) /\
    Kinematics.select vel0.2 indx = Return (Kinematics.vel_mask k) /\
    Kinematics.select sig0.1.1 indx = Return (Kinematics.sig k) /\
    Kinematics.select sig0.1.2 indx = Return (Kinematics.sig_ivar k) /\
    Kinematics.select sc.1 indx = Return (Kinematics.sig_mask k) /\
    Kinematics.select ((fun b => ravel (Kinematics.astype_bool b)) <$> Kinematics.arg_bordermask a)
                      indx = Return (Kinematics.bordermask k) /\
    Kinematics.spatial_shape k = sp /\
    Kinematics.grid_x k = Kinematics.arg_grid_x a /\
    Kinematics.grid_y k = Kinematics.arg_grid_y a /\
    Kinematics.beam_fft k = (Kinematics._set_beam (Kinematics.arg_psf a) (Kinematics.arg_aperture a)).2.
Proof.
  unfold Kinematics.__init__. intros Hi. cbv zeta.
  inv_bind Hi as n Hcheck.
  inv_bind Hi as sc Hsc.
  inv_bind Hi as b Hbins. destruct b as [[[[ids indx] gi] bi] bt]. cbn [fst snd] in Hi.
  inv_bind Hi as x1 Hx.
  inv_bind Hi as y1 Hy.
  inv_bind Hi as sb1 Hsb. inv_bind Hi as sbi1 Hsbi. inv_bind Hi as sbm1 Hsbm.
  inv_bind Hi as vel1 Hvel. inv_bind Hi as veli1 Hveli. inv_bind Hi as velm1 Hvelm.
  inv_bind Hi as sig1 Hsig. inv_bind Hi as sigi1 Hsigi. inv_bind Hi as sigm1 Hsigm.
  inv_bind Hi as bm1 Hbm.
  injection Hi as <-. simpl.
  exists n, sc, indx. repeat split; done.
Qed.

Lemma select_length {A} (o r : option (list A)) (indx : list nat) :
  Kinematics.select o indx = Return r -> opt_length r (length indx).
Proof.
  destruct o as [l|]; simpl; intros Hs.
  - inv_bind Hs as v Hv. injection Hs as <-. simpl. by apply take_Return in Hv as [? _].
  - by injection Hs as <-.
Qed.

Lemma select_None_iff {A} (o r : option (list A)) (indx : list nat) :
  Kinematics.select o indx = Return r -> (r = None <-> o = None).
Proof.
  destruct o as [l|]; simpl; intros Hs.
  - inv_bind Hs as v Hv. injection Hs as <-. done.
  - by injection Hs as <-.
Qed.

Lemma binid_length (a : Kinematics.args) (n : nat) :
  wf_args a -> Kinematics.check_args a = Return n ->
  match Kinematics.arg_binid a with
  | Some b => length (ravel b) = np_prod (ma_shape (Kinematics.arg_vel a))
  | None => True
  end.
Proof.
  intros Hwf Hcheck.
  destruct (Kinematics.arg_binid a) as [b|] eqn:Hb; [|done].
  destruct (check_args_Return _ _ Hcheck) as (Hv & Hcomp & _).
  apply wf_shape_length.
  - unfold wf_args in Hwf. rewrite Hb in Hwf. simpl in Hwf. tauto.
  - rewrite Hv. apply Hcomp. unfold Kinematics.companion_shapes. rewrite Hb. simpl. tauto.
Qed.


Lemma mask_filter_seq_In (m : list bool) (s g : nat) :
  In g (mask_filter m (seq s (length m))) <-> (s <= g)%nat /\ m !! (g - s)%nat = Some true.
Proof.
  revert s. induction m as [|b m IH]; intros s; simpl.
  - split; [done|]. by intros [_ ?].
  - destruct b; simpl; rewrite ?IH.
    + split.
      * intros [<-|[Hle Hm]].
        -- split; [lia|]. by replace (s - s)%nat with 0%nat by lia.
        -- split; [lia|]. by replace (g - s)%nat with (S (g - S s)) by lia.
      * intros [Hle Hm]. destruct (decide (g = s)) as [->|Hne]; [by left|right].
        split; [lia|]. by replace (g - s)%nat with (S (g - S s)) in Hm by lia.
    + split.
      * intros [Hle Hm]. split; [lia|]. by replace (g - s)%nat with (S (g - S s)) by lia.
      * intros [Hle Hm]. destruct (decide (g = s)) as [->|Hne].
        -- by replace (s - s)%nat with 0%nat in Hm by lia.
        -- split; [lia|]. by replace (g - s)%nat with (S (g - S s)) in Hm by lia.
Qed.

Lemma mask_filter_arange_In (m : list bool) (n g : nat) :
  length m = n -> In g (mask_filter m (np_arange n)) <-> m !! g = Some true.
Proof.
  intros <-. unfold np_arange. rewrite mask_filter_seq_In.
  replace (g - 0)%nat with g by lia. split; [by intros [_ ?]|]. intros ?. split; [lia|done].
Qed.

Lemma index_of_0 (z : Z) (u : list Z) :
  In z u -> (index_of z u = 0%nat <-> hd_error u = Some z).
Proof.
  destruct u as [|h t]; [done|]. simpl. intros _.
  destruct (Z.eqb_spec h z) as [->|Hne]; [done|]. split; [done|]. intros [=]. done.
Qed.

Lemma In_tail_NoDup (z : Z) (u : list Z) :
  NoDup u -> (In z (tail u) <-> In z u /\ hd_error u <> Some z).
Proof.
  destruct u as [|h t]; simpl; [intros _; tauto|].
  intros Hnd. apply NoDup_cons in Hnd as [Hh _]. rewrite list_elem_of_In in Hh.
  split.
  - intros Hz. split; [by right|]. intros [= ->]. done.
  - intros [[->|Hz] Hne]; done.
Qed.

(** What the bookkeeping of binned data returns, read off [bin_setup]. *)
Lemma bin_setup_Return (l : list Z) ids indx gi bi bt :
  Kinematics.bin_setup l (length l) = Return (ids, indx, gi, bi, bt) ->
  let u := unique_values l in
  ids = (if existsb (fun b => (b =? -1)%Z) u then tail u else u) /\
  ids <> [] /\
  indx = map (fun z => index_of z l) ids /\
  (forall g, In g gi <-> exists b, l !! g = Some b /\ In b ids) /\
  nrows bt = length ids /\ ncols bt = length l /\
  forall r b, ids !! r = Some b ->
    row_entries bt r
    = map (fun j => ((1 / INR (count_of b l))%R, r, j)) (np_where_eq l b).
Proof.
  unfold Kinematics.bin_setup, np_unique. intros Hb. cbv zeta.
  assert (Hrows : forall ids0 nbin (bt0 : csr_matrix),
    nbin = map (fun z => count_of z l) ids0 ->
    bt0 = CSR (length ids0) (length l)
            (flat_map (fun ib : nat * Z =>
               map (fun j => ((1 / INR (nth ib.1 nbin 0%nat))%R, ib.1, j))
                   (np_where_eq l ib.2)) (enumerate ids0)) ->
    forall r b, ids0 !! r = Some b ->
      row_entries bt0 r
      = map (fun j => ((1 / INR (count_of b l))%R, r, j)) (np_where_eq l b)).
  { intros ids0 nbin bt0 -> -> r b Hr. unfold row_entries, enumerate. simpl.
    rewrite (binned_rows (fun i => (1 / INR (nth i (map (fun z => count_of z l) ids0) 0%nat))%R)
               (np_where_eq l) 0 ids0 r b); [|lia|by replace (r - 0)%nat with r by lia].
    assert (Hn : nth r (map (fun z => count_of z l) ids0) 0%nat = count_of b l)
      by (apply nth_lookup_Some; by rewrite lookup_map, Hr).
    by rewrite Hn. }
  destruct (existsb _ (unique_values l)) eqn:Hex.
  - unfold np_mask_select, np_arange in Hb. rewrite !length_map, length_seq in Hb.
    rewrite Nat.eqb_refl in Hb. simpl in Hb.
    match type of Hb with
    | context [match ?d with [] => _ | _ :: _ => _ end] =>
        destruct d eqn:Hdij; [discriminate|]
    end.
    assert (Hne : tail (unique_values l) <> []) by (intros Hnil; by rewrite Hnil in Hdij).
    rewrite <- Hdij in Hb; clear Hdij.
    inv_bind Hb as bt' Hbt. injection Hb as <- <- <- <- <-.
    apply coo_matrix_Return in Hbt. rewrite zip3_maps in Hbt.
    split; [done|]. split; [done|]. split; [by rewrite tail_map|].
    split; [|split; [by subst bt'|split; [by subst bt'|]]].
    + intros g. fold (np_arange (length l)).
      rewrite mask_filter_arange_In by (by rewrite !length_map).
      rewrite !lookup_map. split.
      * intros Hg. destruct (l !! g) as [b|] eqn:Hlg; [|done]. simpl in Hg.
        injection Hg as Hg. apply Nat.ltb_lt in Hg. exists b. split; [done|].
        assert (Hin : In b (unique_values l))
          by (apply unique_values_In, list_elem_of_In; by eapply list_elem_of_lookup_2).
        apply In_tail_NoDup; [apply unique_values_NoDup|]. split; [done|].
        intros Hhd. apply index_of_0 in Hhd; [lia|done].
      * intros (b & Hlg & Hin). rewrite Hlg. simpl. f_equal.
        apply In_tail_NoDup in Hin as [Hin Hhd]; [|apply unique_values_NoDup].
        apply Nat.ltb_lt. destruct (index_of b (unique_values l)) eqn:Hio; [|lia].
        exfalso. apply Hhd. by apply index_of_0.
    + eapply Hrows; [|exact Hbt]. by rewrite tail_map.
  - simpl in Hb.
    match type of Hb with
    | context [match ?d with [] => _ | _ :: _ => _ end] =>
        destruct d eqn:Hdij; [discriminate|]
    end.
    assert (Hne : unique_values l <> []) by (intros Hnil; by rewrite Hnil in Hdij).
    rewrite <- Hdij in Hb; clear Hdij.
    inv_bind Hb as bt' Hbt. injection Hb as <- <- <- <- <-.
    apply coo_matrix_Return in Hbt. rewrite zip3_maps in Hbt.
    split; [done|]. split; [done|]. split; [done|].
    split; [|split; [by subst bt'|split; [by subst bt'|]]].
    + intros g. unfold np_arange. rewrite in_seq. split.
      * intros [_ Hg]. destruct (lookup_lt_is_Some_2 l g) as [b Hlg]; [lia|].
        exists b. split; [done|].
        apply unique_values_In, list_elem_of_In. by eapply list_elem_of_lookup_2.
      * intros (b & Hlg & _). apply lookup_lt_Some in Hlg. lia.
    + eapply Hrows; [|exact Hbt]. done.
Qed.


Lemma bin_bookkeeping_binned (b : ndarray Z) (ncell : nat) ids indx gi bi bt :
  length (ravel b) = ncell ->
  Kinematics.bin_bookkeeping (Some b) ncell = Return (ids, indx, gi, bi, bt) ->
  exists ids', ids = Some ids' /\
    Kinematics.bin_setup (ravel b) (length (ravel b)) = Return (ids', indx, gi, bi, bt).
Proof.
  intros <- Hb. unfold Kinematics.bin_bookkeeping in Hb. inv_bind Hb as ident Hid.
  inv_bind Hb as r Hr. destruct r as [[[[ids' indx'] gi'] bi'] bt']. simpl in Hb.
  injection Hb as <- <- <- <- <-. by exists ids'.
Qed.

Lemma bin_bookkeeping_unbinned (ncell : nat) ids indx gi bi bt :
  Kinematics.bin_bookkeeping None ncell = Return (ids, indx, gi, bi, bt) ->
  ids = None /\ indx = np_arange ncell /\ gi = np_arange ncell /\ bi = np_arange ncell /\
  bt = CSR ncell ncell (zip3 (repeat 1%R ncell) (np_arange ncell) (np_arange ncell)).
Proof.
  unfold Kinematics.bin_bookkeeping. intros Hb. inv_bind Hb as ident Hid.
  apply coo_matrix_Return in Hid. by injection Hb as <- <- <- <- <-.
Qed.

Lemma init_vector_lengths (a : Kinematics.args) (k : Kinematics.t) :
  wf_args a ->
  Kinematics.__init__ a = Return k ->
  let n := nrows (Kinematics.bin_transform k) in
  length (Kinematics.x k) = n /\ length (Kinematics.y k) = n /\
  opt_length (Kinematics.sb k) n /\ opt_length (Kinematics.sb_ivar k) n /\
  opt_length (Kinematics.sb_mask k) n /\
  (exists v, Kinematics.vel k = Some v /\ length v = n) /\
  opt_length (Kinematics.vel_ivar k) n /\
  (exists m, Kinematics.vel_mask k = Some m /\ length m = n) /\
  opt_length (Kinematics.sig k) n /\ opt_length (Kinematics.sig_ivar k) n /\
  opt_length (Kinematics.sig_mask k) n /\ opt_length (Kinematics.bordermask k) n /\
  opt_length (Kinematics.binid k) n.
Proof.
  intros Hwf Hi. cbv zeta.
  destruct (init_fields _ _ Hi) as (n & sc & indx & Hcheck & Hsc & Hbins & Hx & Hy & Hsb & Hsbi
    & Hsbm & Hvel & Hveli & Hvelm & Hsig & Hsigi & Hsigm & Hbm & _).
  pose proof (binid_length _ _ Hwf Hcheck) as Hbl.
  pose proof (bin_bookkeeping_consistent _ _ _ _ _ _ _ Hbl Hbins) as (Hrows & _).
  rewrite Hrows.
  apply take_Return in Hx as [Hx _]. apply take_Return in Hy as [Hy _].
  repeat split; try (by eapply select_length); try done.
  - rewrite ingest_data in Hvel. apply select_Some in Hvel as (v & Hv & Ht).
    exists v. split; [done|]. by apply take_Return in Ht as [? _].
  - pose proof (select_length _ _ _ Hvelm) as Hl.
    destruct (Kinematics.vel_mask k) as [m|] eqn:Hm; [by exists m|].
    apply select_None_iff in Hvelm. destruct Hvelm as [Hn _]. specialize (Hn eq_refl).
    unfold Kinematics._ingest in Hn. by destruct (Kinematics.arg_vel_ivar a).
  - destruct (Kinematics.arg_binid a) as [b|].
    + apply bin_bookkeeping_binned in Hbins as (ids' & -> & Hset); [|done].
      apply bin_setup_Return in Hset as (_ & _ & -> & _). simpl. by rewrite length_map.
    + by apply bin_bookkeeping_unbinned in Hbins as (-> & _).
Qed.

(** After construction every per-measurement vector that is not [None] --
    the coordinates, the three ingested triples, [bordermask] and the unique
    bin ids -- has one and the same length, the number of rows of
    [bin_transform]; [vel] and [vel_mask] are never [None]. *)
Theorem init_vectors_one_length (a : Kinematics.args) (k : Kinematics.t) :
  wf_args a ->
  Kinematics.__init__ a = Return k ->
  let n := nrows (Kinematics.bin_transform k) in
  length (Kinematics.x k) = n /\ length (Kinematics.y k) = n /\
  opt_length (Kinematics.sb k) n /\ opt_length (Kinematics.sb_ivar k) n /\
  opt_length (Kinematics.sb_mask k) n /\
  (exists v, Kinematics.vel k = Some v /\ length v = n) /\
  opt_length (Kinematics.vel_ivar k) n /\
  (exists m, Kinematics.vel_mask k = Some m /\ length m = n) /\
  opt_length (Kinematics.sig k) n /\ opt_length (Kinematics.sig_ivar k) n /\
  opt_length (Kinematics.sig_mask k) n /\ opt_length (Kinematics.bordermask k) n /\
  opt_length (Kinematics.binid k) n.
Proof. exact (init_vector_lengths a k). Qed.

Lemma sorted_tail (u : list Z) : StronglySorted Z.lt u -> StronglySorted Z.lt (tail u).
Proof. intros Hs. destruct u; [done|]. by apply StronglySorted_inv in Hs as [? _]. Qed.

Lemma sorted_hd_le (u : list Z) (h z : Z) :
  StronglySorted Z.lt u -> hd_error u = Some h -> In z u -> (h <= z)%Z.
Proof.
  destruct u as [|h' t]; [done|]. simpl. intros Hs [= ->] [->|Hz]; [lia|].
  apply StronglySorted_inv in Hs as [_ Hall]. rewrite Forall_forall in Hall.
  apply list_elem_of_In, Hall in Hz. lia.
Qed.

Lemma existsb_minus_one (u : list Z) :
  existsb (fun b => (b =? -1)%Z) u = true <-> In (-1)%Z u.
Proof.
  rewrite existsb_exists. split.
  - intros (z & Hz & Heq). apply Z.eqb_eq in Heq. by subst z.
  - intros Hin. exists (-1)%Z. done.
Qed.

(** For binned data the stored bin ids are strictly increasing and not
    empty; when no id of the map is below [-1] they are exactly the ids of
    the map other than [-1]; and [grid_indx] holds exactly the cells whose id
    is a stored bin id. *)
Theorem init_binid_sorted_distinct (a : Kinematics.args) (k : Kinematics.t) (bmap : ndarray Z) :
  wf_args a ->
  Kinematics.__init__ a = Return k ->
  Kinematics.arg_binid a = Some bmap ->
  exists ids,
    Kinematics.binid k = Some ids /\
    StronglySorted Z.lt ids /\ ids <> [] /\
    ((forall z, In z (ravel bmap) -> (-1 <= z)%Z) ->
     forall id, In id ids <-> In id (ravel bmap) /\ id <> (-1)%Z) /\
    (forall g, In g (Kinematics.grid_indx k) <->
               exists id, ravel bmap !! g = Some id /\ In id ids).
Proof.
  intros Hwf Hi Hb.
  destruct (init_fields _ _ Hi) as (n & sc & indx & Hcheck & _ & Hbins & _).
  pose proof (binid_length _ _ Hwf Hcheck) as Hbl. rewrite Hb in Hbl, Hbins.
  apply bin_bookkeeping_binned in Hbins as (ids & Hids & Hset); [|done].
  apply bin_setup_Return in Hset as (Hu & Hne & _ & Hgi & _).
  exists ids. split; [done|]. cbv zeta in Hu.
  pose proof (unique_values_sorted (ravel bmap)) as Hsorted.
  pose proof (unique_values_NoDup (ravel bmap)) as Hnd.
  split; [|split; [done|split; [|done]]].
  - rewrite Hu. destruct (existsb _ _); [by apply sorted_tail|done].
  - intros Hge id. rewrite Hu.
    destruct (existsb _ _) eqn:Hex.
    + apply existsb_minus_one in Hex.
      rewrite In_tail_NoDup by done. rewrite unique_values_In.
      assert (Hhd : hd_error (unique_values (ravel bmap)) = Some (-1)%Z).
      { destruct (unique_values (ravel bmap)) as [|h t] eqn:Hun; [done|]. simpl. f_equal.
        assert (h <= -1)%Z by (by apply (sorted_hd_le (h :: t))).
        assert (-1 <= h)%Z by (apply Hge, unique_values_In; rewrite Hun; by left).
        lia. }
      rewrite Hhd. split; intros [? Hn]; (split; [done|]); intros Heq; apply Hn; congruence.
    + rewrite unique_values_In. split; [|tauto].
      intros Hin. split; [done|]. intros ->.
      apply unique_values_In, existsb_minus_one in Hin. congruence.
Qed.

(** When [-1] occurs in the map the constructor drops the first of the
    sorted ids: with an id below [-1] in the map it is the smallest id that
    is dropped, and [-1] is kept as a bin. *)
Theorem init_drops_the_smallest_bin_id (a : Kinematics.args) (k : Kinematics.t)
    (bmap : ndarray Z) (z : Z) :
  wf_args a ->
  Kinematics.__init__ a = Return k ->
  Kinematics.arg_binid a = Some bmap ->
  In (-1)%Z (ravel bmap) -> In z (ravel bmap) -> (z < -1)%Z ->
  exists ids m,
    Kinematics.binid k = Some ids /\ In (-1)%Z ids /\
    In m (ravel bmap) /\ (forall v, In v (ravel bmap) -> (m <= v)%Z) /\ ~ In m ids.
Proof.
  intros Hwf Hi Hb Hm1 Hz Hlt.
  destruct (init_fields _ _ Hi) as (n & sc & indx & Hcheck & _ & Hbins & _).
  pose proof (binid_length _ _ Hwf Hcheck) as Hbl. rewrite Hb in Hbl, Hbins.
  apply bin_bookkeeping_binned in Hbins as (ids & Hids & Hset); [|done].
  apply bin_setup_Return in Hset as (Hu & _). cbv zeta in Hu.
  pose proof (unique_values_sorted (ravel bmap)) as Hsorted.
  pose proof (unique_values_NoDup (ravel bmap)) as Hnd.
  assert (Hex : existsb (fun b => (b =? -1)%Z) (unique_values (ravel bmap)) = true)
    by (by apply existsb_minus_one, unique_values_In).
  rewrite Hex in Hu.
  destruct (unique_values (ravel bmap)) as [|h t] eqn:Hun.
  { apply unique_values_In in Hz. by rewrite Hun in Hz. }
  assert (Hmin : forall v, In v (ravel bmap) -> (h <= v)%Z).
  { intros v Hv. apply (sorted_hd_le (h :: t)); [done|done|].
    rewrite <- Hun. by apply unique_values_In. }
  exists ids, h. split; [done|]. subst ids.
  pose proof (Hmin z Hz).
  split; [|split; [|split; [done|]]].
  - apply (In_tail_NoDup _ (h :: t)); [done|]. split.
    + rewrite <- Hun. by apply unique_values_In.
    + simpl. intros [= ->]. lia.
  - apply unique_values_In. rewrite Hun. by left.
  - intros Hin. apply (In_tail_NoDup _ (h :: t)) in Hin as [_ Hn]; [|done]. by apply Hn.
Qed.

End Fields.

(** ** Masks of the ingested data *)

Section Ingest.
Context `{BeamOps}.
Local Open Scope R_scope.

Lemma mask_or_length (m n : list bool) :
  length n = length m -> length (Kinematics.mask_or m n) = length m.
Proof. intros Hl. unfold Kinematics.mask_or. rewrite length_zip_with. lia. Qed.

Lemma mask_or_true_l (m n : list bool) (p : nat) :
  length n = length m -> m !! p = Some true -> Kinematics.mask_or m n !! p = Some true.
Proof.
  intros Hl Hm. unfold Kinematics.mask_or. rewrite lookup_zip_with, Hm. simpl.
  destruct (lookup_lt_is_Some_2 n p) as [b ->]; [|done].
  rewrite Hl. by eapply lookup_lt_Some.
Qed.

Lemma mask_or_true_r (m n : list bool) (p : nat) :
  length n = length m -> n !! p = Some true -> Kinematics.mask_or m n !! p = Some true.
Proof.
  intros Hl Hn. unfold Kinematics.mask_or. rewrite lookup_zip_with, Hn.
  destruct (lookup_lt_is_Some_2 m p) as [b ->]; [|simpl; by rewrite orb_true_r].
  rewrite <- Hl. by eapply lookup_lt_Some.
Qed.

Lemma ma_or_mask_length (m : list bool) (d : marray) :
  ma_mask_length d (length m) -> length (Kinematics.ma_or_mask m d) = length m.
Proof. destruct d; simpl; [done|]. apply mask_or_length. Qed.

Lemma ingest_masks_nonpositive (sp : list nat) (d iv : marray) (mk : option (ndarray bool)) :
  let L := length (ravel (ma_data iv)) in
  match mk with Some m => length (ravel m) = L | None => np_prod sp = L end ->
  ma_mask_length d L -> ma_mask_length iv L ->
  let r := Kinematics._ingest sp (Some d) (Some iv) mk in
  r.1.2 = Some (ravel (ma_data iv)) /\
  opt_masks_nonpositive r.2 r.1.2.
Proof.
  intros L Hmk Hd Hiv. simpl. split; [done|].
  set (m0 := match mk with Some m => ravel m | None => repeat false (np_prod sp) end).
  assert (Hm0 : length m0 = L).
  { unfold m0. destruct mk; [done|]. by rewrite repeat_length. }
  assert (Hm1 : length (Kinematics.ma_or_mask m0 d) = L)
    by (rewrite ma_or_mask_length; by rewrite Hm0).
  assert (Hm2 : length (Kinematics.ma_or_mask (Kinematics.ma_or_mask m0 d) iv) = L)
    by (rewrite ma_or_mask_length; by rewrite Hm1).
  eexists. split; [reflexivity|]. split.
  - rewrite mask_or_length; [done|]. by rewrite length_map, Hm2.
  - intros p v Hp Hv. apply mask_or_true_r; [by rewrite length_map, Hm2|].
    rewrite lookup_map, Hp. simpl. unfold Kinematics.Rpositive.
    destruct (Rlt_dec 0 v); [lra|done].
Qed.

Lemma select_masks_nonpositive (m m' : option (list bool)) (iv iv' : option (list R))
    (indx : list nat) :
  opt_masks_nonpositive m iv ->
  Kinematics.select m indx = Return m' ->
  Kinematics.select iv indx = Return iv' ->
  opt_masks_nonpositive m' iv'.
Proof.
  destruct iv as [v|]; simpl.
  - intros (mk & -> & Hlen & Hmask) Hm Hv. simpl in Hm.
    inv_bind Hm as mk' Hmk. injection Hm as <-.
    inv_bind Hv as v' Hv'. injection Hv as <-. simpl.
    exists mk'. split; [done|].
    apply take_Return in Hmk as [Hl1 Hmk]. apply take_Return in Hv' as [Hl2 Hv'].
    split; [lia|]. intros p w Hp Hw.
    destruct (lookup_lt_is_Some_2 indx p) as [q Hq]; [rewrite <- Hl2; by eapply lookup_lt_Some|].
    destruct (Hmk p q Hq) as [-> _]. destruct (Hv' p q Hq) as [Hvq _].
    apply (Hmask q w); [by rewrite <- Hvq|done].
  - intros _ _ Hv. by injection Hv as <-.
Qed.

Lemma opt_masks_or (m : list bool) (iv : option (list R)) (n : list bool) :
  length n = length m ->
  opt_masks_nonpositive (Some m) iv -> opt_masks_nonpositive (Some (Kinematics.mask_or m n)) iv.
Proof.
  intros Hl. destruct iv as [v|]; [|done]. simpl.
  intros (mk & [= <-] & Hlen & Hmask). eexists. split; [reflexivity|]. split.
  - by rewrite mask_or_length.
  - intros p w Hp Hw. apply mask_or_true_l; [done|]. by eapply Hmask.
Qed.

Lemma wf_ma_length (d : marray) (n : nat) :
  wf_marray d -> ma_shape d = [n; n] ->
  length (ravel (ma_data d)) = (n * n)%nat /\ ma_mask_length d (n * n).
Proof.
  unfold ma_shape. destruct d as [d|d m]; simpl.
  - intros Hwf Hs. split; [|done]. by rewrite Hwf, Hs, np_prod_2d.
  - intros (Hd & Hm & Hms) Hs. split.
    + by rewrite Hd, Hs, np_prod_2d.
    + by rewrite Hm, Hms, Hs, np_prod_2d.
Qed.

Lemma ingest_opt_masks (sp : list nat) (d iv : option marray) (mk : option (ndarray bool))
    (n : nat) :
  np_prod sp = (n * n)%nat ->
  (forall v, d = Some v -> wf_marray v /\ ma_shape v = [n; n]) ->
  (forall v, iv = Some v -> wf_marray v /\ ma_shape v = [n; n]) ->
  (forall m, mk = Some m -> wf_ndarray m /\ shape m = [n; n]) ->
  let r := Kinematics._ingest sp d iv mk in
  opt_masks_nonpositive r.2 r.1.2 /\ opt_length r.2 (n * n).
Proof.
  intros Hsp Hd Hiv Hmk.
  destruct d as [d|]; [|done].
  destruct (Hd d eq_refl) as [Hdwf Hds]. destruct (wf_ma_length d n Hdwf Hds) as [_ Hdm].
  assert (Hm0 : length (match mk with Some m => ravel m | None => repeat false (np_prod sp) end)
                = (n * n)%nat).
  { destruct mk as [m|]; [|by rewrite repeat_length].
    destruct (Hmk m eq_refl) as [Hmwf Hms]. by rewrite Hmwf, Hms, np_prod_2d. }
  destruct iv as [iv|].
  - destruct (Hiv iv eq_refl) as [Hivwf Hivs].
    destruct (wf_ma_length iv n Hivwf Hivs) as [Hivl Hivm].
    destruct (ingest_masks_nonpositive sp d iv mk) as [_ Hmasks].
    + rewrite Hivl. destruct mk as [m|]; [|done].
      destruct (Hmk m eq_refl) as [Hmwf Hms]. by rewrite Hmwf, Hms, np_prod_2d.
    + by rewrite Hivl.
    + by rewrite Hivl.
    + cbv zeta. split; [done|].
      destruct Hmasks as (m & Hm & Hlen & _). rewrite Hm. simpl. by rewrite Hlen.
  - cbv zeta. simpl. split; [done|]. rewrite ma_or_mask_length; by rewrite Hm0.
Qed.

Lemma ravel_mask_length (d : ndarray R) (m : ndarray bool) (n : nat) :
  wf_marray (MaskedArray d m) -> ma_shape (MaskedArray d m) = [n; n] ->
  length (ravel m) = (n * n)%nat.
Proof. intros Hwf Hs. by destruct (wf_ma_length _ _ Hwf Hs) as [_ ?]. Qed.

Lemma init_masks_cover_nonpositive (a : Kinematics.args) (k : Kinematics.t) :
  wf_args a ->
  Kinematics.__init__ a = Return k ->
  opt_masks_nonpositive (Kinematics.vel_mask k) (Kinematics.vel_ivar k) /\
  opt_masks_nonpositive (Kinematics.sb_mask k) (Kinematics.sb_ivar k) /\
  opt_masks_nonpositive (Kinematics.sig_mask k) (Kinematics.sig_ivar k).
Proof.
  intros Hwf Hi.
  destruct (init_fields _ _ Hi) as (n & sc & indx & Hcheck & Hsc & Hbins & Hx & Hy & Hsb & Hsbi
    & Hsbm & Hvel & Hveli & Hvelm & Hsig & Hsigi & Hsigm & _).
  destruct (check_args_Return _ _ Hcheck) as (Hs & Hcomp & _).
  assert (Hsp : np_prod (ma_shape (Kinematics.arg_vel a)) = (n * n)%nat)
    by (by rewrite Hs, np_prod_2d).
  unfold wf_args in Hwf.
  destruct Hwf as (Wvel & Wveli & Wvelm & _ & _ & Wsb & Wsbi & Wsbm & Wsig & Wsigi & Wsigm
                   & Wsc & _).
  assert (Hshape : forall s, In (Some s) (Kinematics.companion_shapes a) -> s = [n; n])
    by exact Hcomp.
  unfold Kinematics.companion_shapes in Hshape.
  split; [|split].
  - eapply select_masks_nonpositive; [|exact Hvelm|exact Hveli].
    apply (ingest_opt_masks _ _ _ _ n); [done| | |].
    + intros v [= <-]. done.
    + intros v Hv. rewrite Hv in Wveli, Hshape. split; [done|]. apply Hshape. simpl. tauto.
    + intros m Hm. rewrite Hm in Wvelm, Hshape. split; [done|]. apply Hshape. simpl. tauto.
  - eapply select_masks_nonpositive; [|exact Hsbm|exact Hsbi].
    apply (ingest_opt_masks _ _ _ _ n); [done| | |].
    + intros v Hv. rewrite Hv in Wsb, Hshape. split; [done|]. apply Hshape. simpl. tauto.
    + intros v Hv. rewrite Hv in Wsbi, Hshape. split; [done|]. apply Hshape. simpl. tauto.
    + intros m Hm. rewrite Hm in Wsbm, Hshape. split; [done|]. apply Hshape. simpl. tauto.
  - eapply select_masks_nonpositive; [|exact Hsigm|exact Hsigi].
    destruct (ingest_opt_masks (ma_shape (Kinematics.arg_vel a)) (Kinematics.arg_sig a)
                (Kinematics.arg_sig_ivar a) (Kinematics.arg_sig_mask a) n) as [Hmasks Hlen];
      [done| | | |].
    + intros v Hv. rewrite Hv in Wsig, Hshape. split; [done|]. apply Hshape. simpl. tauto.
    + intros v Hv. rewrite Hv in Wsigi, Hshape. split; [done|]. apply Hshape. simpl. tauto.
    + intros m Hm. rewrite Hm in Wsigm, Hshape. split; [done|]. apply Hshape. simpl. tauto.
    + cbv zeta in Hmasks, Hlen. unfold Kinematics.ingest_sig_corr in Hsc.
      destruct (Kinematics.arg_sig_corr a) as [[d|d m]|] eqn:Hcorr.
      * by injection Hsc as <-.
      * destruct (Kinematics._ingest _ _ _ _).2 as [m0|] eqn:Hm0; [|done].
        injection Hsc as <-. cbn [fst]. apply opt_masks_or; [|done].
        simpl in Hlen. rewrite Hlen. apply (ravel_mask_length d); [done|].
        apply Hshape. simpl. tauto.
      * by injection Hsc as <-.
Qed.

(** After construction a measurement whose inverse variance is not greater
    than zero is masked, for the velocity, the surface brightness and the
    velocity dispersion alike. *)
Theorem init_masks_nonpositive_ivar (a : Kinematics.args) (k : Kinematics.t) :
  wf_args a ->
  Kinematics.__init__ a = Return k ->
  opt_masks_nonpositive (Kinematics.vel_mask k) (Kinematics.vel_ivar k) /\
  opt_masks_nonpositive (Kinematics.sb_mask k) (Kinematics.sb_ivar k) /\
  opt_masks_nonpositive (Kinematics.sig_mask k) (Kinematics.sig_ivar k).
Proof. exact (init_masks_cover_nonpositive a k). Qed.

End Ingest.

(** ** Binning *)

Section BinMeans.
Context `{BeamOps}.
Local Open Scope R_scope.


Lemma bin_total (k : Kinematics.t) (d : ndarray R) :
  shape d = Kinematics.spatial_shape k ->
  length (ravel d) = ncols (Kinematics.bin_transform k) ->
  exists b, Kinematics.bin k d = Return b /\ length b = nrows (Kinematics.bin_transform k).
Proof.
  intros Hs Hl. unfold Kinematics.bin, csr_dot.
  rewrite Hs. unfold shape_eqb. rewrite bool_decide_eq_true_2 by done. simpl.
  rewrite Hl, Nat.eqb_refl. simpl. eexists. split; [reflexivity|].
  by rewrite length_map, length_seq.
Qed.







End BinMeans.

(** ** The bin transform in binary64 *)

Lemma places_zip3 {A} (d : list A) (i j : list nat) :
  length d = length i -> places (zip3 d i j) = zip i j.
Proof.
  revert i j. induction d as [|x d IH]; intros [|y i] [|z j] Hl; simpl in *; try done.
  f_equal. apply IH. lia.
Qed.

Lemma forallb_zip3 {A} (d : list A) (i j : list nat) (m n : nat) :
  length d = length i ->
  forallb (fun e : A * nat * nat => match e with (_, r, c) => Nat.ltb r m && Nat.ltb c n end)
          (zip3 d i j)
  = forallb (fun e : nat * nat => Nat.ltb e.1 m && Nat.ltb e.2 n) (zip i j).
Proof.
  revert i j. induction d as [|x d IH]; intros [|y i] [|z j] Hl; simpl in *; try done.
  f_equal. apply IH. lia.
Qed.

Lemma coo_matrix_agrees (d : list R) (d' : list PrimFloat.float) (i j : list nat) (m n : nat) :
  length d = length i -> length d' = length i ->
  match coo_matrix d i j m n, Float64.coo_matrix d' i j m n with
  | Return bt, Return bt' =>
      nrows bt = Float64.nrows bt' /\ ncols bt = Float64.ncols bt' /\
      places (entries bt) = places (Float64.entries bt')
  | Raise e, Raise e' => e = e'
  | _, _ => False
  end.
Proof.
  intros Hd Hd'. unfold coo_matrix, Float64.coo_matrix.
  rewrite (forallb_zip3 d), (forallb_zip3 d') by done.
  destruct (forallb _ (zip i j)); [|done]. simpl.
  by rewrite !places_zip3.
Qed.

Lemma places_triplets {A} (w : nat -> A) (cells : Z -> list nat) (ids : list (nat * Z)) :
  places (flat_map (fun ib : nat * Z => map (fun j => (w ib.1, ib.1, j)) (cells ib.2)) ids)
  = flat_map (fun ib : nat * Z => map (fun j => (ib.1, j)) (cells ib.2)) ids.
Proof.
  unfold places. induction ids as [|ib ids IH]; simpl; [done|].
  rewrite map_app, IH, map_map. done.
Qed.

Lemma bin_setup_agrees (l : list Z) (ncell : nat) :
  match Kinematics.bin_setup l ncell, Float64.bin_setup l ncell with
  | Return (ids, indx, gi, bi, bt), Return (ids', indx', gi', bi', bt') =>
      ids = ids' /\ indx = indx' /\ gi = gi' /\ bi = bi' /\
      nrows bt = Float64.nrows bt' /\ ncols bt = Float64.ncols bt' /\
      places (entries bt) = places (Float64.entries bt')
  | Raise e, Raise e' => e = e'
  | _, _ => False
  end.
Proof.
  unfold Kinematics.bin_setup, Float64.bin_setup, np_unique.
  set (pre := if existsb _ _ then _ else _).
  destruct pre as [[[[[ids indx] gi] bi] nbin]|e]; cbn [mbind result_bind]; [|done].
  set (w := fun i : nat => (1 / INR (nth i nbin 0%nat))%R).
  set (w' := fun i : nat => PrimFloat.div (Float64.of_nat 1) (Float64.of_nat (nth i nbin 0%nat))).
  set (dij := flat_map _ (enumerate ids)).
  set (dij' := flat_map _ (enumerate ids)).
  assert (Hp : places dij = places dij').
  { unfold dij, dij'.
    rewrite (places_triplets w (np_where_eq l)), (places_triplets w' (np_where_eq l)). done. }
  assert (Hl : length dij = length dij').
  { apply (f_equal length) in Hp. unfold places in Hp. by rewrite !length_map in Hp. }
  pose proof (coo_matrix_agrees (map (fun e => e.1.1) dij) (map (fun e => e.1.1) dij')
                (map (fun e => e.1.2) dij) (map (fun e => e.2) dij) (length ids) ncell) as Hcoo.
  rewrite !length_map in Hcoo. specialize (Hcoo eq_refl (eq_sym Hl)).
  assert (Hi : map (fun e : PrimFloat.float * nat * nat => e.1.2) dij'
               = map (fun e : R * nat * nat => e.1.2) dij).
  { apply (f_equal (map fst)) in Hp. unfold places in Hp. by rewrite !map_map in Hp. }
  assert (Hj : map (fun e : PrimFloat.float * nat * nat => e.2) dij'
               = map (fun e : R * nat * nat => e.2) dij).
  { apply (f_equal (map snd)) in Hp. unfold places in Hp. by rewrite !map_map in Hp. }
  rewrite Hi, Hj.
  destruct dij as [|e0 dij0] eqn:Hd, dij' as [|e0' dij0'] eqn:Hd'; try done.
  rewrite <- Hd in *.
  destruct (coo_matrix _ _ _ _ _) as [bt|e], (Float64.coo_matrix _ _ _ _ _) as [bt'|e'];
    cbn [mbind result_bind]; done.
Qed.

(** The binary64 bookkeeping is the bookkeeping of the constructor: both
    return or raise together, with the same bin ids, index vectors and
    places of the weights. *)
Lemma bin_bookkeeping_agrees (bid : option (ndarray Z)) (ncell : nat) :
  same_bookkeeping (Kinematics.bin_bookkeeping bid ncell) (Float64.bin_bookkeeping bid ncell).
Proof.
  unfold same_bookkeeping, Kinematics.bin_bookkeeping, Float64.bin_bookkeeping.
  pose proof (coo_matrix_agrees (repeat 1%R ncell) (repeat (Float64.of_nat 1) ncell)
                (np_arange ncell) (np_arange ncell) ncell ncell) as Hid.
  unfold np_arange in *. rewrite !repeat_length, length_seq in Hid.
  specialize (Hid eq_refl eq_refl).
  destruct (coo_matrix _ _ _ _ _) as [bt|e], (Float64.coo_matrix _ _ _ _ _) as [bt'|e'];
    cbn [mbind result_bind]; try done.
  destruct bid as [b|]; [|by destruct Hid as (? & ? & ?)].
  pose proof (bin_setup_agrees (ravel b) ncell) as Hs.
  destruct (Kinematics.bin_setup _ _) as [[[[[ids indx] gi] bi] bt1]|e1],
           (Float64.bin_setup _ _) as [[[[[ids' indx'] gi'] bi'] bt1']|e1'];
    cbn [mbind result_bind fst snd]; try done.
  destruct Hs as (-> & -> & -> & -> & ? & ? & ?). done.
Qed.


(** ** Remapping and [border] *)

Section Remap.
Context `{BeamOps}.
Local Open Scope R_scope.

Lemma index_assign_cells {A} (z : A) (ncell : nat) (gi : list nat) (vals : list A) :
  NoDup gi -> Forall (fun g => (g < ncell)%nat) gi -> length vals = length gi ->
  exists out,
    Kinematics.np_index_assign (repeat z ncell) gi vals = Return out /\
    length out = ncell /\
    (forall j g, gi !! j = Some g -> out !! g = vals !! j) /\
    (forall g, (g < ncell)%nat -> ~ In g gi -> out !! g = Some z).
Proof.
  intros Hnd Hgi Hlen. unfold Kinematics.np_index_assign.
  rewrite repeat_length, forallb_lt by done. simpl. rewrite Hlen, Nat.eqb_refl.
  eexists. split; [reflexivity|]. split; [by rewrite scatter_length, repeat_length|]. split.
  - intros j g Hj.
    destruct (lookup_lt_is_Some_2 vals j) as [w Hw]; [rewrite Hlen; by eapply lookup_lt_Some|].
    rewrite Hw. apply scatter_lookup_In; [done|by apply (In_zip_lookup _ _ j)|].
    rewrite repeat_length. rewrite Forall_forall in Hgi. by eapply Hgi, list_elem_of_lookup_2.
  - intros g Hg Hnin. rewrite scatter_lookup_notin by done. by apply lookup_repeat.
Qed.

Lemma fill_cells {A} (z : A) (src : list A) (ncell nb : nat) (gi bi : list nat)
    (bt : csr_matrix) :
  bins_consistent ncell nb gi bi bt -> length src = nb ->
  exists vals out,
    np_take src bi = Return vals /\ length vals = length gi /\
    Kinematics.np_index_assign (repeat z ncell) gi vals = Return out /\
    length out = ncell /\
    (forall j g r, gi !! j = Some g -> bi !! j = Some r -> out !! g = src !! r) /\
    (forall g, (g < ncell)%nat -> ~ In g gi -> out !! g = Some z).
Proof.
  intros (_ & _ & Hnd & Hgi & Hlen & Hbi & _) Hsrc.
  destruct (take_total src bi) as [vals Hvals]; [by rewrite Hsrc|].
  pose proof (take_Return _ _ _ Hvals) as [Hlv Hval].
  destruct (index_assign_cells z ncell gi vals Hnd Hgi) as (out & Hout & Hlo & Hfill & Hrest);
    [lia|].
  exists vals, out. repeat split; try done; [lia|].
  intros j g r Hj Hr. rewrite (Hfill j g Hj). by destruct (Hval j r Hr).
Qed.

Lemma unravel_cells (ncell nb : nat) (gi bi : list nat) (bt : csr_matrix) (sp : list nat) :
  bins_consistent ncell nb gi bi bt -> np_prod sp = ncell ->
  Kinematics.np_unravel_index gi sp = Return gi.
Proof.
  intros (_ & _ & _ & Hgi & _) Hsp. unfold Kinematics.np_unravel_index.
  rewrite Hsp, forallb_lt by done. done.
Qed.

(** [remap(v, masked)] of a per-measurement vector [v]: every cell of
    [grid_indx] receives the value of its bin; with [masked=True] these cells
    are unmasked and all other cells are masked; with [masked=False] all other
    cells are zero. *)
Theorem remap_data_fills_and_masks (a : Kinematics.args) (k : Kinematics.t)
    (v : ndarray R) (vk : list R) :
  wf_args a ->
  Kinematics.__init__ a = Return k ->
  Kinematics.vel k = Some vk -> shape v = [length vk] -> wf_ndarray v ->
  let ncell := np_prod (Kinematics.spatial_shape k) in
  exists img m img0,
    Kinematics.remap k (Kinematics.RemapData v) true = Return (Kinematics.RemapMasked img m) /\
    Kinematics.remap k (Kinematics.RemapData v) false = Return (Kinematics.RemapArray img0) /\
    shape img = Kinematics.spatial_shape k /\ shape m = Kinematics.spatial_shape k /\
    shape img0 = Kinematics.spatial_shape k /\
    length (ravel img) = ncell /\ length (ravel m) = ncell /\ length (ravel img0) = ncell /\
    (forall j g r, Kinematics.grid_indx k !! j = Some g -> Kinematics.bin_inverse k !! j = Some r ->
       ravel img !! g = ravel v !! r /\ ravel img0 !! g = ravel v !! r /\
       ravel m !! g = Some false) /\
    (forall g, (g < ncell)%nat -> ~ In g (Kinematics.grid_indx k) ->
       ravel m !! g = Some true /\ ravel img0 !! g = Some 0).
Proof.
  intros Hwf Hi Hvk Hshape Hv. cbv zeta.
  destruct (init_bins_consistent a k Hwf Hi) as (vk' & Hvk' & Hcons).
  rewrite Hvk in Hvk'. injection Hvk' as <-.
  assert (Hlv : length (ravel v) = length vk).
  { rewrite (wf_shape_length v _ Hv Hshape). simpl. lia. }
  destruct (fill_cells 0 (ravel v) _ _ _ _ _ Hcons Hlv)
    as (vals & out & Hvals & Hlvals & Hout & Hlo & Hfill & Hrest).
  pose proof Hcons as (_ & _ & Hnd & Hgi & _).
  destruct (index_assign_cells true (np_prod (Kinematics.spatial_shape k))
              (Kinematics.grid_indx k) (repeat false (length vals)) Hnd Hgi)
    as (mo & Hmo & Hlm & Hmfill & Hmrest); [by rewrite repeat_length|].
  exists (NDArray (Kinematics.spatial_shape k) out), (NDArray (Kinematics.spatial_shape k) mo),
         (NDArray (Kinematics.spatial_shape k) out).
  assert (Hremap : forall masked, Kinematics.remap k (Kinematics.RemapData v) masked
            = if masked then Return (Kinematics.RemapMasked
                                       (NDArray (Kinematics.spatial_shape k) out)
                                       (NDArray (Kinematics.spatial_shape k) mo))
              else Return (Kinematics.RemapArray (NDArray (Kinematics.spatial_shape k) out))).
  { intros masked. unfold Kinematics.remap. rewrite Hvk, Hshape.
    unfold shape_eqb. rewrite bool_decide_eq_true_2 by done. cbn [negb raise_if mbind result_bind].
    rewrite (unravel_cells _ _ _ _ _ _ Hcons eq_refl). cbn [mbind result_bind].
    rewrite Hvals. cbn [mbind result_bind]. rewrite Hout. cbn [mbind result_bind].
    destruct masked; [|done]. rewrite Hmo. done. }
  split; [apply (Hremap true)|]. split; [apply (Hremap false)|].
  simpl. repeat split; try done.
  - by eapply Hfill.
  - by eapply Hfill.
  - rewrite (Hmfill j g) by done. apply lookup_repeat. rewrite Hlvals. by eapply lookup_lt_Some.
  - by apply Hmrest.
  - by apply Hrest.
Qed.

Lemma getattr_vector_length (a : Kinematics.args) (k : Kinematics.t) (name : string)
    (v : list R) :
  wf_args a -> Kinematics.__init__ a = Return k ->
  Kinematics.getattr_vector k name = Some (Some v) ->
  length v = nrows (Kinematics.bin_transform k).
Proof.
  intros Hwf Hi.
  destruct (init_vector_lengths _ _ Hwf Hi)
    as (Hx & Hy & Hsb & Hsbi & _ & (vk & Hvk & Hlvk) & Hveli & _ & Hsig & Hsigi & _).
  unfold Kinematics.getattr_vector.
  repeat (destruct (String.eqb name _);
          [intros [= Heq]; try rewrite Heq in *; simplify_eq/=; done|]).
  done.
Qed.

Lemma getattr_mask_length (a : Kinematics.args) (k : Kinematics.t) (name : string)
    (mk : list bool) :
  wf_args a -> Kinematics.__init__ a = Return k ->
  Kinematics.getattr_mask k name = Some mk ->
  length mk = nrows (Kinematics.bin_transform k).
Proof.
  intros Hwf Hi.
  destruct (init_vector_lengths _ _ Hwf Hi)
    as (_ & _ & _ & _ & Hsbm & _ & _ & (m & Hm & Hlm) & _ & _ & Hsigm & _).
  unfold Kinematics.getattr_mask.
  repeat (destruct (String.eqb name _);
          [intros Heq; try rewrite Heq in *; simplify_eq/=; done|]).
  done.
Qed.

Lemma remap_attr_cells (a : Kinematics.args) (k : Kinematics.t)
    (name : string) (v : list R) (masked : bool) :
  wf_args a ->
  Kinematics.__init__ a = Return k ->
  Kinematics.getattr_vector k name = Some (Some v) ->
  let ncell := np_prod (Kinematics.spatial_shape k) in
  exists img,
    shape img = Kinematics.spatial_shape k /\ length (ravel img) = ncell /\
    (forall j g r, Kinematics.grid_indx k !! j = Some g -> Kinematics.bin_inverse k !! j = Some r ->
       ravel img !! g = v !! r) /\
    (forall g, (g < ncell)%nat -> ~ In g (Kinematics.grid_indx k) -> ravel img !! g = Some 0) /\
    match (if masked then Kinematics.getattr_mask k name else None) with
    | None => Kinematics.remap k (Kinematics.RemapAttr name) masked
              = Return (Kinematics.RemapArray img)
    | Some mk =>
        exists m,
          Kinematics.remap k (Kinematics.RemapAttr name) masked
          = Return (Kinematics.RemapMasked img m) /\
          shape m = Kinematics.spatial_shape k /\ length (ravel m) = ncell /\
          (forall j g r, Kinematics.grid_indx k !! j = Some g ->
             Kinematics.bin_inverse k !! j = Some r -> ravel m !! g = mk !! r) /\
          (forall g, (g < ncell)%nat -> ~ In g (Kinematics.grid_indx k) ->
             ravel m !! g = Some true)
    end.
Proof.
  intros Hwf Hi Hget. cbv zeta.
  destruct (init_bins_consistent a k Hwf Hi) as (vk & Hvk & Hcons).
  pose proof Hcons as (Hrows & _).
  pose proof (getattr_vector_length _ _ _ _ Hwf Hi Hget) as Hlv. rewrite Hrows in Hlv.
  destruct (fill_cells 0 v _ _ _ _ _ Hcons Hlv)
    as (vals & out & Hvals & Hlvals & Hout & Hlo & Hfill & Hrest).
  exists (NDArray (Kinematics.spatial_shape k) out). simpl.
  do 4 (split; [done|]).
  unfold Kinematics.remap. rewrite Hget.
  rewrite (unravel_cells _ _ _ _ _ _ Hcons eq_refl). cbn [mbind result_bind].
  rewrite Hvals. cbn [mbind result_bind]. rewrite Hout. cbn [mbind result_bind].
  destruct (if masked then Kinematics.getattr_mask k name else None) as [mk|] eqn:Hmk; [|done].
  assert (Hgm : Kinematics.getattr_mask k name = Some mk) by (by destruct masked).
  pose proof (getattr_mask_length _ _ _ _ Hwf Hi Hgm) as Hlm. rewrite Hrows in Hlm.
  destruct (fill_cells true mk _ _ _ _ _ Hcons Hlm)
    as (mvals & mo & Hmvals & Hlmvals & Hmo & Hlmo & Hmfill & Hmrest).
  exists (NDArray (Kinematics.spatial_shape k) mo).
  rewrite Hmvals. cbn [mbind result_bind]. rewrite Hmo. done.
Qed.

(** [remap(name, masked)] of an attribute that is not [None]: every cell of
    [grid_indx] receives the value of its bin and all other cells are zero;
    when [masked] is set and the attribute has a mask, a cell of [grid_indx]
    has the mask of its bin and all other cells are masked. *)
Theorem remap_attribute_fills_and_masks (a : Kinematics.args) (k : Kinematics.t)
    (name : string) (v : list R) (masked : bool) :
  wf_args a ->
  Kinematics.__init__ a = Return k ->
  Kinematics.getattr_vector k name = Some (Some v) ->
  let ncell := np_prod (Kinematics.spatial_shape k) in
  exists img,
    shape img = Kinematics.spatial_shape k /\ length (ravel img) = ncell /\
    (forall j g r, Kinematics.grid_indx k !! j = Some g -> Kinematics.bin_inverse k !! j = Some r ->
       ravel img !! g = v !! r) /\
    (forall g, (g < ncell)%nat -> ~ In g (Kinematics.grid_indx k) -> ravel img !! g = Some 0) /\
    match (if masked then Kinematics.getattr_mask k name else None) with
    | None => Kinematics.remap k (Kinematics.RemapAttr name) masked
              = Return (Kinematics.RemapArray img)
    | Some mk =>
        exists m,
          Kinematics.remap k (Kinematics.RemapAttr name) masked
          = Return (Kinematics.RemapMasked img m) /\
          shape m = Kinematics.spatial_shape k /\ length (ravel m) = ncell /\
          (forall j g r, Kinematics.grid_indx k !! j = Some g ->
             Kinematics.bin_inverse k !! j = Some r -> ravel m !! g = mk !! r) /\
          (forall g, (g < ncell)%nat -> ~ In g (Kinematics.grid_indx k) ->
             ravel m !! g = Some true)
    end.
Proof. exact (remap_attr_cells a k name v masked). Qed.

Lemma ma_array_same_length {A} (d : list A) (m : list bool) :
  length m = length d -> Kinematics.np_ma_array d m = Return (d, m).
Proof. intros Hl. unfold Kinematics.np_ma_array. by rewrite Hl, Nat.eqb_refl. Qed.

Lemma ma_opt_same_length {A} (o : option (list A)) (m : list bool) :
  opt_length o (length m) ->
  Kinematics.ma_opt o m = Return ((fun d => (d, m)) <$> o).
Proof.
  destruct o as [d|]; simpl; [|done]. intros Hl. by rewrite ma_array_same_length.
Qed.

(** [border()] raises when the instance was built without [bordermask];
    otherwise it returns, and every vector that is not [None] has become a
    masked array of the same data with [bordermask] as its mask. *)
Theorem border_masks_every_vector (a : Kinematics.args) (k : Kinematics.t) :
  wf_args a ->
  Kinematics.__init__ a = Return k ->
  match Kinematics.bordermask k with
  | None => Kinematics.arg_bordermask a = None /\
            Kinematics.border k = Raise (ValueError "Must set bordermask first")
  | Some m =>
      Kinematics.border k
      = Return {| Kinematics.b_x := (Kinematics.x k, m); Kinematics.b_y := (Kinematics.y k, m);
                  Kinematics.b_sb := (fun d => (d, m)) <$> Kinematics.sb k;
                  Kinematics.b_sb_ivar := (fun d => (d, m)) <$> Kinematics.sb_ivar k;
                  Kinematics.b_sb_mask := (fun d => (d, m)) <$> Kinematics.sb_mask k;
                  Kinematics.b_vel := (fun d => (d, m)) <$> Kinematics.vel k;
                  Kinematics.b_vel_ivar := (fun d => (d, m)) <$> Kinematics.vel_ivar k;
                  Kinematics.b_vel_mask := (fun d => (d, m)) <$> Kinematics.vel_mask k;
                  Kinematics.b_sig := (fun d => (d, m)) <$> Kinematics.sig k;
                  Kinematics.b_sig_ivar := (fun d => (d, m)) <$> Kinematics.sig_ivar k;
                  Kinematics.b_sig_mask := (fun d => (d, m)) <$> Kinematics.sig_mask k |}
  end.
Proof.
  intros Hwf Hi.
  destruct (init_vector_lengths _ _ Hwf Hi)
    as (Hx & Hy & Hsb & Hsbi & Hsbm & (vk & Hvk & Hlvk) & Hveli & (vm & Hvm & Hlvm)
        & Hsig & Hsigi & Hsigm & Hbm & _).
  destruct (init_fields _ _ Hi) as (_ & _ & indx & _ & _ & _ & _ & _ & _ & _ & _ & _ & _ & _
    & _ & _ & _ & Hsel & _).
  unfold Kinematics.border.
  destruct (Kinematics.bordermask k) as [m|] eqn:Hm.
  - simpl in Hbm.
    rewrite !ma_array_same_length by lia. cbn [mbind result_bind].
    rewrite !ma_opt_same_length; first done.
    all: rewrite ?Hbm; try done.
    + by rewrite Hvk.
    + by rewrite Hvm.
  - split; [|done]. apply select_None_iff in Hsel. destruct Hsel as [Hn _].
    specialize (Hn eq_refl). by destruct (Kinematics.arg_bordermask a).
Qed.

End Remap.

(** ** When the constructor returns *)

Section Success.
Context `{BeamOps}.
Local Open Scope R_scope.

Lemma kept_ids_nonempty (l : list Z) (z : Z) :
  In z l -> z <> (-1)%Z ->
  (if existsb (fun b => (b =? -1)%Z) (unique_values l) then tail (unique_values l)
   else unique_values l) <> [].
Proof.
  intros Hz Hne. apply unique_values_In in Hz.
  destruct (existsb _ _) eqn:Hex.
  - apply existsb_minus_one in Hex.
    destruct (unique_values l) as [|h [|h' t]]; [done| |done].
    destruct Hz as [->|[]]. destruct Hex as [->|[]]. done.
  - intros Hnil. by rewrite Hnil in Hz.
Qed.

Lemma bin_setup_total (l : list Z) (z : Z) :
  In z l -> z <> (-1)%Z ->
  exists ids indx gi bi bt,
    Kinematics.bin_setup l (length l) = Return (ids, indx, gi, bi, bt).
Proof.
  intros Hz Hne. pose proof (kept_ids_nonempty l z Hz Hne) as Hkept.
  unfold Kinematics.bin_setup, np_unique.
  assert (Hgen : forall (ids : list Z) (indx gi bi nbin : list nat),
    ids <> [] -> (forall b, In b ids -> In b l) ->
    exists bt : csr_matrix,
      match flat_map (fun ib : nat * Z =>
               map (fun j => ((1 / INR (nth ib.1 nbin 0%nat))%R, ib.1, j))
                   (np_where_eq l ib.2)) (enumerate ids) with
      | [] => Raise (ValueError "not enough values to unpack (expected 3, got 0)")
      | _ :: _ =>
          let dij := flat_map (fun ib : nat * Z =>
               map (fun j => ((1 / INR (nth ib.1 nbin 0%nat))%R, ib.1, j))
                   (np_where_eq l ib.2)) (enumerate ids) in
          bt ← coo_matrix (map (fun e => e.1.1) dij) (map (fun e => e.1.2) dij)
                          (map (fun e => e.2) dij) (length ids) (length l);
          Return (ids, indx, gi, bi, bt)
      end = Return (ids, indx, gi, bi, bt)).
  { intros ids indx gi bi nbin Hids Hsub.
    set (dij := flat_map _ (enumerate ids)).
    assert (Hd : dij <> []).
    { destruct ids as [|id0 ids']; [done|]. unfold dij, enumerate. simpl.
      assert (Hin : In id0 l) by (apply Hsub; by left).
      apply count_of_pos in Hin. unfold np_where_eq at 1.
      pose proof (where_eq_from_length 0 l id0) as Hl.
      destruct (where_eq_from 0 l id0); [simpl in Hl; lia|done]. }
    destruct dij as [|e0 dij'] eqn:Hdij; [done|]. rewrite <- Hdij. cbv zeta.
    unfold coo_matrix. rewrite zip3_maps.
    assert (Hall : forallb (fun e : R * nat * nat =>
                      match e with (_, r, c) => Nat.ltb r (length ids) && Nat.ltb c (length l) end)
                      dij = true).
    { apply forallb_forall. intros [[w r] c] Hin. unfold dij in Hin.
      apply in_flat_map in Hin as ([i b] & Hib & Hin).
      apply in_map_iff in Hin as (j & [= <- <- <-] & Hj). simpl.
      unfold enumerate in Hib. apply In_zip_inv in Hib as (m & Hm & _).
      apply lookup_seq in Hm as [-> Hm].
      apply np_where_eq_spec, lookup_lt_Some in Hj.
      apply andb_true_iff. split; apply Nat.ltb_lt; [done|lia]. }
    rewrite Hall. eexists. reflexivity. }
  destruct (existsb _ (unique_values l)) eqn:Hex.
  - unfold np_mask_select, np_arange. rewrite !length_map, length_seq, Nat.eqb_refl.
    cbn [mbind result_bind].
    edestruct Hgen as [bt Hbt]; [exact Hkept| |].
    + intros b Hb%In_tail. by apply unique_values_In.
    + do 5 eexists. exact Hbt.
  - cbn [mbind result_bind].
    edestruct Hgen as [bt Hbt]; [exact Hkept| |].
    + intros b Hb. by apply unique_values_In.
    + do 5 eexists. exact Hbt.
Qed.

Lemma select_total {A} (o : option (list A)) (indx : list nat) (n : nat) :
  opt_length o n -> Forall (fun i => (i < n)%nat) indx ->
  exists r, Kinematics.select o indx = Return r.
Proof.
  destruct o as [l|]; simpl; [|by eexists].
  intros <- Hall. destruct (take_total l indx Hall) as [r ->]. by eexists.
Qed.

Lemma ingest_lengths (sp : list nat) (d iv : option marray) (mk : option (ndarray bool))
    (n : nat) :
  np_prod sp = (n * n)%nat ->
  (forall v, d = Some v -> wf_marray v /\ ma_shape v = [n; n]) ->
  (forall v, iv = Some v -> wf_marray v /\ ma_shape v = [n; n]) ->
  (forall m, mk = Some m -> wf_ndarray m /\ shape m = [n; n]) ->
  let r := Kinematics._ingest sp d iv mk in
  opt_length r.1.1 (n * n) /\ opt_length r.1.2 (n * n) /\ opt_length r.2 (n * n).
Proof.
  intros Hsp Hd Hiv Hmk.
  destruct (ingest_opt_masks sp d iv mk n Hsp Hd Hiv Hmk) as [_ Hm].
  cbv zeta in *. split; [|split; [|done]].
  - destruct d as [d|]; [|done]. destruct (Hd d eq_refl) as [Hw Hs].
    destruct (wf_ma_length d n Hw Hs) as [Hl _]. by destruct iv.
  - destruct d as [d|]; [|done]. destruct iv as [iv|]; [|done].
    destruct (Hiv iv eq_refl) as [Hw Hs]. by destruct (wf_ma_length iv n Hw Hs) as [Hl _].
Qed.

(** The constructor returns whenever its arguments are well formed and pass
    the validation, a masked [sig_corr] comes with [sig], the bin-id map (if
    any) holds an id other than [-1], and [bordermask] -- whose shape the
    validation does not look at -- has the shape of [vel]. *)
Theorem init_succeeds (a : Kinematics.args) (n : nat) :
  wf_args a ->
  Kinematics.check_args a = Return n ->
  (forall d m, Kinematics.arg_sig_corr a = Some (MaskedArray d m) ->
               Kinematics.arg_sig a <> None) ->
  (forall b, Kinematics.arg_binid a = Some b -> exists z, In z (ravel b) /\ z <> (-1)%Z) ->
  (forall bm, Kinematics.arg_bordermask a = Some bm -> shape bm = [n; n]) ->
  exists k, Kinematics.__init__ a = Return k.
Proof.
  intros Hwf Hcheck Hcorr Hbin Hbm.
  destruct (check_args_Return _ _ Hcheck) as (Hs & Hcomp & Hxy & _).
  assert (Hsp : np_prod (ma_shape (Kinematics.arg_vel a)) = (n * n)%nat)
    by (by rewrite Hs, np_prod_2d).
  pose proof (binid_length _ _ Hwf Hcheck) as Hbl.
  pose proof Hwf as (Wvel & Wveli & Wvelm & Wx & Wy & Wsb & Wsbi & Wsbm & Wsig & Wsigi & Wsigm
                     & Wsc & _ & _ & _ & _ & _ & Wbm).
  assert (Hshape : forall s, In (Some s) (Kinematics.companion_shapes a) -> s = [n; n])
    by exact Hcomp.
  unfold Kinematics.companion_shapes in Hshape.
  destruct (ingest_lengths (ma_shape (Kinematics.arg_vel a)) (Kinematics.arg_sb a)
              (Kinematics.arg_sb_ivar a) (Kinematics.arg_sb_mask a) n) as (Lsb & Lsbi & Lsbm);
    [done| | | |].
  { intros v Hv. rewrite Hv in Wsb, Hshape. split; [done|]. apply Hshape. simpl. tauto. }
  { intros v Hv. rewrite Hv in Wsbi, Hshape. split; [done|]. apply Hshape. simpl. tauto. }
  { intros m Hm. rewrite Hm in Wsbm, Hshape. split; [done|]. apply Hshape. simpl. tauto. }
  destruct (ingest_lengths (ma_shape (Kinematics.arg_vel a)) (Some (Kinematics.arg_vel a))
              (Kinematics.arg_vel_ivar a) (Kinematics.arg_vel_mask a) n) as (Lvel & Lveli & Lvelm);
    [done| | | |].
  { intros v [= <-]. done. }
  { intros v Hv. rewrite Hv in Wveli, Hshape. split; [done|]. apply Hshape. simpl. tauto. }
  { intros m Hm. rewrite Hm in Wvelm, Hshape. split; [done|]. apply Hshape. simpl. tauto. }
  destruct (ingest_lengths (ma_shape (Kinematics.arg_vel a)) (Kinematics.arg_sig a)
              (Kinematics.arg_sig_ivar a) (Kinematics.arg_sig_mask a) n) as (Lsig & Lsigi & Lsigm);
    [done| | | |].
  { intros v Hv. rewrite Hv in Wsig, Hshape. split; [done|]. apply Hshape. simpl. tauto. }
  { intros v Hv. rewrite Hv in Wsigi, Hshape. split; [done|]. apply Hshape. simpl. tauto. }
  { intros m Hm. rewrite Hm in Wsigm, Hshape. split; [done|]. apply Hshape. simpl. tauto. }
  cbv zeta in *.
  (* sig_corr *)
  assert (Hsc : exists sc,
    Kinematics.ingest_sig_corr
      (Kinematics._ingest (ma_shape (Kinematics.arg_vel a)) (Kinematics.arg_sig a)
         (Kinematics.arg_sig_ivar a) (Kinematics.arg_sig_mask a)).2
      (Kinematics.arg_sig_corr a) = Return sc /\ opt_length sc.1 (n * n)).
  { unfold Kinematics.ingest_sig_corr.
    destruct (Kinematics.arg_sig_corr a) as [[d|d m]|] eqn:Hsc; [by eexists| |by eexists].
    specialize (Hcorr d m eq_refl).
    destruct (Kinematics.arg_sig a) as [sg|] eqn:Hsg; [|done].
    destruct (Kinematics._ingest _ (Some sg) _ _).2 as [m0|] eqn:Hm0.
    - eexists. split; [reflexivity|]. simpl. simpl in Lsigm.
      rewrite mask_or_length; [done|]. rewrite Lsigm.
      apply (ravel_mask_length d); [done|]. apply Hshape. simpl. tauto.
    - unfold Kinematics._ingest in Hm0. by destruct (Kinematics.arg_sig_ivar a). }
  destruct Hsc as (sc & Hsc & Lsc).
  (* bins *)
  assert (Hbk : exists ids indx gi bi bt,
    Kinematics.bin_bookkeeping (Kinematics.arg_binid a) (np_prod (ma_shape (Kinematics.arg_vel a)))
    = Return (ids, indx, gi, bi, bt) /\ Forall (fun i => (i < n * n)%nat) indx).
  { unfold Kinematics.bin_bookkeeping. rewrite ident_coo_Return. cbn [mbind result_bind].
    destruct (Kinematics.arg_binid a) as [b|] eqn:Hb.
    - destruct (Hbin b eq_refl) as (z & Hz & Hne). rewrite <- Hbl.
      destruct (bin_setup_total (ravel b) z Hz Hne) as (ids & indx & gi & bi & bt & Hset).
      rewrite Hset. cbn [mbind result_bind fst snd]. do 5 eexists. split; [reflexivity|].
      apply bin_setup_Return in Hset as (Hu & _ & -> & _). cbv zeta in Hu.
      rewrite <- Hsp, <- Hbl. apply Forall_forall. intros i Hi%list_elem_of_In.
      apply in_map_iff in Hi as (id & <- & Hid). apply index_of_lt.
      apply unique_values_In. subst ids. destruct (existsb _ _); [by apply In_tail|done].
    - do 5 eexists. split; [reflexivity|]. rewrite Hsp. apply seq_lt_Forall. }
  destruct Hbk as (ids & indx & gi & bi & bt & Hbk & Hindx).
  (* coordinates *)
  assert (Hcoord : length (Kinematics.coordinates a n).1 = (n * n)%nat /\
                   length (Kinematics.coordinates a n).2 = (n * n)%nat).
  { unfold Kinematics.coordinates.
    destruct (Kinematics.arg_x a) as [gx|] eqn:Hgx, (Kinematics.arg_y a) as [gy|] eqn:Hgy.
    - simpl. simpl in Wx, Wy.
      rewrite Wx, Wy, (Hshape (shape gx)), (Hshape (shape gy)) by (simpl; tauto).
      by rewrite np_prod_2d.
    - cbn [fst snd Kinematics.astype_float ravel]. rewrite !length_map.
      apply default_grid_length.
    - cbn [fst snd Kinematics.astype_float ravel]. rewrite !length_map.
      apply default_grid_length.
    - cbn [fst snd Kinematics.astype_float ravel]. rewrite !length_map.
      apply default_grid_length. }
  destruct Hcoord as [Lx Ly].
  destruct (take_total (Kinematics.coordinates a n).1 indx) as [x1 Hx1]; [by rewrite Lx|].
  destruct (take_total (Kinematics.coordinates a n).2 indx) as [y1 Hy1]; [by rewrite Ly|].
  destruct (select_total _ indx _ Lsb Hindx) as [sb1 Hsb1].
  destruct (select_total _ indx _ Lsbi Hindx) as [sbi1 Hsbi1].
  destruct (select_total _ indx _ Lsbm Hindx) as [sbm1 Hsbm1].
  destruct (select_total _ indx _ Lvel Hindx) as [vel1 Hvel1].
  destruct (select_total _ indx _ Lveli Hindx) as [veli1 Hveli1].
  destruct (select_total _ indx _ Lvelm Hindx) as [velm1 Hvelm1].
  destruct (select_total _ indx _ Lsig Hindx) as [sig1 Hsig1].
  destruct (select_total _ indx _ Lsigi Hindx) as [sigi1 Hsigi1].
  destruct (select_total _ indx _ Lsc Hindx) as [sigm1 Hsigm1].
  destruct (select_total ((fun b => ravel (Kinematics.astype_bool b)) <$> Kinematics.arg_bordermask a)
              indx (n * n)) as [bm1 Hbm1]; [|done|].
  { destruct (Kinematics.arg_bordermask a) as [bm|] eqn:Hb; [|done]. simpl.
    rewrite length_map. simpl in Wbm. by rewrite Wbm, (Hbm bm eq_refl), np_prod_2d. }
  unfold Kinematics.__init__.
  rewrite Hcheck. cbn [mbind result_bind]. rewrite Hsc. cbn [mbind result_bind].
  rewrite Hbk. cbn [mbind result_bind fst snd].
  rewrite Hx1. cbn [mbind result_bind]. rewrite Hy1. cbn [mbind result_bind].
  rewrite Hsb1. cbn [mbind result_bind]. rewrite Hsbi1. cbn [mbind result_bind].
  rewrite Hsbm1. cbn [mbind result_bind]. rewrite Hvel1. cbn [mbind result_bind].
  rewrite Hveli1. cbn [mbind result_bind]. rewrite Hvelm1. cbn [mbind result_bind].
  rewrite Hsig1. cbn [mbind result_bind]. rewrite Hsigi1. cbn [mbind result_bind].
  rewrite Hsigm1. cbn [mbind result_bind]. rewrite Hbm1. cbn [mbind result_bind].
  eexists. reflexivity.
Qed.

End Success.

(** ** The bisymmetric model: parameters and fit *)

Section Bisym.
Context `{FitErrors} `{Geometry}.
Local Open Scope R_scope.

Lemma py_slice_length {A} (lo hi : nat) (l : list A) :
  (lo <= hi)%nat -> (hi <= length l)%nat -> length (py_slice lo hi l) = (hi - lo)%nat.
Proof. intros Hle Hhi. unfold py_slice. rewrite length_take, length_drop. lia. Qed.

Lemma py_slice_app {A} (lo mid hi : nat) (l : list A) :
  (lo <= mid)%nat -> (mid <= hi)%nat ->
  py_slice lo mid l ++ py_slice mid hi l = py_slice lo hi l.
Proof.
  intros Hlo Hhi. unfold py_slice.
  replace (drop mid l) with (drop (mid - lo) (drop lo l))
    by (rewrite drop_drop; f_equal; lia).
  rewrite take_take_drop. f_equal. lia.
Qed.

Lemma py_slice_all {A} (l : list A) : py_slice 0 (length l) l = l.
Proof. unfold py_slice. rewrite drop_0, Nat.sub_0_r. apply firstn_all. Qed.

Lemma bisym_init_par_Return (p0 : option (list R)) (fix_ : option (list bool))
    (s s' : BisymmetricDisk.t) :
  BisymmetricDisk._init_par p0 fix_ s = (Return tt, s') ->
  let _p0 := match p0 with None => BisymmetricDisk.guess_par s | Some p => p end in
  let _free := match fix_ with
               | None => repeat true (BisymmetricDisk.np s)
               | Some f => map negb f
               end in
  length _p0 = BisymmetricDisk.np s /\ length _free = BisymmetricDisk.np s /\
  s' = BisymmetricDisk.set_free _free (count_true _free)
         (BisymmetricDisk.set_par_err None (BisymmetricDisk.set_par _p0 s)).
Proof.
  unfold BisymmetricDisk._init_par. intros Hi. cbv zeta.
  py_inv Hi as s0 s1 Hget. apply py_get_Return in Hget as [-> ->].
  py_inv Hi as u1 s1 Hlen. apply py_lift_Return in Hlen as [Hlen ->].
  apply raise_if_Return, negb_false_iff, Nat.eqb_eq in Hlen.
  py_inv Hi as u2 s2 Hm1. apply py_modify_Return in Hm1 as ->.
  py_inv Hi as u3 s3 Hm2. apply py_modify_Return in Hm2 as ->.
  py_inv Hi as u4 s4 Hfl. apply py_lift_Return in Hfl as [Hfl ->].
  apply raise_if_Return, negb_false_iff, Nat.eqb_eq in Hfl.
  apply py_modify_Return in Hi as ->. done.
Qed.

(** After [_init_par] the blocks returned by [base_par()], [vt_par()],
    [v2t_par()], [v2r_par()] and [dc_par()] partition [par]: six base
    parameters, then one block per curve with as many entries as the curve
    has parameters; [dc_par()] is [None] without a dispersion curve. *)
Theorem bisym_par_blocks_partition (vt0 v2t0 v2r0 : Curve1D) (dc0 : option Curve1D)
    (p0 : option (list R)) (fix_ : option (list bool)) (s : BisymmetricDisk.t) :
  BisymmetricDisk._init_par p0 fix_ (BisymmetricDisk.__init__ vt0 v2t0 v2r0 dc0)
  = (Return tt, s) ->
  exists b t t2 r2,
    BisymmetricDisk.base_par false s = Some b /\ BisymmetricDisk.vt_par false s = Some t /\
    BisymmetricDisk.v2t_par false s = Some t2 /\ BisymmetricDisk.v2r_par false s = Some r2 /\
    length b = 6%nat /\ length t = curve_np vt0 /\ length t2 = curve_np v2t0 /\
    length r2 = curve_np v2r0 /\
    match dc0 with
    | None => BisymmetricDisk.dc_par false s = Return None /\
              BisymmetricDisk.par s = b ++ t ++ t2 ++ r2
    | Some d => exists dp, BisymmetricDisk.dc_par false s = Return (Some dp) /\
                  length dp = curve_np d /\
                  BisymmetricDisk.par s = b ++ t ++ t2 ++ r2 ++ dp
    end.
Proof.
  intros Hi. apply bisym_init_par_Return in Hi as (Hlen & _ & ->). cbv zeta in Hlen.
  set (p := match p0 with
            | None => BisymmetricDisk.guess_par (BisymmetricDisk.__init__ vt0 v2t0 v2r0 dc0)
            | Some p => p
            end) in *.
  unfold BisymmetricDisk.base_par, BisymmetricDisk.vt_par, BisymmetricDisk.v2t_par,
    BisymmetricDisk.v2r_par, BisymmetricDisk.dc_par, BisymmetricDisk._dc_slice,
    BisymmetricDisk._base_slice, BisymmetricDisk._vt_slice, BisymmetricDisk._v2t_slice,
    BisymmetricDisk._v2r_slice, BisymmetricDisk.par_or_err.
  simpl in *.
  do 4 eexists. do 4 (split; [reflexivity|]).
  rewrite !py_slice_length by (destruct dc0; lia).
  do 4 (split; [lia|]).
  destruct dc0 as [d|]; simpl.
  - eexists. split; [reflexivity|]. rewrite py_slice_length by lia. split; [lia|].
    rewrite !py_slice_app by lia. rewrite <- (py_slice_all p) at 1. f_equal. lia.
  - split; [done|].
    rewrite !py_slice_app by lia. rewrite <- (py_slice_all p) at 1. f_equal. lia.
Qed.

Lemma bisym_guess_length (vt0 v2t0 v2r0 : Curve1D) (dc0 : option Curve1D) :
  length (BisymmetricDisk.guess_par_of vt0 v2t0 v2r0 dc0)
  = (6 + length (curve_guess_par vt0) + length (curve_guess_par vt0)
     + length (curve_guess_par v2t0) + length (curve_guess_par v2r0)
     + match dc0 with None => 0 | Some d => length (curve_guess_par d) end)%nat.
Proof.
  unfold BisymmetricDisk.guess_par_of. destruct dc0; rewrite ?length_app; simpl;
    rewrite ?length_app; lia.
Qed.

Section BisymFit.
Context `{!Optimizer BisymmetricDisk.t}.

(** [BisymmetricDisk.guess_par] concatenates the guess of the tangential
    curve twice.  For curves whose guesses have as many entries as they have
    parameters, the [par] of a new model is longer than [np] by [vt.np], and
    [lsq_fit] without [p0] raises 'Incorrect number of model parameters.'
    and leaves the model as it was. *)
Theorem bisym_default_guess_is_rejected (vt0 v2t0 v2r0 : Curve1D) (dc0 : option Curve1D)
    (k : Kinematics.t) (sb_wgt : bool) (fix_ : option (list bool)) (lb ub : option (list R))
    (scatter_ : option (list R)) (verbose : Z) (assume_posdef_covar ignore_covar : bool) :
  length (curve_guess_par vt0) = curve_np vt0 ->
  length (curve_guess_par v2t0) = curve_np v2t0 ->
  length (curve_guess_par v2r0) = curve_np v2r0 ->
  match dc0 with Some d => length (curve_guess_par d) = curve_np d | None => True end ->
  (0 < curve_np vt0)%nat ->
  let s := BisymmetricDisk.__init__ vt0 v2t0 v2r0 dc0 in
  length (BisymmetricDisk.par s) = (BisymmetricDisk.np s + curve_np vt0)%nat /\
  BisymmetricDisk.lsq_fit k sb_wgt None fix_ lb ub scatter_ verbose
    assume_posdef_covar ignore_covar s
  = (Raise (ValueError "Incorrect number of model parameters."), s).
Proof.
  intros Hvt Hv2t Hv2r Hdc Hpos. cbv zeta.
  assert (Hlen : length (BisymmetricDisk.guess_par_of vt0 v2t0 v2r0 dc0)
                 = (BisymmetricDisk.np (BisymmetricDisk.__init__ vt0 v2t0 v2r0 dc0)
                    + curve_np vt0)%nat).
  { rewrite bisym_guess_length, Hvt, Hv2t, Hv2r. simpl. destruct dc0; [rewrite Hdc|]; lia. }
  split; [exact Hlen|].
  unfold BisymmetricDisk.lsq_fit, BisymmetricDisk.lsq_fit_call, BisymmetricDisk._fit_prep,
    BisymmetricDisk._init_par.
  cbv [mbind py_bind py_get py_lift]. unfold BisymmetricDisk.guess_par.
  cbn [BisymmetricDisk.vt BisymmetricDisk.v2t BisymmetricDisk.v2r BisymmetricDisk.dc
       BisymmetricDisk.__init__].
  rewrite Hlen.
  destruct (Nat.eqb_spec
    (BisymmetricDisk.np (BisymmetricDisk.__init__ vt0 v2t0 v2r0 dc0) + curve_np vt0)
    (BisymmetricDisk.np (BisymmetricDisk.__init__ vt0 v2t0 v2r0 dc0))) as [He|_]; [lia|].
  reflexivity.
Qed.

Lemma bisym_model_raises (p : option (ndarray R)) (x0 y0 : option (ndarray R))
    (beam : option BisymmetricDisk.beam_arg) (s s' : BisymmetricDisk.t)
    (r : ndarray R * option (ndarray R)) :
  BisymmetricDisk.model p x0 y0 beam s <> (Return r, s').
Proof.
  unfold BisymmetricDisk.model. intros Hm.
  py_inv Hm as u1 s1 E1. py_inv Hm as s2 s2' E2. py_inv Hm as u3 s3 E3.
  py_inv Hm as u4 s4 E4. py_inv Hm as s5 s5' E5. py_inv Hm as vel s6 E6.
  discriminate Hm.
Qed.

Lemma bisym_report_raises (s s' : BisymmetricDisk.t) (u : unit) :
  BisymmetricDisk.report s <> (Return u, s').
Proof.
  unfold BisymmetricDisk.report. intros Hr.
  py_inv Hr as s1 s1' E1. py_inv Hr as u2 s2 E2. py_inv Hr as u3 s3 E3.
  py_inv Hr as m s4 E4. by apply bisym_model_raises in E4.
Qed.

(** [BisymmetricDisk.model] raises on every call -- after the velocity field
    it calls [exit()] -- and so does [lsq_fit], whose last statement is
    [report()], which evaluates the model. *)
Theorem bisym_lsq_fit_never_returns (k : Kinematics.t) (sb_wgt : bool)
    (p0 : option (list R)) (fix_ : option (list bool)) (lb ub : option (list R))
    (scatter_ : option (list R)) (verbose : Z) (assume_posdef_covar ignore_covar : bool)
    (s : BisymmetricDisk.t) :
  (forall p x0 y0 beam s0, exists e s1, BisymmetricDisk.model p x0 y0 beam s0 = (Raise e, s1)) /\
  exists e s',
    BisymmetricDisk.lsq_fit k sb_wgt p0 fix_ lb ub scatter_ verbose
      assume_posdef_covar ignore_covar s = (Raise e, s').
Proof.
  split.
  - intros p x0 y0 beam s0.
    destruct (BisymmetricDisk.model p x0 y0 beam s0) as [[r|e] s1] eqn:Hm.
    + by apply bisym_model_raises in Hm.
    + by exists e, s1.
  - destruct (BisymmetricDisk.lsq_fit k sb_wgt p0 fix_ lb ub scatter_ verbose
                assume_posdef_covar ignore_covar s) as [[[]|e] s'] eqn:Hfit.
    + exfalso. unfold BisymmetricDisk.lsq_fit in Hfit.
      py_inv Hfit as c s1 E1. py_inv Hfit as r s2 E2. py_inv Hfit as u3 s3 E3.
      py_inv Hfit as u4 s4 E4. by apply bisym_report_raises in Hfit.
    + by exists e, s'.
Qed.

End BisymFit.

(** [BisymmetricDisk.par_names] never returns a list: its last line adds
    the function [rc] imported from matplotlib to a list.  When the curves
    give their names the failure is that [TypeError]. *)
Theorem bisym_par_names_never_returns
    (curve_par_names : Curve1D -> bool -> result (list string)) (short : bool)
    (s : BisymmetricDisk.t) :
  (forall names, BisymmetricDisk.par_names curve_par_names short s <> Return names) /\
  ((forall c, exists l, curve_par_names c short = Return l) ->
   BisymmetricDisk.par_names curve_par_names short s = Raise TypeError).
Proof.
  split.
  - intros names Hn. unfold BisymmetricDisk.par_names in Hn.
    inv_bind Hn as a1 E1. inv_bind Hn as a2 E2. inv_bind Hn as a3 E3. inv_bind Hn as a4 E4.
    discriminate Hn.
  - intros Hall. unfold BisymmetricDisk.par_names.
    destruct (Hall (BisymmetricDisk.vt s)) as [l1 ->].
    destruct (Hall (BisymmetricDisk.v2t s)) as [l2 ->].
    destruct (Hall (BisymmetricDisk.v2r s)) as [l3 ->].
    destruct (BisymmetricDisk.dc s) as [d|]; [|done].
    by destruct (Hall d) as [l4 ->].
Qed.

End Bisym.

(** ** [_init_coo] *)

Section Coo.
Context `{FitErrors} `{Geometry} `{!Smear} `{!PhysicalDispersion}.
Local Open Scope R_scope.

(** [_init_coo] of either model stores the coordinates it is given before
    it checks them, also when it raises, and touches neither [par] nor
    [free]; when it returns, [x] and [y] are set and have one shape, and a
    beam, if there is one, is two-dimensional of that same shape. *)
Theorem init_coo_stores_then_checks :
  (forall (x0 y0 : option (ndarray R)) (beam : option BisymmetricDisk.beam_arg)
          (s s' : BisymmetricDisk.t) (r : result unit),
     BisymmetricDisk._init_coo x0 y0 beam s = (r, s') ->
     let x1 := match x0 with Some _ => x0 | None => BisymmetricDisk.x s end in
     let y1 := match y0 with Some _ => y0 | None => BisymmetricDisk.y s end in
     BisymmetricDisk.x s' = x1 /\ BisymmetricDisk.y s' = y1 /\
     BisymmetricDisk.par s' = BisymmetricDisk.par s /\
     BisymmetricDisk.free s' = BisymmetricDisk.free s /\
     (r = Return tt ->
      exists xa ya, x1 = Some xa /\ y1 = Some ya /\ shape xa = shape ya /\
        forall b, BisymmetricDisk.beam_fft s' = Some b ->
                  length (shape xa) = 2%nat /\ shape b = shape xa)) /\
  (forall (x0 y0 : option (ndarray R)) (beam : option AxisymmetricDisk.beam_arg)
          (s s' : AxisymmetricDisk.t) (r : result unit),
     AxisymmetricDisk._init_coo x0 y0 beam s = (r, s') ->
     let x1 := match x0 with Some _ => x0 | None => AxisymmetricDisk.x s end in
     let y1 := match y0 with Some _ => y0 | None => AxisymmetricDisk.y s end in
     AxisymmetricDisk.x s' = x1 /\ AxisymmetricDisk.y s' = y1 /\
     AxisymmetricDisk.par s' = AxisymmetricDisk.par s /\
     AxisymmetricDisk.free s' = AxisymmetricDisk.free s /\
     (r = Return tt ->
      exists xa ya, x1 = Some xa /\ y1 = Some ya /\ shape xa = shape ya /\
        forall b, AxisymmetricDisk.beam_fft s' = Some b ->
                  length (shape xa) = 2%nat /\ shape b = shape xa)).
Proof.
  split.
  - intros x0 y0 beam s s' r. unfold BisymmetricDisk._init_coo.
    cbv [mbind py_bind py_get py_modify py_lift py_raise mret py_ret]. cbv zeta.
    set (x1 := match x0 with Some _ => x0 | None => BisymmetricDisk.x s end).
    set (y1 := match y0 with Some _ => y0 | None => BisymmetricDisk.y s end).
    set (b1 := match beam with
               | Some (BisymmetricDisk.BeamFFT b) => Some b
               | Some (BisymmetricDisk.BeamImage b) => Some (fftn_ifftshift b)
               | None => BisymmetricDisk.beam_fft s
               end).
    destruct x1 as [xa|] eqn:Hx1, y1 as [ya|] eqn:Hy1;
      try (intros [= <- <-]; repeat split; done).
    destruct (shape_eqb (shape xa) (shape ya)) eqn:Hsh; simpl;
      [|intros [= <- <-]; repeat split; done].
    apply shape_eqb_true in Hsh.
    destruct b1 as [b|] eqn:Hb1.
    + destruct (Nat.eqb_spec (length (shape xa)) 2) as [E2|E2]; simpl;
        [|intros [= <- <-]; repeat split; done].
      destruct (shape_eqb (shape b) (shape xa)) eqn:Hbs; simpl;
        intros [= <- <-]; (do 4 (split; [done|])); [|done].
      intros _. exists xa, ya. do 3 (split; [done|]).
      simpl. intros b' [= <-]. split; [done|]. by apply shape_eqb_true.
    + intros [= <- <-]. do 4 (split; [done|]).
      intros _. exists xa, ya. do 3 (split; [done|]). simpl. by intros b' [=].
  - intros x0 y0 beam s s' r. unfold AxisymmetricDisk._init_coo.
    cbv [mbind py_bind py_get py_modify py_lift py_raise mret py_ret]. cbv zeta.
    set (x1 := match x0 with Some _ => x0 | None => AxisymmetricDisk.x s end).
    set (y1 := match y0 with Some _ => y0 | None => AxisymmetricDisk.y s end).
    set (b1 := match beam with
               | Some (AxisymmetricDisk.BeamFFT b) => Some b
               | Some (AxisymmetricDisk.BeamImage b) => Some (fftn_ifftshift b)
               | None => AxisymmetricDisk.beam_fft s
               end).
    destruct x1 as [xa|] eqn:Hx1, y1 as [ya|] eqn:Hy1;
      try (intros [= <- <-]; repeat split; done).
    destruct (shape_eqb (shape xa) (shape ya)) eqn:Hsh; simpl;
      [|intros [= <- <-]; repeat split; done].
    apply shape_eqb_true in Hsh.
    destruct b1 as [b|] eqn:Hb1.
    + destruct (Nat.eqb_spec (length (shape xa)) 2) as [E2|E2]; simpl;
        [|intros [= <- <-]; repeat split; done].
      destruct (shape_eqb (shape b) (shape xa)) eqn:Hbs; simpl;
        intros [= <- <-]; (do 4 (split; [done|])); [|done].
      intros _. exists xa, ya. do 3 (split; [done|]).
      simpl. intros b' [= <-]. split; [done|]. by apply shape_eqb_true.
    + intros [= <- <-]. do 4 (split; [done|]).
      intros _. exists xa, ya. do 3 (split; [done|]). simpl. by intros b' [=].
Qed.

End Coo.

(** ** [rotcurveeval] *)

Section RotCurve.
Context `{Geometry}.
Local Open Scope R_scope.




End RotCurve.

(** ** The axisymmetric model *)

Section AxisymModel.
Context `{BeamOps} `{Geometry} `{!Smear} `{!PhysicalDispersion}.
Local Open Scope R_scope.

Lemma axisym_model_no_args (s : AxisymmetricDisk.t) (xa ya : ndarray R)
    (cnv : option cnvfftw) (ignore_beam : bool) :
  AxisymmetricDisk.x s = Some xa -> AxisymmetricDisk.y s = Some ya ->
  AxisymmetricDisk.model None None None None cnv ignore_beam s
  = (AxisymmetricDisk.evaluate s cnv ignore_beam, s).
Proof.
  intros Hx Hy. unfold AxisymmetricDisk.model.
  cbv [mbind py_bind py_get py_lift mret py_ret is_None negb orb].
  rewrite Hx, Hy. simpl. by destruct (AxisymmetricDisk.evaluate s cnv ignore_beam).
Qed.

Lemma slice2 (l : list R) (a b : R) :
  take 2 (drop 2 l) = [a; b] -> l !! 2%nat = Some a /\ l !! 3%nat = Some b.
Proof. destruct l as [|p0 [|p1 [|p2 [|p3 t]]]]; simpl; intros [=]; by subst. Qed.

Lemma par_item_Return (s : AxisymmetricDisk.t) (i : nat) (v : R) :
  AxisymmetricDisk.par_item s i = Return v -> AxisymmetricDisk.par s !! i = Some v.
Proof. unfold AxisymmetricDisk.par_item. by destruct (_ !! i); intros [=]; subst. Qed.

Lemma axisym_evaluate_Return (s : AxisymmetricDisk.t) (cnv : option cnvfftw)
    (ignore_beam : bool) (r : ndarray R * option (ndarray R)) :
  AxisymmetricDisk.beam_fft s = None \/ ignore_beam = true ->
  AxisymmetricDisk.evaluate s cnv ignore_beam = Return r ->
  exists xa ya xc yc pa inc vsys,
    AxisymmetricDisk.x s = Some xa /\ AxisymmetricDisk.y s = Some ya /\
    shape xa = shape ya /\
    AxisymmetricDisk.par s !! 0%nat = Some xc /\ AxisymmetricDisk.par s !! 1%nat = Some yc /\
    AxisymmetricDisk.par s !! 2%nat = Some pa /\ AxisymmetricDisk.par s !! 3%nat = Some inc /\
    AxisymmetricDisk.par s !! 4%nat = Some vsys /\
    r.1 = NDArray (shape xa)
            (map (fun p => curve_sample (AxisymmetricDisk.rc s) p.1
                             (take (curve_np (AxisymmetricDisk.rc s))
                                   (drop (AxisymmetricDisk.nbp s) (AxisymmetricDisk.par s)))
                           * cos p.2 + vsys)
                 (axisym_polar xa ya xc yc pa inc)) /\
    r.2 = match AxisymmetricDisk.dc s with
          | None => None
          | Some d =>
              Some (NDArray (shape xa)
                      (map (fun p => curve_sample d p.1
                              (take (curve_np d)
                                 (drop (AxisymmetricDisk.nbp s + curve_np (AxisymmetricDisk.rc s))
                                       (AxisymmetricDisk.par s))))
                           (axisym_polar xa ya xc yc pa inc)))
          end.
Proof.
  intros Hbeam Hev. unfold AxisymmetricDisk.evaluate in Hev.
  destruct (AxisymmetricDisk.x s) as [xa|]; [|done].
  destruct (AxisymmetricDisk.y s) as [ya|]; [|done].
  inv_bind Hev as xc Hxc. inv_bind Hev as yc Hyc.
  apply par_item_Return in Hxc, Hyc.
  destruct (take 2 (drop 2 (AxisymmetricDisk.par s))) as [|pa [|inc [|? ?]]] eqn:Hsl;
    simpl in Hev; try discriminate.
  apply slice2 in Hsl as [Hpa Hinc].
  inv_bind Hev as u Hsh. apply raise_if_Return, negb_false_iff, shape_eqb_true in Hsh.
  inv_bind Hev as vsys Hvsys. apply par_item_Return in Hvsys.
  exists xa, ya, xc, yc, pa, inc, vsys. do 8 (split; [done|]).
  replace (AxisymmetricDisk.nbp s + curve_np (AxisymmetricDisk.rc s) - AxisymmetricDisk.nbp s)%nat
    with (curve_np (AxisymmetricDisk.rc s)) in Hev by lia.
  destruct (AxisymmetricDisk.dc s) as [d|].
  - replace (AxisymmetricDisk.nbp s + curve_np (AxisymmetricDisk.rc s) + curve_np d
             - (AxisymmetricDisk.nbp s + curve_np (AxisymmetricDisk.rc s)))%nat
      with (curve_np d) in Hev by lia.
    destruct (AxisymmetricDisk.beam_fft s) as [b|].
    + destruct Hbeam as [Hb| ->]; [done|]. by injection Hev as <-.
    + by injection Hev as <-.
  - destruct (AxisymmetricDisk.beam_fft s) as [b|].
    + destruct Hbeam as [Hb| ->]; [done|]. by injection Hev as <-.
    + by injection Hev as <-.
Qed.

(** [AxisymmetricDisk.model()] without a beam (or with [ignore_beam]) leaves
    the instance as it is and returns, at every grid point with in-plane
    radius [r] and azimuth [theta], the velocity [Vrot(r) * cos(theta) + vsys]
    -- without a factor [sin(inc)] -- and, exactly when a dispersion curve is
    set, the dispersion sampled at [r]. *)
Theorem axisym_model_fields (s s' : AxisymmetricDisk.t) (xa ya : ndarray R)
    (cnv : option cnvfftw) (ignore_beam : bool) (r : ndarray R * option (ndarray R)) :
  AxisymmetricDisk.x s = Some xa -> AxisymmetricDisk.y s = Some ya ->
  AxisymmetricDisk.beam_fft s = None \/ ignore_beam = true ->
  AxisymmetricDisk.model None None None None cnv ignore_beam s = (Return r, s') ->
  s' = s /\
  exists xc yc pa inc vsys,
    AxisymmetricDisk.par s !! 0%nat = Some xc /\ AxisymmetricDisk.par s !! 1%nat = Some yc /\
    AxisymmetricDisk.par s !! 2%nat = Some pa /\ AxisymmetricDisk.par s !! 3%nat = Some inc /\
    AxisymmetricDisk.par s !! 4%nat = Some vsys /\
    shape r.1 = shape xa /\
    (AxisymmetricDisk.dc s = None <-> r.2 = None) /\
    forall k xk yk, ravel xa !! k = Some xk -> ravel ya !! k = Some yk ->
      let rt := projected_polar (xk - xc) (yk - yc) (np_radians pa) (np_radians inc) in
      let Vrot := fun rr => curve_sample (AxisymmetricDisk.rc s) rr
                    (take (curve_np (AxisymmetricDisk.rc s))
                          (drop (AxisymmetricDisk.nbp s) (AxisymmetricDisk.par s))) in
      ravel r.1 !! k = Some (Vrot rt.1 * cos rt.2 + vsys) /\
      forall d, AxisymmetricDisk.dc s = Some d ->
        exists sg, r.2 = Some sg /\ shape sg = shape xa /\
          ravel sg !! k
          = Some (curve_sample d rt.1
                    (take (curve_np d)
                       (drop (AxisymmetricDisk.nbp s + curve_np (AxisymmetricDisk.rc s))
                             (AxisymmetricDisk.par s)))).
Proof.
  intros Hx Hy Hbeam Hm. rewrite (axisym_model_no_args s xa ya) in Hm by done.
  injection Hm as Hev <-. split; [done|].
  apply axisym_evaluate_Return in Hev
    as (xa' & ya' & xc & yc & pa & inc & vsys & Hx' & Hy' & Hsh & Hxc & Hyc & Hpa & Hinc
        & Hvsys & Hvel & Hsig); [|done].
  rewrite Hx in Hx'. rewrite Hy in Hy'. injection Hx' as <-. injection Hy' as <-.
  exists xc, yc, pa, inc, vsys. do 5 (split; [done|]).
  split; [by rewrite Hvel|]. split.
  - rewrite Hsig. by destruct (AxisymmetricDisk.dc s).
  - intros k xk yk Hxk Hyk. cbv zeta. split.
    + rewrite Hvel. simpl. unfold axisym_polar.
      by rewrite lookup_map, lookup_zip_with, Hxk, Hyk.
    + intros d Hd. rewrite Hd in Hsig. eexists. split; [exact Hsig|]. split; [done|].
      simpl. unfold axisym_polar. by rewrite lookup_map, lookup_zip_with, Hxk, Hyk.
Qed.

End AxisymModel.

(** ** Surface-brightness weights *)

Section Weights.
Context `{FitErrors} `{Geometry}.
Local Open Scope R_scope.

Lemma sb_mask_with_sb (a : Kinematics.args) (k : Kinematics.t) (sbv : list R) :
  Kinematics.__init__ a = Return k -> Kinematics.sb k = Some sbv ->
  exists mk, Kinematics.sb_mask k = Some mk.
Proof.
  intros Hi Hsb.
  destruct (init_fields _ _ Hi) as (n & sc & indx & _ & _ & _ & _ & _ & Hs & _ & Hm & _).
  destruct (Kinematics.sb_mask k) as [mk|] eqn:Hmk; [by eexists|].
  apply select_None_iff in Hm as [Hn _]. specialize (Hn eq_refl).
  rewrite Hsb in Hs.
  destruct (Kinematics.arg_sb a) as [d|]; [|done].
  unfold Kinematics._ingest in Hn. by destruct (Kinematics.arg_sb_ivar a).
Qed.

(** The surface-brightness weights [kin.remap('sb').filled(0.0)] of
    [_fit_prep]: a cell of [grid_indx] gets the surface brightness of its
    bin, or zero if that measurement is masked, and every other cell gets
    zero.  Without surface-brightness data the call fails on [None], and
    [_fit_prep] with [sb_wgt=True] raises that [AttributeError] after it
    has initialised the parameters and stored the data. *)
Theorem sb_weights_vanish_where_masked (a : Kinematics.args) (k : Kinematics.t) :
  wf_args a ->
  Kinematics.__init__ a = Return k ->
  match Kinematics.sb k with
  | None =>
      AxisymmetricDisk.remap_sb_filled k
      = Raise (AttributeError "'NoneType' object has no attribute 'filled'") /\
      (forall p0 fix_ s s1,
         AxisymmetricDisk._init_par p0 fix_ s = (Return tt, s1) ->
         AxisymmetricDisk._fit_prep k p0 fix_ true s
         = (Raise (AttributeError "'NoneType' object has no attribute 'filled'"),
            AxisymmetricDisk.set_kin k s1)) /\
      (forall p0 fix_ scatter_ apc ic s s1,
         BisymmetricDisk._init_par p0 fix_ s = (Return tt, s1) ->
         BisymmetricDisk._fit_prep k p0 fix_ scatter_ true apc ic s
         = (Raise (AttributeError "'NoneType' object has no attribute 'filled'"),
            BisymmetricDisk.set_kin k s1))
  | Some sbv =>
      exists mk img,
        Kinematics.sb_mask k = Some mk /\
        AxisymmetricDisk.remap_sb_filled k = Return img /\
        shape img = Kinematics.spatial_shape k /\
        (forall j g r, Kinematics.grid_indx k !! j = Some g ->
           Kinematics.bin_inverse k !! j = Some r ->
           exists v (b : bool), sbv !! r = Some v /\ mk !! r = Some b /\
             ravel img !! g = Some (if b then 0 else v)) /\
        (forall g, (g < np_prod (Kinematics.spatial_shape k))%nat ->
           ~ In g (Kinematics.grid_indx k) -> ravel img !! g = Some 0)
  end.
Proof.
  intros Hwf Hi.
  destruct (Kinematics.sb k) as [sbv|] eqn:Hsb.
  - destruct (sb_mask_with_sb a k sbv Hi Hsb) as [mk Hmk].
    assert (Hget : Kinematics.getattr_vector k "sb" = Some (Some sbv))
      by (unfold Kinematics.getattr_vector; simpl; by rewrite Hsb).
    assert (Hgm : Kinematics.getattr_mask k "sb" = Some mk)
      by (unfold Kinematics.getattr_mask; simpl; by rewrite Hmk).
    destruct (remap_attr_cells a k "sb" sbv true Hwf Hi Hget)
      as (img & Hsh & Hlen & Hfill & Hrest & Hremap).
    cbn [Kinematics.getattr_vector] in Hremap. rewrite Hgm in Hremap.
    destruct Hremap as (m & Hremap & Hmsh & Hmlen & Hmfill & Hmrest).
    destruct (init_bins_consistent a k Hwf Hi) as (vk & Hvk & Hcons).
    pose proof Hcons as (Hrows & _ & _ & Hgi & Hlgb & Hbi & _).
    pose proof (getattr_vector_length _ _ _ _ Hwf Hi Hget) as Hlv.
    pose proof (getattr_mask_length _ _ _ _ Hwf Hi Hgm) as Hlm.
    exists mk. eexists. split; [done|].
    unfold AxisymmetricDisk.remap_sb_filled. rewrite Hremap. cbn [mbind result_bind].
    split; [reflexivity|]. split; [done|]. simpl. split.
    + intros j g r Hj Hr. rewrite Forall_forall in Hbi.
      assert (Hrlt : (r < length vk)%nat) by (by eapply Hbi, list_elem_of_lookup_2).
      destruct (lookup_lt_is_Some_2 sbv r) as [v Hv]; [lia|].
      destruct (lookup_lt_is_Some_2 mk r) as [b Hb]; [lia|].
      exists v, b. do 2 (split; [done|]).
      rewrite lookup_zip_with, (Hfill j g r Hj Hr), Hv. simpl.
      by rewrite (Hmfill j g r Hj Hr), Hb.
    + intros g Hg Hnin. rewrite lookup_zip_with, (Hrest g Hg Hnin). simpl.
      by rewrite (Hmrest g Hg Hnin).
  - assert (Hr : AxisymmetricDisk.remap_sb_filled k
                 = Raise (AttributeError "'NoneType' object has no attribute 'filled'")).
    { unfold AxisymmetricDisk.remap_sb_filled, Kinematics.remap, Kinematics.getattr_vector.
      simpl. by rewrite Hsb. }
    split; [done|]. split.
    + intros p0 fix_ s s1 Hp. unfold AxisymmetricDisk._fit_prep.
      cbv [mbind py_bind py_modify py_lift]. by rewrite Hp, Hr.
    + intros p0 fix_ scatter_ apc ic s s1 Hp. unfold BisymmetricDisk._fit_prep.
      cbv [mbind py_bind py_modify py_lift]. by rewrite Hp, Hr.
Qed.

End Weights.

(** ** Preparing the axisymmetric fit *)

Section AxisymFitting.
Context `{BeamOps} `{Geometry} `{!Smear} `{!PhysicalDispersion}.
Local Open Scope R_scope.

Lemma axisym_init_par_total (p0 : option (list R)) (fix_ : option (list bool))
    (s : AxisymmetricDisk.t) :
  let _p0 := match p0 with None => AxisymmetricDisk.guess_par s | Some p => p end in
  let _free := match fix_ with
               | None => repeat true (AxisymmetricDisk.np s)
               | Some f => map negb f
               end in
  length _p0 = AxisymmetricDisk.np s -> length _free = AxisymmetricDisk.np s ->
  AxisymmetricDisk._init_par p0 fix_ s
  = (Return tt, AxisymmetricDisk.set_free _free (count_true _free)
                  (AxisymmetricDisk.set_par_err None (AxisymmetricDisk.set_par _p0 s))).
Proof.
  cbv zeta. intros Hp Hf. unfold AxisymmetricDisk._init_par.
  cbv [mbind py_bind py_get py_lift py_modify].
  rewrite Hp, Nat.eqb_refl. cbn [negb raise_if AxisymmetricDisk.np AxisymmetricDisk.set_par
    AxisymmetricDisk.set_par_err].
  rewrite Hf, Nat.eqb_refl. reflexivity.
Qed.

Lemma axisym_init_par_Return (p0 : option (list R)) (fix_ : option (list bool))
    (s s' : AxisymmetricDisk.t) :
  AxisymmetricDisk._init_par p0 fix_ s = (Return tt, s') ->
  let _p0 := match p0 with None => AxisymmetricDisk.guess_par s | Some p => p end in
  let _free := match fix_ with
               | None => repeat true (AxisymmetricDisk.np s)
               | Some f => map negb f
               end in
  length _p0 = AxisymmetricDisk.np s /\ length _free = AxisymmetricDisk.np s /\
  s' = AxisymmetricDisk.set_free _free (count_true _free)
         (AxisymmetricDisk.set_par_err None (AxisymmetricDisk.set_par _p0 s)).
Proof.
  unfold AxisymmetricDisk._init_par. intros Hi. cbv zeta.
  py_inv Hi as s0 s1 Hget. apply py_get_Return in Hget as [-> ->].
  py_inv Hi as u1 s1 Hlen. apply py_lift_Return in Hlen as [Hlen ->].
  apply raise_if_Return, negb_false_iff, Nat.eqb_eq in Hlen.
  py_inv Hi as u2 s2 Hm1. apply py_modify_Return in Hm1 as ->.
  py_inv Hi as u3 s3 Hm2. apply py_modify_Return in Hm2 as ->.
  py_inv Hi as u4 s4 Hfl. apply py_lift_Return in Hfl as [Hfl ->].
  apply raise_if_Return, negb_false_iff, Nat.eqb_eq in Hfl.
  apply py_modify_Return in Hi as ->. done.
Qed.

Lemma axisym_fit_prep_plain (k : Kinematics.t) (p0 : option (list R))
    (fix_ : option (list bool)) (s s1 : AxisymmetricDisk.t) :
  AxisymmetricDisk._init_par p0 fix_ s = (Return tt, s1) ->
  AxisymmetricDisk._fit_prep k p0 fix_ false s
  = (Return (if is_None (Kinematics.vel_ivar k)
                || (negb (is_None (AxisymmetricDisk.dc s1)) && is_None (Kinematics.sig_ivar k))
             then FomResid else FomChisqr),
     AxisymmetricDisk.set_beam_gpm k (AxisymmetricDisk.set_sb None
        (AxisymmetricDisk.set_kin k s1))).
Proof.
  intros Hp. unfold AxisymmetricDisk._fit_prep.
  cbv [mbind py_bind py_modify py_lift py_get mret py_ret]. by rewrite Hp.
Qed.

Lemma axisym_fit_prep_plain_Return (k : Kinematics.t) (p0 : option (list R))
    (fix_ : option (list bool)) (s s' : AxisymmetricDisk.t) (fom : fom_kind) :
  AxisymmetricDisk._fit_prep k p0 fix_ false s = (Return fom, s') ->
  exists s1, AxisymmetricDisk._init_par p0 fix_ s = (Return tt, s1) /\
    s' = AxisymmetricDisk.set_beam_gpm k (AxisymmetricDisk.set_sb None
           (AxisymmetricDisk.set_kin k s1)).
Proof.
  intros Hf. destruct (AxisymmetricDisk._init_par p0 fix_ s) as [[[]|e] s1] eqn:Hp.
  - rewrite (axisym_fit_prep_plain k p0 fix_ s s1 Hp) in Hf. injection Hf as _ <-. by exists s1.
  - unfold AxisymmetricDisk._fit_prep in Hf. cbv [mbind py_bind] in Hf. by rewrite Hp in Hf.
Qed.

Lemma grids_of_init (a : Kinematics.args) (k : Kinematics.t) :
  wf_args a -> Kinematics.__init__ a = Return k -> Kinematics.arg_grid_x a <> None ->
  exists gx gy,
    Kinematics.grid_x k = Some gx /\ Kinematics.grid_y k = Some gy /\
    shape gx = Kinematics.spatial_shape k /\ shape gy = Kinematics.spatial_shape k /\
    Kinematics.spatial_shape k = [Kinematics.nimg k; Kinematics.nimg k] /\
    length (ravel gx) = (Kinematics.nimg k * Kinematics.nimg k)%nat /\
    length (ravel gy) = (Kinematics.nimg k * Kinematics.nimg k)%nat.
Proof.
  intros Hwf Hi Hgx.
  destruct (init_fields _ _ Hi) as (n & sc & indx & Hcheck & _ & _ & _ & _ & _ & _ & _ & _ & _
    & _ & _ & _ & _ & _ & Hsp & Hkx & Hky & _).
  destruct (init_Return _ _ Hi) as (n' & _ & _ & Hcheck' & Hn & _).
  rewrite Hcheck in Hcheck'. injection Hcheck' as <-.
  destruct (check_args_Return _ _ Hcheck) as (Hs & Hcomp & _ & Hbw).
  pose proof Hwf as (_ & _ & _ & _ & _ & _ & _ & _ & _ & _ & _ & _ & _ & _ & _ & Wgx & Wgy & _).
  unfold Kinematics.binned_without_grid in Hbw. apply orb_false_iff in Hbw as [_ Hgy].
  destruct (Kinematics.arg_grid_x a) as [gx|] eqn:Hax; [|done].
  destruct (Kinematics.arg_grid_y a) as [gy|] eqn:Hay; [|done].
  assert (Hsx : shape gx = [n; n])
    by (apply Hcomp; unfold Kinematics.companion_shapes; rewrite Hax; simpl; tauto).
  assert (Hsy : shape gy = [n; n])
    by (apply Hcomp; unfold Kinematics.companion_shapes; rewrite Hay; simpl; tauto).
  exists gx, gy. rewrite Hsp, Hs, Hn. simpl in Wgx, Wgy.
  repeat split; try done.
  - by rewrite Wgx, Hsx, np_prod_2d.
  - by rewrite Wgy, Hsy, np_prod_2d.
Qed.

Lemma np_amin_total (l : list R) : l <> [] -> exists m, Kinematics.np_amin l = Return m.
Proof. destruct l; [done|]. by eexists. Qed.

Lemma np_amax_total (l : list R) : l <> [] -> exists m, Kinematics.np_amax l = Return m.
Proof. destruct l; [done|]. by eexists. Qed.

Lemma nonempty_of_length {A} (l : list A) (n : nat) : length l = n -> n <> 0%nat -> l <> [].
Proof. intros Hl Hn ->. simpl in Hl. lia. Qed.

Lemma axisym_par_bounds_total (s : AxisymmetricDisk.t) (gx gy : ndarray R) :
  AxisymmetricDisk.x s = Some gx -> AxisymmetricDisk.y s = Some gy ->
  ravel gx <> [] -> ravel gy <> [] ->
  exists minx maxx miny maxy,
    Kinematics.np_amin (ravel gx) = Return minx /\ Kinematics.np_amax (ravel gx) = Return maxx /\
    Kinematics.np_amin (ravel gy) = Return miny /\ Kinematics.np_amax (ravel gy) = Return maxy /\
    AxisymmetricDisk.par_bounds s
    = Return (([minx; miny; -350; 0; -300] ++ curve_lb (AxisymmetricDisk.rc s))
                ++ match AxisymmetricDisk.dc s with Some d => curve_lb d | None => [] end,
              ([maxx; maxy; 350; 89; 300] ++ curve_ub (AxisymmetricDisk.rc s))
                ++ match AxisymmetricDisk.dc s with Some d => curve_ub d | None => [] end).
Proof.
  intros Hx Hy Hnx Hny.
  destruct (np_amin_total _ Hnx) as [minx Eminx], (np_amax_total _ Hnx) as [maxx Emaxx].
  destruct (np_amin_total _ Hny) as [miny Eminy], (np_amax_total _ Hny) as [maxy Emaxy].
  exists minx, maxx, miny, maxy. do 4 (split; [done|]).
  unfold AxisymmetricDisk.par_bounds, AxisymmetricDisk.amin_of, AxisymmetricDisk.amax_of.
  rewrite Hx, Hy, Eminx, Emaxx, Eminy, Emaxy. cbn [mbind result_bind].
  destruct (AxisymmetricDisk.dc s); [done|]. by rewrite !app_nil_r.
Qed.

Section AxisymCall.
Context `{!Optimizer AxisymmetricDisk.t}.

(** [AxisymmetricDisk.lsq_fit] on a new model gets to the optimizer without
    raising when the data were built with [grid_x] on a non-empty grid, the
    curves' guesses and bounds have as many entries as the curves have
    parameters, and [p0] and [fix], when given, have [np] entries.  The merit
    function is [_resid] when an inverse variance is missing and [_chisqr]
    otherwise, and the starting point, both bounds and the steps all have
    [nfree] entries. *)
Theorem axisym_lsq_fit_reaches_optimizer (a : Kinematics.args) (k : Kinematics.t)
    (rc0 : Curve1D) (dc0 : option Curve1D) (p0 : option (list R))
    (fix_ : option (list bool)) (verbose : Z) :
  wf_args a ->
  Kinematics.__init__ a = Return k ->
  Kinematics.arg_grid_x a <> None -> Kinematics.nimg k <> 0%nat ->
  length (curve_guess_par rc0) = curve_np rc0 ->
  length (curve_lb rc0) = curve_np rc0 -> length (curve_ub rc0) = curve_np rc0 ->
  (forall d, dc0 = Some d -> length (curve_guess_par d) = curve_np d /\
                             length (curve_lb d) = curve_np d /\
                             length (curve_ub d) = curve_np d) ->
  let s0 := AxisymmetricDisk.__init__ rc0 dc0 in
  (forall p, p0 = Some p -> length p = AxisymmetricDisk.np s0) ->
  (forall f, fix_ = Some f -> length f = AxisymmetricDisk.np s0) ->
  exists c s',
    AxisymmetricDisk.lsq_fit_call k false p0 fix_ verbose s0 = (Return c, s') /\
    lsq_fun c = (if is_None (Kinematics.vel_ivar k)
                    || (negb (is_None dc0) && is_None (Kinematics.sig_ivar k))
                 then FomResid else FomChisqr) /\
    AxisymmetricDisk.kin s' = Some k /\
    AxisymmetricDisk.nfree s' = count_true (AxisymmetricDisk.free s') /\
    length (lsq_x0 c) = AxisymmetricDisk.nfree s' /\
    length (lsq_bounds c).1 = AxisymmetricDisk.nfree s' /\
    length (lsq_bounds c).2 = AxisymmetricDisk.nfree s' /\
    length (lsq_diff_step c) = AxisymmetricDisk.nfree s'.
Proof.
  intros Hwf Hi Hgx Hn Hg Hlb Hub Hdc s0 Hp0 Hfix.
  destruct (grids_of_init a k Hwf Hi Hgx) as (gx & gy & Hkx & Hky & _ & _ & _ & Hlx & Hly).
  assert (Hnn : (Kinematics.nimg k * Kinematics.nimg k)%nat <> 0%nat) by nia.
  assert (Hnp : AxisymmetricDisk.np s0
                = (5 + curve_np rc0 + match dc0 with None => 0 | Some d => curve_np d end)%nat)
    by reflexivity.
  assert (Hlen0 : length (match p0 with None => AxisymmetricDisk.guess_par s0 | Some p => p end)
                  = AxisymmetricDisk.np s0).
  { destruct p0 as [p|]; [by apply Hp0|].
    unfold AxisymmetricDisk.guess_par, AxisymmetricDisk.guess_par_of. simpl.
    destruct dc0 as [d|].
    - destruct (Hdc d eq_refl) as (Hgd & _). simpl. rewrite ?length_app. lia.
    - simpl. rewrite ?length_app. lia. }
  assert (Hlenf : length (match fix_ with
                          | None => repeat true (AxisymmetricDisk.np s0)
                          | Some f => map negb f
                          end) = AxisymmetricDisk.np s0).
  { destruct fix_ as [f|]; [rewrite length_map; by apply Hfix|by rewrite repeat_length]. }
  pose proof (axisym_init_par_total p0 fix_ s0 Hlen0 Hlenf) as Hinit. cbv zeta in Hinit.
  set (_p0 := match p0 with None => AxisymmetricDisk.guess_par s0 | Some p => p end) in *.
  set (_free := match fix_ with
                | None => repeat true (AxisymmetricDisk.np s0)
                | Some f => map negb f
                end) in *.
  set (s1 := AxisymmetricDisk.set_free _ _ _) in Hinit.
  set (s2 := AxisymmetricDisk.set_beam_gpm k (AxisymmetricDisk.set_sb None
               (AxisymmetricDisk.set_kin k s1))).
  destruct (axisym_par_bounds_total s2 gx gy) as (minx & maxx & miny & maxy & _ & _ & _ & _ & Hb);
    [done|done|by eapply nonempty_of_length|by eapply nonempty_of_length|].
  unfold AxisymmetricDisk.lsq_fit_call. cbv [mbind py_bind].
  rewrite (axisym_fit_prep_plain k p0 fix_ s0 s1 Hinit).
  cbv [py_get py_lift mret py_ret]. fold s2. rewrite Hb.
  assert (Hlbl : length (([minx; miny; -350; 0; -300] ++ curve_lb rc0)
                   ++ match dc0 with Some d => curve_lb d | None => [] end)
                 = AxisymmetricDisk.np s0).
  { rewrite !length_app, Hlb. simpl. destruct dc0 as [d|]; [|simpl; lia].
    destruct (Hdc d eq_refl) as (_ & -> & _). lia. }
  assert (Hubl : length (([maxx; maxy; 350; 89; 300] ++ curve_ub rc0)
                   ++ match dc0 with Some d => curve_ub d | None => [] end)
                 = AxisymmetricDisk.np s0).
  { rewrite !length_app, Hub. simpl. destruct dc0 as [d|]; [|simpl; lia].
    destruct (Hdc d eq_refl) as (_ & _ & ->). lia. }
  unfold np_mask_select. cbn [fst snd AxisymmetricDisk.par AxisymmetricDisk.free
    AxisymmetricDisk.np AxisymmetricDisk.rc AxisymmetricDisk.dc s2 s1
    AxisymmetricDisk.set_beam_gpm AxisymmetricDisk.set_sb AxisymmetricDisk.set_kin
    AxisymmetricDisk.set_free AxisymmetricDisk.set_par_err AxisymmetricDisk.set_par s0
    AxisymmetricDisk.__init__].
  cbn [AxisymmetricDisk.np s0 AxisymmetricDisk.__init__] in Hlen0, Hlenf, Hlbl, Hubl.
  rewrite Hlenf, Hlen0, Hlbl, Hubl, repeat_length, Nat.eqb_refl.
  do 2 eexists. split; [reflexivity|].
  cbn [lsq_fun lsq_x0 lsq_bounds lsq_diff_step fst snd AxisymmetricDisk.kin
       AxisymmetricDisk.nfree AxisymmetricDisk.free].
  split; [done|]. split; [done|]. split; [done|].
  rewrite !mask_filter_length; try done; try lia.
  by rewrite repeat_length.
Qed.

End AxisymCall.

End AxisymFitting.

(** ** The merit functions of the axisymmetric model *)

Section AxisymResid.
Context `{BeamOps} `{Geometry} `{!Smear} `{!PhysicalDispersion}.
Local Open Scope R_scope.

Lemma axisym_evaluate_total (s : AxisymmetricDisk.t) (xa ya : ndarray R)
    (cnv : option cnvfftw) (ignore_beam : bool) :
  AxisymmetricDisk.x s = Some xa -> AxisymmetricDisk.y s = Some ya ->
  shape xa = shape ya -> (5 <= length (AxisymmetricDisk.par s))%nat ->
  AxisymmetricDisk.beam_fft s = None \/ ignore_beam = true ->
  exists r, AxisymmetricDisk.evaluate s cnv ignore_beam = Return r /\
    shape r.1 = shape xa /\
    length (ravel r.1) = Nat.min (length (ravel xa)) (length (ravel ya)) /\
    (AxisymmetricDisk.dc s = None -> r.2 = None).
Proof.
  intros Hx Hy Hsh Hlen Hbeam. unfold AxisymmetricDisk.evaluate, AxisymmetricDisk.par_item.
  rewrite Hx, Hy.
  destruct (AxisymmetricDisk.par s) as [|q0 [|q1 [|q2 [|q3 [|q4 t]]]]]; simpl in Hlen; try lia.
  cbn [lookup list_lookup mbind result_bind drop take map].
  rewrite Hsh. unfold shape_eqb. rewrite bool_decide_eq_true_2 by done.
  cbn [negb raise_if mbind result_bind].
  destruct (AxisymmetricDisk.dc s) as [d|], (AxisymmetricDisk.beam_fft s) as [b|];
    try (destruct Hbeam as [Hb| ->]; [done|]);
    (eexists; split; [reflexivity|]); simpl;
    rewrite length_map, length_zip_with; done.
Qed.

Lemma zip_with_length_same {A B C} (f : A -> B -> C) (l1 : list A) (l2 : list B) :
  length l1 = length l2 -> length (zip_with f l1 l2) = length l1.
Proof. intros Hl. rewrite length_zip_with. lia. Qed.

Lemma axisym_resid_run (a : Kinematics.args) (k : Kinematics.t)
    (rc0 : Curve1D) (p0 : option (list R)) (fix_ : option (list bool))
    (fom : fom_kind) (s : AxisymmetricDisk.t) (p : ndarray R) :
  wf_args a ->
  Kinematics.__init__ a = Return k ->
  Kinematics.arg_grid_x a <> None ->
  Kinematics.arg_psf a = None -> Kinematics.arg_aperture a = None ->
  AxisymmetricDisk._fit_prep k p0 fix_ false (AxisymmetricDisk.__init__ rc0 None)
  = (Return fom, s) ->
  shape p = [AxisymmetricDisk.np s] -> wf_ndarray p ->
  exists m b vk vm,
    AxisymmetricDisk.evaluate (AxisymmetricDisk.set_par (ravel p) s) None false
    = Return (m, None) /\
    Kinematics.bin k m = Return b /\
    Kinematics.vel k = Some vk /\ Kinematics.vel_mask k = Some vm /\
    let good := map negb vm in
    length (mask_filter good vk) = count_true good /\
    length (mask_filter good b) = count_true good /\
    AxisymmetricDisk._resid p s
    = (Return (NDArray [count_true good]
                 (zip_with Rminus (mask_filter good vk) (mask_filter good b))),
       AxisymmetricDisk.set_par (ravel p) s).
Proof.
  intros Hwf Hi Hgx Hpsf Hap Hprep Hp Hwfp.
  apply axisym_fit_prep_plain_Return in Hprep as (s1 & Hinit & Hs).
  apply axisym_init_par_Return in Hinit as (_ & _ & Hs1). cbv zeta in Hs1.
  destruct (grids_of_init a k Hwf Hi Hgx) as (gx & gy & Hkx & Hky & Hsx & Hsy & Hsp & Hlx & Hly).
  destruct (init_vector_lengths _ _ Hwf Hi)
    as (_ & _ & _ & _ & _ & (vk & Hvk & Hlvk) & _ & (vm & Hvm & Hlvm) & _).
  destruct (init_fields _ _ Hi) as (n & sc & indx & Hcheck & _ & Hbins & _ & _ & _ & _ & _
    & _ & _ & _ & _ & _ & _ & _ & Hspa & _ & _ & Hbeam).
  rewrite Hpsf, Hap in Hbeam. simpl in Hbeam.
  pose proof (binid_length _ _ Hwf Hcheck) as Hbl.
  pose proof (bin_bookkeeping_consistent _ _ _ _ _ _ _ Hbl Hbins) as (_ & Hcols & _).
  rewrite <- Hspa in Hcols.
  set (s2 := AxisymmetricDisk.set_par (ravel p) s).
  assert (Hx2 : AxisymmetricDisk.x s2 = Some gx) by (subst s2 s s1; exact Hkx).
  assert (Hy2 : AxisymmetricDisk.y s2 = Some gy) by (subst s2 s s1; exact Hky).
  assert (Hb2 : AxisymmetricDisk.beam_fft s2 = None) by (subst s2 s s1; exact Hbeam).
  assert (Hdc2 : AxisymmetricDisk.dc s2 = None) by (subst s2 s s1; reflexivity).
  assert (Hk2 : AxisymmetricDisk.kin s2 = Some k) by (subst s2 s s1; reflexivity).
  assert (Hg2 : AxisymmetricDisk.vel_gpm s2 = AxisymmetricDisk.GpmMask (map negb vm)).
  { subst s2 s s1. simpl. by rewrite Hvm. }
  assert (Hnp : (5 <= AxisymmetricDisk.np s)%nat) by (subst s s1; simpl; lia).
  assert (Hpar2 : (5 <= length (AxisymmetricDisk.par s2))%nat).
  { subst s2. simpl. rewrite Hwfp, Hp, np_prod_1d. done. }
  destruct (axisym_evaluate_total s2 gx gy None false Hx2 Hy2) as ([m sg] & Hev & Hms & Hml & Hsg);
    [congruence|done|by left|].
  simpl in Hms, Hml, Hsg. rewrite (Hsg Hdc2) in Hev.
  destruct (bin_total k m) as (b & Hb & Hlb).
  { by rewrite Hms. }
  { rewrite Hml, Hlx, Hly, Nat.min_id, Hcols, Hsp, np_prod_2d. done. }
  exists m, b, vk, vm. do 4 (split; [done|]). cbv zeta.
  assert (Hlg : length (map negb vm) = length vk) by (rewrite length_map; lia).
  assert (Hlgb : length (map negb vm) = length b) by (rewrite length_map; lia).
  split; [by apply mask_filter_length|]. split; [by apply mask_filter_length|].
  unfold AxisymmetricDisk._resid. cbv [mbind py_bind].
  rewrite (axisym_set_par_full s p Hp). fold s2.
  cbv [py_get]. rewrite Hdc2. cbv [py_lift AxisymmetricDisk.the_kin]. rewrite Hk2, Hvk, Hg2.
  cbv [AxisymmetricDisk.index_gpm np_mask_select]. rewrite Hlg, Nat.eqb_refl.
  cbn [mbind result_bind].
  rewrite (axisym_model_no_args s2 gx gy None false Hx2 Hy2), Hev.
  cbn [fst]. rewrite Hb. replace (length vk) with (length b) by lia.
  rewrite Nat.eqb_refl. cbn [mbind result_bind].
  unfold AxisymmetricDisk.np_broadcast. cbn [ravel shape].
  rewrite !mask_filter_length by done. rewrite Nat.eqb_refl. cbn [mbind result_bind].
  rewrite zip_with_length_same by (rewrite !mask_filter_length; done).
  by rewrite mask_filter_length.
Qed.

Lemma lookup_zip_with_Some2 {A B C} (f : A -> B -> C) (l1 : list A) (l2 : list B)
    (i : nat) (u : A) (v : B) :
  l1 !! i = Some u -> l2 !! i = Some v -> zip_with f l1 l2 !! i = Some (f u v).
Proof. intros H1' H2'. by rewrite lookup_zip_with, H1', H2'. Qed.

Lemma good_lookup (vm : list bool) (i : nat) :
  vm !! i = Some false -> map negb vm !! i = Some true.
Proof. intros Hi. by rewrite lookup_map, Hi. Qed.

(** [_resid(par)] after [_fit_prep] (no dispersion curve, no beam): it
    stores [par], evaluates the model on the grid, bins it, and returns one
    entry per unmasked velocity measurement, the data minus the binned
    model, in the order of the measurements. *)
Theorem axisym_resid_over_good_pixels (a : Kinematics.args) (k : Kinematics.t)
    (rc0 : Curve1D) (p0 : option (list R)) (fix_ : option (list bool))
    (fom : fom_kind) (s : AxisymmetricDisk.t) (p : ndarray R) :
  wf_args a ->
  Kinematics.__init__ a = Return k ->
  Kinematics.arg_grid_x a <> None ->
  Kinematics.arg_psf a = None -> Kinematics.arg_aperture a = None ->
  AxisymmetricDisk._fit_prep k p0 fix_ false (AxisymmetricDisk.__init__ rc0 None)
  = (Return fom, s) ->
  shape p = [AxisymmetricDisk.np s] -> wf_ndarray p ->
  exists m b vk vm r,
    AxisymmetricDisk.evaluate (AxisymmetricDisk.set_par (ravel p) s) None false
    = Return (m, None) /\
    Kinematics.bin k m = Return b /\
    Kinematics.vel k = Some vk /\ Kinematics.vel_mask k = Some vm /\
    AxisymmetricDisk._resid p s = (Return r, AxisymmetricDisk.set_par (ravel p) s) /\
    let good := map negb vm in
    shape r = [count_true good] /\ length (ravel r) = count_true good /\
    forall i v bv, vm !! i = Some false -> vk !! i = Some v -> b !! i = Some bv ->
      ravel r !! count_true (take i good) = Some (v - bv).
Proof.
  intros Hwf Hi Hgx Hpsf Hap Hprep Hp Hwfp.
  destruct (axisym_resid_run a k rc0 p0 fix_ fom s p Hwf Hi Hgx Hpsf Hap Hprep Hp Hwfp)
    as (m & b & vk & vm & Hev & Hb & Hvk & Hvm & Hl1 & Hl2 & Hres).
  exists m, b, vk, vm. eexists. do 4 (split; [done|]). split; [exact Hres|].
  cbv zeta in *. simpl. split; [done|]. split.
  - rewrite length_zip_with. lia.
  - intros i v bv Hmi Hvi Hbi. apply good_lookup in Hmi.
    apply lookup_zip_with_Some2.
    + by rewrite mask_filter_lookup.
    + by rewrite mask_filter_lookup.
Qed.

Lemma good_pixels_positive (vm : list bool) (iv : list R) :
  masks_nonpositive vm iv -> Forall (fun v => 0 < v) (mask_filter (map negb vm) iv).
Proof.
  intros [Hlen Hmask]. revert iv Hlen Hmask.
  induction vm as [|b vm IH]; intros [|v iv] Hlen Hmask; simpl in *; try done.
  assert (Htail : Forall (fun v => 0 < v) (mask_filter (map negb vm) iv)).
  { apply IH; [lia|]. intros q w Hq Hw. by apply (Hmask (S q) w). }
  destruct b; simpl; [done|]. constructor; [|done].
  destruct (Rlt_dec 0 v) as [|Hn]; [done|].
  specialize (Hmask 0%nat v eq_refl). simpl in Hmask.
  assert (Hle : v <= 0) by lra. by specialize (Hmask Hle).
Qed.

(** [_chisqr(par)] for data with inverse variances: [_fit_prep] selects it,
    and it returns the residuals times the square roots of the inverse
    variances of the unmasked measurements, all of which are positive. *)
Theorem axisym_chisqr_weights (a : Kinematics.args) (k : Kinematics.t)
    (rc0 : Curve1D) (p0 : option (list R)) (fix_ : option (list bool))
    (fom : fom_kind) (s : AxisymmetricDisk.t) (p : ndarray R) (iv : list R) :
  wf_args a ->
  Kinematics.__init__ a = Return k ->
  Kinematics.arg_grid_x a <> None ->
  Kinematics.arg_psf a = None -> Kinematics.arg_aperture a = None ->
  Kinematics.vel_ivar k = Some iv ->
  AxisymmetricDisk._fit_prep k p0 fix_ false (AxisymmetricDisk.__init__ rc0 None)
  = (Return fom, s) ->
  shape p = [AxisymmetricDisk.np s] -> wf_ndarray p ->
  fom = FomChisqr /\
  exists r vm,
    AxisymmetricDisk._resid p s = (Return r, AxisymmetricDisk.set_par (ravel p) s) /\
    Kinematics.vel_mask k = Some vm /\
    let good := map negb vm in
    Forall (fun w => 0 < w) (mask_filter good iv) /\
    AxisymmetricDisk._chisqr p s
    = (Return (NDArray [count_true good]
                 (zip_with Rmult (ravel r) (map sqrt (mask_filter good iv)))),
       AxisymmetricDisk.set_par (ravel p) s).
Proof.
  intros Hwf Hi Hgx Hpsf Hap Hiv Hprep Hp Hwfp.
  destruct (axisym_resid_run a k rc0 p0 fix_ fom s p Hwf Hi Hgx Hpsf Hap Hprep Hp Hwfp)
    as (m & b & vk & vm & Hev & Hb & Hvk & Hvm & Hl1 & Hl2 & Hres).
  cbv zeta in *.
  destruct (init_masks_cover_nonpositive a k Hwf Hi) as (Hmasks & _).
  rewrite Hiv, Hvm in Hmasks. destruct Hmasks as (vm' & [= <-] & Hmasks).
  pose proof Hmasks as [Hlm _].
  pose proof Hprep as Hprep'.
  apply axisym_fit_prep_plain_Return in Hprep' as (s1 & Hinit & Hs).
  pose proof Hinit as Hinit'.
  apply axisym_init_par_Return in Hinit' as (_ & _ & Hs1). cbv zeta in Hs1.
  split.
  { rewrite (axisym_fit_prep_plain k p0 fix_ _ s1 Hinit) in Hprep. injection Hprep as <- _.
    rewrite Hiv. subst s1. reflexivity. }
  eexists. exists vm. split; [exact Hres|]. split; [done|].
  split; [by apply good_pixels_positive|].
  set (s2 := AxisymmetricDisk.set_par (ravel p) s) in *.
  assert (Hdc : AxisymmetricDisk.dc s = None) by (subst s s1; reflexivity).
  assert (Hk2 : AxisymmetricDisk.kin s2 = Some k) by (subst s2 s s1; reflexivity).
  assert (Hg2 : AxisymmetricDisk.vel_gpm s2 = AxisymmetricDisk.GpmMask (map negb vm)).
  { subst s2 s s1. simpl. by rewrite Hvm. }
  unfold AxisymmetricDisk._chisqr. cbv [mbind py_bind py_get]. rewrite Hdc, Hres.
  cbv [py_lift AxisymmetricDisk.the_kin]. rewrite Hk2, Hiv, Hg2.
  cbv [AxisymmetricDisk.index_gpm np_mask_select].
  rewrite length_map, Hlm, Nat.eqb_refl. cbn [mbind result_bind].
  unfold AxisymmetricDisk.np_broadcast. cbn [ravel shape].
  assert (Hlg : length (map negb vm) = length iv) by (by rewrite length_map).
  rewrite length_map, length_zip_with, Hl1, Hl2, Nat.min_id.
  rewrite mask_filter_length by done. rewrite Nat.eqb_refl. cbn [mbind result_bind].
  rewrite length_zip_with, length_zip_with, length_map, Hl1, Hl2.
  rewrite mask_filter_length by done. by rewrite !Nat.min_id.
Qed.

End AxisymResid.

(** ** Default bounds *)

Section Bounds.
Context `{FitErrors} `{Geometry}.
Local Open Scope R_scope.

Lemma extrema_enclose (l : list R) :
  l <> [] ->
  exists lo hi, Kinematics.np_amin l = Return lo /\ Kinematics.np_amax l = Return hi /\
    forall v, In v l -> lo <= v <= hi.
Proof.
  intros Hne. destruct l as [|h t]; [done|].
  destruct (np_amin_le (h :: t) h) as (lo & Hlo & _); [by left|].
  destruct (np_amax_ge (h :: t) h) as (hi & Hhi & _); [by left|].
  exists lo, hi. do 2 (split; [done|]). intros v Hv.
  destruct (np_amin_le (h :: t) v Hv) as (lo' & Hlo' & Hle).
  destruct (np_amax_ge (h :: t) v Hv) as (hi' & Hhi' & Hge).
  rewrite Hlo in Hlo'. rewrite Hhi in Hhi'. injection Hlo' as <-. injection Hhi' as <-. lra.
Qed.

(** The default bounds of both models confine the centre to the bounding
    box of the evaluation grid: every grid coordinate lies between the lower
    and the upper bound of [xc] (of [yc]); the other base bounds are
    constants. *)
Theorem default_bounds_enclose_grid :
  (forall (s : AxisymmetricDisk.t) (gx gy : ndarray R),
     AxisymmetricDisk.x s = Some gx -> AxisymmetricDisk.y s = Some gy ->
     ravel gx <> [] -> ravel gy <> [] ->
     exists lb ub lx ux ly uy,
       AxisymmetricDisk.par_bounds s = Return (lb, ub) /\
       take 5 lb = [lx; ly; -350; 0; -300] /\ take 5 ub = [ux; uy; 350; 89; 300] /\
       (forall v, In v (ravel gx) -> lx <= v <= ux) /\
       (forall v, In v (ravel gy) -> ly <= v <= uy)) /\
  (forall (s : BisymmetricDisk.t) (gx gy : ndarray R),
     BisymmetricDisk.x s = Some gx -> BisymmetricDisk.y s = Some gy ->
     ravel gx <> [] -> ravel gy <> [] ->
     exists lb ub lx ux ly uy,
       BisymmetricDisk.par_bounds s None None = Return (lb, ub) /\
       take 6 lb = [lx; ly; -350; 1; -100; -300] /\ take 6 ub = [ux; uy; 350; 89; 100; 300] /\
       (forall v, In v (ravel gx) -> lx <= v <= ux) /\
       (forall v, In v (ravel gy) -> ly <= v <= uy)).
Proof.
  split.
  - intros s gx gy Hx Hy Hnx Hny.
    destruct (extrema_enclose _ Hnx) as (lx & ux & Elx & Eux & Hxs).
    destruct (extrema_enclose _ Hny) as (ly & uy & Ely & Euy & Hys).
    unfold AxisymmetricDisk.par_bounds, AxisymmetricDisk.amin_of, AxisymmetricDisk.amax_of.
    rewrite Hx, Hy, Elx, Eux, Ely, Euy. cbn [mbind result_bind].
    destruct (AxisymmetricDisk.dc s); do 2 eexists; exists lx, ux, ly, uy;
      (split; [reflexivity|]); done.
  - intros s gx gy Hx Hy Hnx Hny.
    destruct (extrema_enclose _ Hnx) as (lx & ux & Elx & Eux & Hxs).
    destruct (extrema_enclose _ Hny) as (ly & uy & Ely & Euy & Hys).
    unfold BisymmetricDisk.par_bounds, AxisymmetricDisk.amin_of, AxisymmetricDisk.amax_of.
    rewrite Hx, Hy, Elx, Eux, Ely, Euy. cbn [mbind result_bind raise_if is_None orb andb].
    destruct (BisymmetricDisk.dc s); do 2 eexists; exists lx, ux, ly, uy;
      (split; [reflexivity|]); done.
Qed.

End Bounds.

(** * Examples on concrete inputs *)

#[local] Existing Instance sample_beam_ops.
#[local] Existing Instance sample_geometry.
#[local] Existing Instance sample_mock_ops.
#[local] Existing Instance sample_fit_errors.
#[local] Existing Instance sample_optimizer.


Lemma sample_binned_wf : wf_args sample_binned_args.
Proof. unfold wf_args. simpl. by repeat split. Qed.

(** [default_grid_layout] on the unbinned sample: the coordinates of cells
    [(1, 0)] and [(0, 1)]. *)
Lemma default_grid_layout_example :
  exists k,
    Kinematics.__init__ sample_unbinned_args = Return k /\
    Kinematics.x k !! 2%nat = Some 0%R /\ Kinematics.y k !! 2%nat = Some 0%R /\
    Kinematics.x k !! 1%nat = Some (-1)%R /\ Kinematics.y k !! 1%nat = Some (-1)%R.
Proof.
  eexists. split; [reflexivity|].
  destruct (default_grid_layout sample_unbinned_args _ eq_refl eq_refl) as [_ Hgrid].
  assert (H02 : 0 < 2) by lia. assert (H12 : 1 < 2) by lia.
  destruct (Hgrid eq_refl 1%nat 0%nat H12 H02) as [Hx10 Hy10].
  destruct (Hgrid eq_refl 0%nat 1%nat H02 H12) as [Hx01 Hy01].
  split; [exact Hx10|]. split; [exact Hy10|]. split; [exact Hx01 | exact Hy01].
Defined.

(** C7, on the code: the constructor, given the 2 by 2 [vel] of the
    unbinned sample and no [x] and [y], stores a default [x] that does not
    change from cell [(0, 0)] to cell [(1, 0)], one step along the first
    axis; it falls along the second axis, and it is [y] that changes along
    the first.  The claim, like the docstring of the class ([x] varies along
    the first axis of the velocity array, [y] along the second), has [x]
    fall with the first-axis index. *)
Lemma default_grid_x_constant_along_first_axis :
  exists k,
    Kinematics.__init__ sample_unbinned_args = Return k /\
    Kinematics.x k = [0; -1; 0; -1]%R /\
    Kinematics.y k = [-1; -1; 0; 0]%R /\
    ~ (nth (1 * 2 + 0) (Kinematics.x k) 0 < nth (0 * 2 + 0) (Kinematics.x k) 0)%R.
Proof.
  eexists. split; [reflexivity|]. split; [reflexivity|]. split; [reflexivity|].
  simpl. lra.
Qed.

(** C8 on the unbinned sample, at the measurement with coordinates
    [(-1, -1)]. *)
Lemma max_radius_encloses_example :
  exists k,
    Kinematics.__init__ sample_unbinned_args = Return k /\
    exists r, Kinematics.max_radius k = Return r /\ (sqrt ((-1) ^ 2 + (-1) ^ 2) <= r)%R.
Proof.
  eexists. split; [reflexivity|].
  apply (max_radius_encloses sample_unbinned_args _ 1 (-1)%R (-1)%R); reflexivity.
Defined.

(** C9 on a mock galaxy with [border = 0] and a PSF given. *)
Lemma mock_without_border_fails_example :
  (forall k, Kinematics.mock sample_mock_args <> Return k) /\
  Kinematics.mock sample_mock_args = Raise (UnboundLocalError "_psf").
Proof.
  destruct (mock_without_border_fails sample_mock_args eq_refl) as [Hnever Hunbound].
  split; [exact Hnever|].
  apply Hunbound.
  - reflexivity.
  - reflexivity.
  - reflexivity.
  - discriminate.
  - simpl. lia.
  - discriminate.
Defined.

(** An axisymmetric model after [_init_par]: position angle and inclination
    are fixed, the other four parameters are free. *)
Definition sample_axisym : AxisymmetricDisk.t :=
  (AxisymmetricDisk._init_par None (Some [false; false; true; true; false; false])
     (AxisymmetricDisk.__init__ sample_curve None)).2.

(** A bisymmetric model after [_init_par], with the same parameters fixed;
    its bisymmetry position angle is 90 degrees. *)
Definition sample_bisym_par : list R := [0; 0; 45; 30; 90; 0; 100; 50; 50]%R.

Definition sample_bisym : BisymmetricDisk.t :=
  (BisymmetricDisk._init_par (Some sample_bisym_par)
     (Some [false; false; true; true; false; false; false; false; false])
     (BisymmetricDisk.__init__ sample_curve sample_curve sample_curve None)).2.

(** The same model with a 2 by 2 evaluation grid. *)
Definition sample_bisym_on_grid : BisymmetricDisk.t :=
  BisymmetricDisk.set_coo (Some (sample_map 1 (-1) 1 (-1)))
                          (Some (sample_map (-1) (-1) 1 1)) None sample_bisym.

(** C5 on the two sample models: a full vector, a vector for the four (seven)
    free parameters, and a vector of three entries. *)
Lemma set_par_frame_example :
  (exists s',
     AxisymmetricDisk._set_par (NDArray [6%nat] [1; 2; 3; 4; 5; 6]%R) sample_axisym
     = (Return tt, s') /\
     AxisymmetricDisk.par s' = [1; 2; 3; 4; 5; 6]%R) /\
  (exists s',
     AxisymmetricDisk._set_par (NDArray [4%nat] [1; 2; 5; 6]%R) sample_axisym
     = (Return tt, s') /\
     length (AxisymmetricDisk.par s') = 6%nat /\
     (forall i, AxisymmetricDisk.free sample_axisym !! i = Some false ->
                AxisymmetricDisk.par s' !! i = AxisymmetricDisk.par sample_axisym !! i) /\
     mask_filter (AxisymmetricDisk.free sample_axisym) (AxisymmetricDisk.par s')
     = [1; 2; 5; 6]%R) /\
  (exists msg,
     AxisymmetricDisk._set_par (NDArray [3%nat] [1; 2; 3]%R) sample_axisym
     = (Raise (ValueError msg), sample_axisym)) /\
  (exists s',
     BisymmetricDisk._set_par (NDArray [7%nat] [1; 2; 3; 4; 5; 6; 7]%R) sample_bisym
     = (Return tt, s') /\
     length (BisymmetricDisk.par s') = 9%nat /\
     (forall i, BisymmetricDisk.free sample_bisym !! i = Some false ->
                BisymmetricDisk.par s' !! i = BisymmetricDisk.par sample_bisym !! i) /\
     mask_filter (BisymmetricDisk.free sample_bisym) (BisymmetricDisk.par s')
     = [1; 2; 3; 4; 5; 6; 7]%R).
Proof.
  assert (Ha : par_consistent (AxisymmetricDisk.np sample_axisym)
                 (AxisymmetricDisk.nfree sample_axisym)
                 (AxisymmetricDisk.par sample_axisym) (AxisymmetricDisk.free sample_axisym))
    by (by repeat split).
  assert (Hb : par_consistent (BisymmetricDisk.np sample_bisym)
                 (BisymmetricDisk.nfree sample_bisym)
                 (BisymmetricDisk.par sample_bisym) (BisymmetricDisk.free sample_bisym))
    by (by repeat split).
  destruct set_par_frame as [Haxi Hbi].
  split; [|split; [|split]].
  - destruct (proj1 (Haxi sample_axisym (NDArray [6%nat] [1; 2; 3; 4; 5; 6]%R) Ha eq_refl)
                eq_refl) as (s' & Hset & Hpar & _).
    exists s'. split; [exact Hset | exact Hpar].
  - destruct (proj1 (proj2 (Haxi sample_axisym (NDArray [4%nat] [1; 2; 5; 6]%R) Ha eq_refl))
                eq_refl) as (s' & Hset & Hlen & Hfix & Hfree & _).
    exists s'. split; [exact Hset|]. split; [exact Hlen|]. split; [exact Hfix | exact Hfree].
  - apply (proj2 (proj2 (Haxi sample_axisym (NDArray [3%nat] [1; 2; 3]%R) Ha eq_refl))
                 3%nat eq_refl); vm_compute; lia.
  - destruct (proj1 (proj2 (Hbi sample_bisym (NDArray [7%nat] [1; 2; 3; 4; 5; 6; 7]%R) Hb
                              eq_refl)) eq_refl) as (s' & Hset & Hlen & Hfix & Hfree & _).
    exists s'. split; [exact Hset|]. split; [exact Hlen|]. split; [exact Hfix | exact Hfree].
Defined.

(** C6 on the two sample models and the binned sample data. *)
Lemma lsq_fit_call_restricted_to_free_example :
  (exists c s1,
     AxisymmetricDisk.lsq_fit_call sample_binned_kin false None
       (Some [false; false; true; true; false; false]) 0
       (AxisymmetricDisk.__init__ sample_curve None) = (Return c, s1) /\
     lsq_method c = "trf"%string /\
     lsq_x0 c = mask_filter (AxisymmetricDisk.free s1) (AxisymmetricDisk.par s1) /\
     lsq_diff_step c = repeat 0.1%R (count_true (AxisymmetricDisk.free s1))) /\
  (exists c s1,
     BisymmetricDisk.lsq_fit_call sample_binned_kin false (Some sample_bisym_par)
       (Some [false; false; true; true; false; false; false; false; false])
       None None None 0 false true
       (BisymmetricDisk.__init__ sample_curve sample_curve sample_curve None)
     = (Return c, s1) /\
     lsq_method c = "trf"%string /\
     lsq_x0 c = mask_filter (BisymmetricDisk.free s1) (BisymmetricDisk.par s1) /\
     lsq_diff_step c = repeat 0.01%R (count_true (BisymmetricDisk.free s1))).
Proof.
  destruct lsq_fit_call_restricted_to_free as [Haxi Hbi]. split.
  - destruct (AxisymmetricDisk.lsq_fit_call sample_binned_kin false None
                (Some [false; false; true; true; false; false]) 0
                (AxisymmetricDisk.__init__ sample_curve None)) as [[c|e] s1] eqn:Hcall.
    + destruct (Haxi _ _ _ _ _ _ _ _ Hcall) as (_ & Hm & Hx0 & _ & Hds).
      exists c, s1. split; [reflexivity|].
      split; [exact Hm|]. split; [exact Hx0 | exact Hds].
    + vm_compute in Hcall. discriminate Hcall.
  - destruct (BisymmetricDisk.lsq_fit_call sample_binned_kin false (Some sample_bisym_par)
                (Some [false; false; true; true; false; false; false; false; false])
                None None None 0 false true
                (BisymmetricDisk.__init__ sample_curve sample_curve sample_curve None))
      as [[c|e] s1] eqn:Hcall.
    + destruct (Hbi _ _ _ _ _ _ _ _ _ _ _ _ _ Hcall) as (_ & Hm & Hx0 & _ & Hds).
      exists c, s1. split; [reflexivity|].
      split; [exact Hm|]. split; [exact Hx0 | exact Hds].
    + vm_compute in Hcall. discriminate Hcall.
Defined.

(** C6 as stated fails on the axisymmetric sample: every step handed to the
    optimizer is 0.1, none is 0.01. *)
Lemma axisym_diff_step_is_ten_percent :
  Kinematics.__init__ sample_binned_args = Return sample_binned_kin /\
  exists c s1,
    AxisymmetricDisk.lsq_fit_call sample_binned_kin false None None 0
      (AxisymmetricDisk.__init__ sample_curve None) = (Return c, s1) /\
    lsq_diff_step c = [0.1; 0.1; 0.1; 0.1; 0.1; 0.1]%R /\
    Forall (fun step => step <> 0.01%R) (lsq_diff_step c).
Proof.
  split; [reflexivity|].
  eexists. eexists. split; [reflexivity|].
  split; [reflexivity|]. simpl. repeat constructor; lra.
Qed.


(** A bisymmetric model on the 2 by 2 grid whose bisymmetry position angle
    is 0 degrees, at an inclination of 30 degrees. *)
Definition sample_bisym_axis0_on_grid : BisymmetricDisk.t :=
  BisymmetricDisk.set_coo (Some (sample_map 1 (-1) 1 (-1)))
                          (Some (sample_map (-1) (-1) 1 1)) None
    (BisymmetricDisk._init_par (Some [0; 0; 45; 30; 0; 0; 100; 50; 50]%R) None
       (BisymmetricDisk.__init__ sample_curve sample_curve sample_curve None)).2.

(** C2 on that model, at the first cell of its grid: [cos(phi_b') = 1] and
    [cos(i) > 0]. *)
Lemma bisym_los_velocity_example :
  exists vel,
    BisymmetricDisk.los_velocity sample_bisym_axis0_on_grid = Return vel /\
    exists theta_b : R,
      ravel vel !! 0%nat
      = Some (0 + 100 * cos 0 - 50 * cos 0 * cos (2 * theta_b)
              - 50 * sin 0 * sin (2 * theta_b))%R.
Proof.
  destruct (BisymmetricDisk.los_velocity sample_bisym_axis0_on_grid) as [vel|e] eqn:Hv.
  - destruct (bisym_los_velocity sample_bisym_axis0_on_grid _ _ vel eq_refl eq_refl Hv)
      as (xc & yc & pa & i & phi_b & vsys & Hxc & Hyc & Hpa & Hi & Hpab & Hvsys & _ & _ & Hform).
    change (Some 0%R = Some xc) in Hxc. injection Hxc as <-.
    change (Some 0%R = Some yc) in Hyc. injection Hyc as <-.
    change (Some 30%R = Some i) in Hi. injection Hi as <-.
    change (Some 0%R = Some phi_b) in Hpab. injection Hpab as <-.
    change (Some 0%R = Some vsys) in Hvsys. injection Hvsys as <-.
    exists vel. split; [reflexivity|]. eexists.
    refine (Hform _ _ 0%nat 1%R (-1)%R eq_refl eq_refl).
    + fold (BisymmetricDisk.wrap_pab (np_radians 0)). rewrite wrap_pab_0, cos_0.
      apply R1_neq_R0.
    + apply Rgt_not_eq, cos_gt_0; unfold np_radians; pose proof PI_RGT_0; lra.
  - exfalso. vm_compute in Hv. discriminate Hv.
Defined.

(** C2 as stated fails on the bisymmetric sample, whose [phi_b] is 90
    degrees: the velocity is computed with the wrapped angle -90 degrees,
    which is not inside the open interval from -90 to 90 degrees. *)
Lemma wrap_pab_90_outside_open_interval :
  BisymmetricDisk.par sample_bisym_on_grid !! 4%nat = Some 90%R /\
  (exists vel, BisymmetricDisk.los_velocity sample_bisym_on_grid = Return vel) /\
  BisymmetricDisk.wrap_pab (np_radians 90) = (- (PI / 2))%R /\
  ~ (- (PI / 2) < BisymmetricDisk.wrap_pab (np_radians 90) < PI / 2)%R.
Proof.
  split; [reflexivity|]. split; [eexists; reflexivity|].
  split; [apply wrap_pab_90|]. rewrite wrap_pab_90. lra.
Qed.

(** ** Examples for the further properties *)

Definition sample_smear : @Smear sample_beam_ops :=
  {| cnvfftw := unit;
     smear_vel := fun v _ _ _ => Return v;
     smear_vel_sig := fun v _ _ sg _ => Return (v, sg) |}.

Definition sample_dispersion : @PhysicalDispersion sample_beam_ops :=
  {| sig_phys2 := fun _ => None;
     sig_phys2_ivar := fun _ => None |}.

(** Velocities on a 2 by 2 grid with both coordinate grids, and the given
    [x], [sig_corr], [psf] and [binid]. *)
Definition sample_args_with (x0 : option (ndarray R)) (sc : option marray)
    (psf0 : option (ndarray R)) (bid : option (ndarray Z)) : Kinematics.args :=
  {| Kinematics.arg_vel := Plain (sample_map 10 20 30 40);
     Kinematics.arg_vel_ivar := None; Kinematics.arg_vel_mask := None;
     Kinematics.arg_x := x0; Kinematics.arg_y := None;
     Kinematics.arg_sb := None; Kinematics.arg_sb_ivar := None;
     Kinematics.arg_sb_mask := None;
     Kinematics.arg_sig := None; Kinematics.arg_sig_ivar := None;
     Kinematics.arg_sig_mask := None; Kinematics.arg_sig_corr := sc;
     Kinematics.arg_psf := psf0; Kinematics.arg_aperture := None;
     Kinematics.arg_binid := bid;
     Kinematics.arg_grid_x := Some (sample_map 1 (-1) 1 (-1));
     Kinematics.arg_grid_y := Some (sample_map (-1) (-1) 1 1);
     Kinematics.arg_reff := None; Kinematics.arg_fwhm := None;
     Kinematics.arg_bordermask := None |}.

(** Binned data with inverse variances, surface brightness and a border
    mask: the first measurement has inverse variance zero. *)
Definition sample_full_args : Kinematics.args :=
  {| Kinematics.arg_vel := Plain (sample_map 10 20 30 40);
     Kinematics.arg_vel_ivar := Some (Plain (sample_map 0 1 1 4));
     Kinematics.arg_vel_mask := None;
     Kinematics.arg_x := None; Kinematics.arg_y := None;
     Kinematics.arg_sb := Some (Plain (sample_map 1 2 3 4));
     Kinematics.arg_sb_ivar := None; Kinematics.arg_sb_mask := None;
     Kinematics.arg_sig := None; Kinematics.arg_sig_ivar := None;
     Kinematics.arg_sig_mask := None; Kinematics.arg_sig_corr := None;
     Kinematics.arg_psf := None; Kinematics.arg_aperture := None;
     Kinematics.arg_binid := Some (NDArray [2%nat; 2%nat] [5; -1; 5; 7]%Z);
     Kinematics.arg_grid_x := Some (sample_map 1 (-1) 1 (-1));
     Kinematics.arg_grid_y := Some (sample_map (-1) (-1) 1 1);
     Kinematics.arg_reff := None; Kinematics.arg_fwhm := None;
     Kinematics.arg_bordermask := Some (sample_map 1 0 0 0) |}.

#[local] Existing Instance sample_smear.
#[local] Existing Instance sample_dispersion.

Lemma sample_full_wf : wf_args sample_full_args.
Proof. unfold wf_args. simpl. by repeat split. Qed.

Lemma sample_args_with_wf (x0 : option (ndarray R)) (sc : option marray)
    (psf0 : option (ndarray R)) (bid : option (ndarray Z)) :
  wf_opt x0 -> wf_opt_ma sc -> wf_opt psf0 -> wf_opt bid ->
  wf_args (sample_args_with x0 sc psf0 bid).
Proof. intros. unfold wf_args. simpl. by repeat split. Qed.

(** A 3 by 3 point-spread function with 2 by 2 velocities. *)
Lemma init_refuses_companion_of_other_shape_example :
  Kinematics.__init__
    (sample_args_with None None (Some (NDArray [3%nat; 3%nat] (repeat 0%R 9))) None)
  = Raise (ValueError "All arrays provided to Kinematics must have the same shape.").
Proof.
  apply (init_refuses_companion_of_other_shape _ 2 [3%nat; 3%nat]).
  - reflexivity.
  - simpl. tauto.
  - discriminate.
Defined.

(** [x] without [y]. *)
Lemma init_refuses_x_without_y_example :
  Kinematics.__init__ (sample_args_with (Some (sample_map 1 (-1) 1 (-1))) None None None)
  = Raise (ValueError "Must provide both x and y or neither.").
Proof.
  apply (init_refuses_x_without_y _ 2).
  - reflexivity.
  - intros s Hs. simpl in Hs. intuition congruence.
  - discriminate.
Defined.

(** A masked [sig_corr] and no [sig]. *)
Lemma init_masked_sig_corr_without_sig_example :
  Kinematics.__init__
    (sample_args_with None
       (Some (MaskedArray (sample_map 1 1 1 1) (NDArray [2%nat; 2%nat] [false; false; false; true])))
       None None)
  = Raise TypeError.
Proof.
  eapply (init_masked_sig_corr_without_sig _ 2); reflexivity.
Defined.

(** A bin-id map of [-1] only. *)
Lemma init_refuses_map_without_bins_example :
  Kinematics.__init__
    (sample_args_with None None None (Some (NDArray [2%nat; 2%nat] [-1; -1; -1; -1]%Z)))
  = Raise (ValueError "not enough values to unpack (expected 3, got 0)").
Proof.
  apply (init_refuses_map_without_bins _ 2 (NDArray [2%nat; 2%nat] [-1; -1; -1; -1]%Z));
    try reflexivity.
  simpl. intros z Hz. intuition.
Defined.

(** The constructor returns on [sample_full_args]. *)
Lemma init_succeeds_example :
  exists k, Kinematics.__init__ sample_full_args = Return k.
Proof.
  apply (init_succeeds sample_full_args 2 sample_full_wf).
  - reflexivity.
  - discriminate.
  - intros b [= <-]. exists 5%Z. simpl. split; [tauto|lia].
  - intros bm [= <-]. reflexivity.
Defined.

(** The vectors built from [sample_full_args] have one length. *)
Lemma init_vectors_one_length_example :
  exists k,
    Kinematics.__init__ sample_full_args = Return k /\
    length (Kinematics.x k) = nrows (Kinematics.bin_transform k) /\
    opt_length (Kinematics.sb k) (nrows (Kinematics.bin_transform k)) /\
    opt_length (Kinematics.bordermask k) (nrows (Kinematics.bin_transform k)).
Proof.
  eexists. split; [reflexivity|].
  destruct (init_vectors_one_length sample_full_args _ sample_full_wf eq_refl)
    as (Hx & _ & Hsb & _ & _ & _ & _ & _ & _ & _ & _ & Hbm & _).
  split; [exact Hx|]. split; [exact Hsb | exact Hbm].
Defined.

(** The velocity mask built from [sample_full_args] covers the measurement
    whose inverse variance is zero. *)
Lemma init_masks_nonpositive_ivar_example :
  exists k,
    Kinematics.__init__ sample_full_args = Return k /\
    opt_masks_nonpositive (Kinematics.vel_mask k) (Kinematics.vel_ivar k).
Proof.
  eexists. split; [reflexivity|].
  exact (proj1 (init_masks_nonpositive_ivar sample_full_args _ sample_full_wf eq_refl)).
Defined.

(** The bin ids kept from the map [[5, -1], [5, 7]]. *)
Lemma init_binid_sorted_distinct_example :
  exists k ids,
    Kinematics.__init__ sample_full_args = Return k /\
    Kinematics.binid k = Some ids /\ StronglySorted Z.lt ids /\
    forall id, In id ids <-> In id [5; -1; 5; 7]%Z /\ id <> (-1)%Z.
Proof.
  eexists.
  destruct (init_binid_sorted_distinct sample_full_args _
              (NDArray [2%nat; 2%nat] [5; -1; 5; 7]%Z) sample_full_wf eq_refl eq_refl)
    as (ids & Hids & Hsorted & _ & Hin & _).
  exists ids. split; [reflexivity|]. split; [exact Hids|]. split; [exact Hsorted|].
  apply Hin. simpl. intros z Hz. intuition lia.
Defined.

Definition sample_negative_id_args : Kinematics.args :=
  sample_args_with None None None (Some (NDArray [2%nat; 2%nat] [5; -1; -2; 7]%Z)).

Lemma sample_negative_id_wf : wf_args sample_negative_id_args.
Proof. by apply sample_args_with_wf. Qed.

(** From the map [[5, -1], [-2, 7]] the id [-2] is dropped and [-1] is kept as
    a bin. *)
Lemma init_drops_the_smallest_bin_id_example :
  exists k ids,
    Kinematics.__init__ sample_negative_id_args = Return k /\
    Kinematics.binid k = Some ids /\ In (-1)%Z ids /\ ~ In (-2)%Z ids.
Proof.
  eexists.
  destruct (init_drops_the_smallest_bin_id sample_negative_id_args _
              (NDArray [2%nat; 2%nat] [5; -1; -2; 7]%Z) (-2)%Z
              sample_negative_id_wf eq_refl eq_refl)
    as (ids & m & Hids & Hm1 & Hm & Hmin & Hnot).
  - simpl. tauto.
  - simpl. tauto.
  - lia.
  - exists ids. split; [reflexivity|]. split; [exact Hids|]. split; [exact Hm1|].
    assert (m = (-2)%Z) as <-; [|exact Hnot].
    assert (Hle : (m <= -2)%Z) by (apply Hmin; simpl; tauto).
    simpl in Hm. lia.
Defined.

(** The vector [[3, 4]] remapped onto the grid of [sample_full_args]: cell 2
    belongs to bin 5, cell 1 to no bin. *)
Lemma remap_data_fills_and_masks_example :
  exists k img m,
    Kinematics.__init__ sample_full_args = Return k /\
    Kinematics.remap k (Kinematics.RemapData (NDArray [2%nat] [3; 4]%R)) true
    = Return (Kinematics.RemapMasked img m) /\
    ravel img !! 2%nat = Some 3%R /\ ravel m !! 2%nat = Some false /\
    ravel m !! 1%nat = Some true.
Proof.
  eexists.
  destruct (remap_data_fills_and_masks sample_full_args _ (NDArray [2%nat] [3; 4]%R)
              [10; 40]%R sample_full_wf eq_refl eq_refl eq_refl eq_refl)
    as (img & m & img0 & Hremap & _ & _ & _ & _ & _ & _ & _ & Hfill & Hrest).
  exists img, m. split; [reflexivity|]. split; [exact Hremap|].
  destruct (Hfill 1%nat 2%nat 0%nat eq_refl eq_refl) as (Hv & _ & Hm).
  split; [exact Hv|]. split; [exact Hm|].
  apply Hrest; [simpl; lia|]. simpl. intuition lia.
Defined.

(** [remap('vel')] on [sample_full_args]. *)
Lemma remap_attribute_fills_and_masks_example :
  exists k img m,
    Kinematics.__init__ sample_full_args = Return k /\
    Kinematics.remap k (Kinematics.RemapAttr "vel") true
    = Return (Kinematics.RemapMasked img m) /\
    ravel img !! 2%nat = Some 10%R /\ ravel img !! 1%nat = Some 0%R /\
    ravel m !! 1%nat = Some true.
Proof.
  eexists.
  destruct (remap_attribute_fills_and_masks sample_full_args _ "vel" [10; 40]%R true
              sample_full_wf eq_refl eq_refl)
    as (img & _ & _ & Hfill & Hrest & m & Hremap & _ & _ & _ & Hmrest).
  exists img, m. split; [reflexivity|]. split; [exact Hremap|].
  split; [exact (Hfill 1%nat 2%nat 0%nat eq_refl eq_refl)|].
  split; [apply Hrest | apply Hmrest]; try (simpl; lia); simpl; intuition lia.
Defined.

(** [border()] on [sample_full_args], which has a border mask. *)
Lemma border_masks_every_vector_example :
  exists k b m,
    Kinematics.__init__ sample_full_args = Return k /\
    Kinematics.bordermask k = Some m /\
    Kinematics.border k = Return b /\
    Kinematics.b_x b = (Kinematics.x k, m) /\
    Kinematics.b_vel b = (fun d => (d, m)) <$> Kinematics.vel k.
Proof.
  eexists.
  pose proof (border_masks_every_vector sample_full_args _ sample_full_wf eq_refl) as Hb.
  simpl in Hb. do 2 eexists. split; [reflexivity|]. split; [reflexivity|].
  split; [exact Hb|]. split; reflexivity.
Defined.

(** The bisymmetric sample with every parameter free. *)
Definition sample_bisym_free : BisymmetricDisk.t :=
  (BisymmetricDisk._init_par (Some sample_bisym_par) None
     (BisymmetricDisk.__init__ sample_curve sample_curve sample_curve None)).2.

(** The four parameter blocks of the bisymmetric sample. *)
Lemma bisym_par_blocks_partition_example :
  exists b t t2 r2,
    BisymmetricDisk._init_par (Some sample_bisym_par) None
      (BisymmetricDisk.__init__ sample_curve sample_curve sample_curve None)
    = (Return tt, sample_bisym_free) /\
    BisymmetricDisk.base_par false sample_bisym_free = Some b /\
    BisymmetricDisk.vt_par false sample_bisym_free = Some t /\
    BisymmetricDisk.v2t_par false sample_bisym_free = Some t2 /\
    BisymmetricDisk.v2r_par false sample_bisym_free = Some r2 /\
    BisymmetricDisk.par sample_bisym_free = b ++ t ++ t2 ++ r2.
Proof.
  destruct (bisym_par_blocks_partition sample_curve sample_curve sample_curve None
              (Some sample_bisym_par) None sample_bisym_free eq_refl)
    as (b & t & t2 & r2 & Hb & Ht & Ht2 & Hr2 & _ & _ & _ & _ & _ & Hpar).
  exists b, t, t2, r2. split; [reflexivity|].
  split; [exact Hb|]. split; [exact Ht|]. split; [exact Ht2|].
  split; [exact Hr2 | exact Hpar].
Defined.

(** [lsq_fit] of a new bisymmetric model without [p0]. *)
Lemma bisym_default_guess_is_rejected_example :
  BisymmetricDisk.lsq_fit sample_binned_kin false None None None None None 0 false true
    (BisymmetricDisk.__init__ sample_curve sample_curve sample_curve None)
  = (Raise (ValueError "Incorrect number of model parameters."),
     BisymmetricDisk.__init__ sample_curve sample_curve sample_curve None).
Proof.
  refine (proj2 (bisym_default_guess_is_rejected sample_curve sample_curve sample_curve None
                   sample_binned_kin false None None None None 0 false true
                   eq_refl eq_refl eq_refl I _)).
  simpl. lia.
Defined.


(** The axisymmetric sample with a 2 by 2 evaluation grid. *)
Definition sample_axisym_on_grid : AxisymmetricDisk.t :=
  AxisymmetricDisk.set_coo (Some (sample_map 1 (-1) 1 (-1)))
                           (Some (sample_map (-1) (-1) 1 1)) None sample_axisym.

(** [model()] of the axisymmetric sample on its grid: without a dispersion
    curve only the velocity field is returned. *)
Lemma axisym_model_fields_example :
  exists r,
    AxisymmetricDisk.model None None None None None false sample_axisym_on_grid
    = (Return r, sample_axisym_on_grid) /\
    shape r.1 = [2%nat; 2%nat] /\ r.2 = None.
Proof.
  destruct (AxisymmetricDisk.model None None None None None false sample_axisym_on_grid)
    as [[r|e] s'] eqn:Hm.
  - destruct (axisym_model_fields sample_axisym_on_grid s' _ _ None false r
                eq_refl eq_refl (or_introl eq_refl) Hm)
      as (-> & xc & yc & pa & inc & vsys & _ & _ & _ & _ & _ & Hshape & Hdc & _).
    exists r. split; [reflexivity|]. split; [exact Hshape|]. by apply Hdc.
  - exfalso. vm_compute in Hm. discriminate Hm.
Defined.

(** The surface-brightness weights of [sample_full_args] are 0 at cell 1,
    which belongs to no bin. *)
Lemma sb_weights_vanish_where_masked_example :
  exists k img,
    Kinematics.__init__ sample_full_args = Return k /\
    AxisymmetricDisk.remap_sb_filled k = Return img /\
    shape img = Kinematics.spatial_shape k /\
    ravel img !! 1%nat = Some 0%R.
Proof.
  eexists.
  pose proof (sb_weights_vanish_where_masked sample_full_args _ sample_full_wf eq_refl) as Hs.
  simpl in Hs. destruct Hs as (mk & img & _ & Himg & Hshape & _ & Hrest).
  exists img. split; [reflexivity|]. split; [exact Himg|]. split; [exact Hshape|].
  apply Hrest; [simpl; lia|]. simpl. intuition lia.
Defined.

(** The axisymmetric fit of the binned sample reaches the optimizer with
    the residual as its merit function. *)
Lemma axisym_lsq_fit_reaches_optimizer_example :
  exists c s',
    AxisymmetricDisk.lsq_fit_call sample_binned_kin false None
      (Some [false; false; true; true; false; false]) 0
      (AxisymmetricDisk.__init__ sample_curve None) = (Return c, s') /\
    lsq_fun c = FomResid /\
    AxisymmetricDisk.kin s' = Some sample_binned_kin /\
    length (lsq_x0 c) = AxisymmetricDisk.nfree s'.
Proof.
  destruct (axisym_lsq_fit_reaches_optimizer sample_binned_args sample_binned_kin
              sample_curve None None (Some [false; false; true; true; false; false]) 0
              sample_binned_wf eq_refl)
    as (c & s' & Hcall & Hfun & Hkin & _ & Hx0 & _); try reflexivity; try discriminate.
  - by intros f [= <-].
  - exists c, s'. split; [exact Hcall|]. split; [exact Hfun|]. split; [exact Hkin | exact Hx0].
Defined.

(** The axisymmetric sample prepared for a fit to the binned sample data. *)
Definition sample_axisym_fit : AxisymmetricDisk.t :=
  (AxisymmetricDisk._fit_prep sample_binned_kin None None false
     (AxisymmetricDisk.__init__ sample_curve None)).2.

(** The residual of the axisymmetric sample has one entry per measurement of
    the binned sample. *)
Lemma axisym_resid_over_good_pixels_example :
  exists r,
    AxisymmetricDisk._resid (NDArray [6%nat] [0; 0; 45; 30; 0; 100]%R) sample_axisym_fit
    = (Return r,
       AxisymmetricDisk.set_par [0; 0; 45; 30; 0; 100]%R sample_axisym_fit) /\
    shape r = [2%nat] /\ length (ravel r) = 2%nat.
Proof.
  destruct (axisym_resid_over_good_pixels sample_binned_args sample_binned_kin sample_curve
              None None FomResid sample_axisym_fit (NDArray [6%nat] [0; 0; 45; 30; 0; 100]%R)
              sample_binned_wf eq_refl)
    as (m & b & vk & vm & r & _ & _ & _ & Hvm & Hres & Hshape & Hlen & _);
    try reflexivity; try discriminate.
  injection Hvm as <-.
  exists r. split; [exact Hres|]. split; [exact Hshape | exact Hlen].
Defined.

(** What the constructor makes of [sample_full_args]. *)
Definition sample_full_kin : @Kinematics.t sample_beam_ops :=
  match Kinematics.__init__ sample_full_args with
  | Return k => k
  | Raise _ => sample_binned_kin
  end.

(** The axisymmetric sample prepared for a fit to [sample_full_kin], whose
    velocities come with inverse variances. *)
Definition sample_axisym_weighted_fit : AxisymmetricDisk.t :=
  (AxisymmetricDisk._fit_prep sample_full_kin None None false
     (AxisymmetricDisk.__init__ sample_curve None)).2.

(** The weighted residual of the axisymmetric sample on [sample_full_kin]. *)
Lemma axisym_chisqr_weights_example :
  exists iv r vm,
    Kinematics.vel_ivar sample_full_kin = Some iv /\
    Kinematics.vel_mask sample_full_kin = Some vm /\
    AxisymmetricDisk._resid (NDArray [6%nat] [0; 0; 45; 30; 0; 100]%R)
      sample_axisym_weighted_fit
    = (Return r,
       AxisymmetricDisk.set_par [0; 0; 45; 30; 0; 100]%R sample_axisym_weighted_fit) /\
    Forall (fun w => (0 < w)%R) (mask_filter (map negb vm) iv) /\
    AxisymmetricDisk._chisqr (NDArray [6%nat] [0; 0; 45; 30; 0; 100]%R)
      sample_axisym_weighted_fit
    = (Return (NDArray [count_true (map negb vm)]
                 (zip_with Rmult (ravel r) (map sqrt (mask_filter (map negb vm) iv)))),
       AxisymmetricDisk.set_par [0; 0; 45; 30; 0; 100]%R sample_axisym_weighted_fit).
Proof.
  destruct (Kinematics.vel_ivar sample_full_kin) as [iv|] eqn:Hiv.
  - destruct (axisym_chisqr_weights sample_full_args sample_full_kin sample_curve
                None None FomChisqr sample_axisym_weighted_fit
                (NDArray [6%nat] [0; 0; 45; 30; 0; 100]%R) iv
                sample_full_wf eq_refl)
      as (_ & r & vm & Hres & Hvm & Hpos & Hchi);
      try reflexivity; try discriminate; try exact Hiv.
    exists iv, r, vm. split; [reflexivity|]. split; [exact Hvm|].
    split; [exact Hres|]. split; [exact Hpos | exact Hchi].
  - exfalso. vm_compute in Hiv. discriminate Hiv.
Defined.

(** Arguments with nothing but [vel]. *)
Definition sample_args_of (v : marray) : Kinematics.args :=
  {| Kinematics.arg_vel := v;
     Kinematics.arg_vel_ivar := None; Kinematics.arg_vel_mask := None;
     Kinematics.arg_x := None; Kinematics.arg_y := None;
     Kinematics.arg_sb := None; Kinematics.arg_sb_ivar := None;
     Kinematics.arg_sb_mask := None;
     Kinematics.arg_sig := None; Kinematics.arg_sig_ivar := None;
     Kinematics.arg_sig_mask := None; Kinematics.arg_sig_corr := None;
     Kinematics.arg_psf := None; Kinematics.arg_aperture := None;
     Kinematics.arg_binid := None;
     Kinematics.arg_grid_x := None; Kinematics.arg_grid_y := None;
     Kinematics.arg_reff := None; Kinematics.arg_fwhm := None;
     Kinematics.arg_bordermask := None |}.

(** A one-dimensional [vel] and a 2 by 3 [vel]. *)
Lemma init_refuses_vel_not_square_example :
  Kinematics.__init__ (sample_args_of (Plain (NDArray [4%nat] [10; 20; 30; 40]%R)))
  = Raise (ValueError "Input arrays to Kinematics must be 2D.") /\
  Kinematics.__init__
    (sample_args_of (Plain (NDArray [2%nat; 3%nat] [10; 20; 30; 40; 50; 60]%R)))
  = Raise (ValueError "Input arrays to Kinematics must be square.").
Proof.
  split.
  - apply (proj1 (init_refuses_vel_not_square _) 4%nat []); [reflexivity | discriminate].
  - apply (proj2 (init_refuses_vel_not_square _) 2%nat 3%nat); [reflexivity | discriminate].
Defined.

(** [lsq_fit] of the bisymmetric sample with a guess of the right length. *)
Lemma bisym_lsq_fit_never_returns_example :
  exists e s',
    BisymmetricDisk.lsq_fit sample_binned_kin false (Some sample_bisym_par) None
      None None None 0 false true
      (BisymmetricDisk.__init__ sample_curve sample_curve sample_curve None)
    = (Raise e, s').
Proof.
  exact (proj2 (bisym_lsq_fit_never_returns sample_binned_kin false (Some sample_bisym_par)
                  None None None None 0 false true
                  (BisymmetricDisk.__init__ sample_curve sample_curve sample_curve None))).
Defined.

(** [par_names(short=True)] with curves that name two parameters. *)
Lemma bisym_par_names_never_returns_example :
  BisymmetricDisk.par_names (fun _ _ => Return ["v"; "h"]%string) true sample_bisym
  = Raise TypeError.
Proof.
  apply (proj2 (bisym_par_names_never_returns _ true sample_bisym)).
  intros c. eexists. reflexivity.
Defined.

(** [_init_coo] with coordinates of two shapes raises after it has stored
    them. *)
Lemma init_coo_stores_then_checks_example :
  exists s',
    AxisymmetricDisk._init_coo (Some (sample_map 1 (-1) 1 (-1)))
      (Some (NDArray [3%nat] [0; 1; 2]%R)) None sample_axisym
    = (Raise (ValueError "Input coordinates must have the same shape."), s') /\
    AxisymmetricDisk.x s' = Some (sample_map 1 (-1) 1 (-1)) /\
    AxisymmetricDisk.y s' = Some (NDArray [3%nat] [0; 1; 2]%R) /\
    AxisymmetricDisk.par s' = AxisymmetricDisk.par sample_axisym.
Proof.
  destruct (AxisymmetricDisk._init_coo (Some (sample_map 1 (-1) 1 (-1)))
              (Some (NDArray [3%nat] [0; 1; 2]%R)) None sample_axisym) as [r s'] eqn:Hc.
  destruct (proj2 init_coo_stores_then_checks _ _ _ _ _ _ Hc) as (Hx & Hy & Hpar & _).
  exists s'. split; [|split; [exact Hx|split; [exact Hy | exact Hpar]]].
  f_equal. apply (f_equal fst) in Hc. symmetry. exact Hc.
Defined.

(** The default bounds of [xc] on the sample grid, whose [x] takes the values
    1 and -1. *)
Lemma default_bounds_enclose_grid_example :
  exists lb ub lx ux,
    AxisymmetricDisk.par_bounds sample_axisym_on_grid = Return (lb, ub) /\
    lb !! 0%nat = Some lx /\ ub !! 0%nat = Some ux /\
    (lx <= 1 <= ux)%R /\ (lx <= -1 <= ux)%R.
Proof.
  destruct (proj1 default_bounds_enclose_grid sample_axisym_on_grid _ _ eq_refl eq_refl)
    as (lb & ub & lx & ux & ly & uy & Hb & Hlb & Hub & Hx & _); try discriminate.
  exists lb, ub, lx, ux. split; [exact Hb|].
  split; [by destruct lb; [|injection Hlb as -> _]|].
  split; [by destruct ub; [|injection Hub as -> _]|].
  split; apply Hx; simpl; tauto.
Defined.

(** ** Examples for the bin transform *)



(** For unbinned data the binary64 operator is the identity with weights
    1.0: on the 2 by 2 grid the vector [[1/3, 1/10, 5, 0]], remapped and
    binned again, comes back as it is. *)
Lemma bin_remap_unbinned_binary64_example :
  exists ids indx gi bi bt img,
    Float64.bin_bookkeeping None 4 = Return (ids, indx, gi, bi, bt) /\
    let v := [PrimFloat.div (Float64.of_nat 1) (Float64.of_nat 3);
              PrimFloat.div (Float64.of_nat 1) (Float64.of_nat 10);
              Float64.of_nat 5; Float64.of_nat 0] in
    Float64.remap [2%nat; 2%nat] gi bi 4 (NDArray [4%nat] v) = Return img /\
    Float64.bin [2%nat; 2%nat] bt img = Return v.
Proof. do 6 eexists. split; [reflexivity|]. split; reflexivity. Qed.



